(** * PackageNest: package ingestion, identity and query engine

    A shallow embedding of [src/service/DefaultService.ts] and
    [src/queries/packageQueries.ts]: the service functions
    [packageCreate], [packageRetrieve], [packagesList] and
    [registryReset], together with the platform functions they call
    (string trimming, base64, UUID version 5) and a model of the two
    stores (an S3 bucket and three relational tables).

    JavaScript strings are modelled as the byte strings ([string]) of
    their UTF-8 encoding; a value that may be [undefined] is an
    [option].  Every call that leaves the
    process (S3, PostgreSQL, the resolver, HTTP) is written to a log kept
    in the store, and a record of the surroundings says which calls fail.

    The helpers of the repository that [src/] does not contain
    ([CustomError], [packageExistsQuery], the three insert queries,
    [executeSqlFile] and the two resolver functions) are modelled from
    the specification and marked as such.

    The file has two parts: the definitions, then the properties. *)

From Stdlib Require Import ZArith NArith List Bool Lia.
From Stdlib Require Import DecimalString.
From Stdlib.Strings Require Import String Ascii Byte.
From stdpp Require Import gmap strings list sorting.

Local Open Scope string_scope.
Local Open Scope list_scope.

(** ** JavaScript strings *)

Module Js.

(** [!s] is false exactly for a non-empty string; [undefined] is falsy. *)
Definition truthy (s : option string) : bool :=
  match s with
  | Some (String _ _) => true
  | _ => false
  end.

(** The one-byte characters of the [WhiteSpace] and [LineTerminator]
    productions, which [String.prototype.trim] and [parseInt] strip:
    TAB, LF, VT, FF, CR and SP. *)
Definition is_space (c : ascii) : bool :=
  let n := N_of_ascii c in
  ((9 <=? n) && (n <=? 13) || (n =? 32))%N.

(** The other characters of the two productions, in UTF-8: U+00A0,
    U+1680, U+2000 to U+200A, U+2028, U+2029, U+202F, U+205F, U+3000
    and U+FEFF.  [space_length s] is the number of bytes of the
    white-space character at the head of [s], and [0] when [s] does
    not start with one. *)
Definition space_length (s : string) : nat :=
  match s with
  | EmptyString => 0
  | String c s1 =>
      let a := N_of_ascii c in
      if is_space c then 1
      else
        match s1 with
        | EmptyString => 0
        | String d s2 =>
            let b := N_of_ascii d in
            if ((a =? 194) && (b =? 160))%N then 2
            else
              match s2 with
              | EmptyString => 0
              | String e _ =>
                  let x := N_of_ascii e in
                  if ((a =? 225) && (b =? 154) && (x =? 128))%N then 3
                  else if ((a =? 226) && (b =? 128)
                           && (((128 <=? x) && (x <=? 138))
                               || (x =? 168) || (x =? 169) || (x =? 175)))%N
                  then 3
                  else if ((a =? 226) && (b =? 129) && (x =? 159))%N then 3
                  else if ((a =? 227) && (b =? 128) && (x =? 128))%N then 3
                  else if ((a =? 239) && (b =? 187) && (x =? 191))%N then 3
                  else 0
              end
        end
  end.

(** The bytes with which a white-space character can start. *)
Definition starts_space (c : ascii) : bool :=
  let n := N_of_ascii c in
  is_space c
  || ((n =? 194) || (n =? 225) || (n =? 226) || (n =? 227) || (n =? 239))%N.

(** Drops leading white space; [pending] counts the bytes that are left
    of the white-space character being dropped. *)
Fixpoint trim_start_from (pending : nat) (s : string) : string :=
  match s with
  | EmptyString => EmptyString
  | String c s' =>
      match pending with
      | S k => trim_start_from k s'
      | O =>
          match space_length (String c s') with
          | O => String c s'
          | S k => trim_start_from k s'
          end
      end
  end.

Definition trim_start (s : string) : string := trim_start_from 0 s.

(** A string of white space only. *)
Definition blank (s : string) : bool :=
  match trim_start s with
  | EmptyString => true
  | String _ _ => false
  end.

(** Drops trailing white space: what is left where only white space
    follows. *)
Fixpoint trim_end (s : string) : string :=
  match s with
  | EmptyString => EmptyString
  | String c s' =>
      if blank (String c s') then EmptyString else String c (trim_end s')
  end.

Definition trim (s : string) : string := trim_end (trim_start s).

(** Template-literal interpolation [`${x}`] of a possibly undefined string. *)
Definition interp (s : option string) : string :=
  match s with
  | Some x => x
  | None => "undefined"
  end.

Definition is_digit (c : ascii) : bool :=
  let n := N_of_ascii c in ((48 <=? n) && (n <=? 57))%N.

End Js.

(** ** Buffers and base64 *)

Definition Buffer := list byte.

Definition byteN (b : byte) : N := N_of_ascii (ascii_of_byte b).
Definition Nbyte (n : N) : byte := byte_of_ascii (ascii_of_N n).

Module Base64.

Definition alphabet : string :=
  "ABCDEFGHIJKLMNOPQRSTUVWXYZabcdefghijklmnopqrstuvwxyz0123456789+/".

Definition char (n : N) : ascii :=
  match String.get (N.to_nat n) alphabet with
  | Some c => c
  | None => "="%char
  end.

(** Node accepts the standard and the URL-safe alphabet when decoding. *)
Definition index (c : ascii) : option N :=
  let n := N_of_ascii c in
  (if (65 <=? n) && (n <=? 90) then Some (n - 65)
   else if (97 <=? n) && (n <=? 122) then Some (n - 71)
   else if (48 <=? n) && (n <=? 57) then Some (n + 4)
   else if (n =? 43) || (n =? 45) then Some 62
   else if (n =? 47) || (n =? 95) then Some 63
   else None)%N.

(** [buf.toString("base64")]: three bytes make a 24-bit group that is
    written as four 6-bit digits; a short tail is padded with [=]. *)
Fixpoint encode (bs : list byte) : string :=
  match bs with
  | [] => EmptyString
  | [a] =>
      let n := (byteN a * 65536)%N in
      String (char (n / 262144)) (String (char ((n / 4096) mod 64)) "==")
  | [a; b] =>
      let n := (byteN a * 65536 + byteN b * 256)%N in
      String (char (n / 262144)) (String (char ((n / 4096) mod 64))
        (String (char ((n / 64) mod 64)) "="))
  | a :: b :: c :: rest =>
      let n := (byteN a * 65536 + byteN b * 256 + byteN c)%N in
      String (char (n / 262144)) (String (char ((n / 4096) mod 64))
        (String (char ((n / 64) mod 64)) (String (char (n mod 64))
          (encode rest))))
  end.

(** The digits of a base64 string as Node reads them: characters outside
    the alphabet are skipped and the first [=] ends the input. *)
Fixpoint sextets (s : string) : list N :=
  match s with
  | EmptyString => []
  | String c s' =>
      if Ascii.eqb c "="%char then []
      else match index c with
           | Some n => n :: sextets s'
           | None => sextets s'
           end
  end.

Fixpoint bytes (l : list N) : list byte :=
  match l with
  | s0 :: s1 :: s2 :: s3 :: rest =>
      let n := (((s0 * 64 + s1) * 64 + s2) * 64 + s3)%N in
      Nbyte (n / 65536) :: Nbyte ((n / 256) mod 256) :: Nbyte (n mod 256)
        :: bytes rest
  | [s0; s1; s2] =>
      let n := (((s0 * 64 + s1) * 64 + s2) * 64)%N in
      [Nbyte (n / 65536); Nbyte ((n / 256) mod 256)]
  | [s0; s1] =>
      let n := ((s0 * 64 + s1) * 4096)%N in
      [Nbyte (n / 65536)]
  | _ => []
  end.

(** [Buffer.from(s, "base64")]. *)
Definition decode (s : string) : Buffer := bytes (sextets s).

(** [btoa(s)]: base64 of the characters of [s] taken as bytes. *)
Definition btoa (s : string) : string := encode (list_byte_of_string s).

(** The digit [n] is read back as [n] and is not the padding character. *)
Definition digit_ok (n : N) : bool :=
  match index (char n) with
  | Some m => N.eqb m n
  | None => false
  end && negb (Ascii.eqb (char n) "="%char).

End Base64.

(** ** SHA-1 and name-based UUIDs (the [uuid] package's [v5])

    Words are 32-bit integers in [Z]; every addition and shift is
    reduced modulo [2^32]. *)

Module Sha1.

Local Open Scope Z_scope.

Definition w32 (x : Z) : Z := x mod 4294967296.
Definition add32 (x y : Z) : Z := w32 (x + y).
Definition rotl (n x : Z) : Z :=
  Z.lor (w32 (Z.shiftl x n)) (Z.shiftr x (32 - n)).
Definition not32 (x : Z) : Z := Z.lxor x 4294967295.

(** The message followed by the bit [1], zeros up to 56 modulo 64 bytes
    and the bit length as a 64-bit big-endian integer. *)
Definition be_bytes (k : nat) (x : Z) : list Z :=
  map (fun i => Z.shiftr x (8 * Z.of_nat i) mod 256) (rev (seq 0 k)).

Definition pad (msg : list Z) : list Z :=
  let len := Z.of_nat (length msg) in
  msg ++ [128] ++ repeat 0 (Z.to_nat ((55 - len) mod 64))
      ++ be_bytes 8 (8 * len).

Fixpoint words (bs : list Z) : list Z :=
  match bs with
  | a :: b :: c :: d :: rest =>
      (((a * 256 + b) * 256 + c) * 256 + d) :: words rest
  | _ => []
  end.

(** The message schedule, most recent word first. *)
Fixpoint expand (n : nat) (rw : list Z) : list Z :=
  match n with
  | O => rw
  | S n' =>
      let x := Z.lxor (Z.lxor (nth 2 rw 0) (nth 7 rw 0))
                      (Z.lxor (nth 13 rw 0) (nth 15 rw 0)) in
      expand n' (rotl 1 x :: rw)
  end.

Definition schedule (block : list Z) : list Z :=
  rev (expand 64 (rev block)).

Definition state : Type := Z * Z * Z * Z * Z.

Definition round (t : Z) (s : state) (w : Z) : state :=
  let '(a, b, c, d, e) := s in
  let '(f, k) :=
    if t <? 20 then (Z.lor (Z.land b c) (Z.land (not32 b) d), 1518500249)
    else if t <? 40 then (Z.lxor (Z.lxor b c) d, 1859775393)
    else if t <? 60 then
      (Z.lor (Z.lor (Z.land b c) (Z.land b d)) (Z.land c d), 2400959708)
    else (Z.lxor (Z.lxor b c) d, 3395469782) in
  let temp := add32 (add32 (add32 (add32 (rotl 5 a) f) e) k) w in
  (temp, a, rotl 30 b, c, d).

Fixpoint rounds (t : Z) (ws : list Z) (s : state) : state :=
  match ws with
  | [] => s
  | w :: ws' => rounds (t + 1) ws' (round t s w)
  end.

Definition compress (h : state) (block : list Z) : state :=
  let '(a, b, c, d, e) := rounds 0 (schedule block) h in
  let '(h0, h1, h2, h3, h4) := h in
  (add32 h0 a, add32 h1 b, add32 h2 c, add32 h3 d, add32 h4 e).

Fixpoint blocks (n : nat) (ws : list Z) (h : state) : state :=
  match n with
  | O => h
  | S n' => blocks n' (skipn 16 ws) (compress h (firstn 16 ws))
  end.

Definition init : state :=
  (1732584193, 4023233417, 2562383102, 271733878, 3285377520).

Definition digest (msg : list Z) : list Z :=
  let ws := words (pad msg) in
  let '(h0, h1, h2, h3, h4) := blocks (length ws / 16) ws init in
  be_bytes 4 h0 ++ be_bytes 4 h1 ++ be_bytes 4 h2 ++ be_bytes 4 h3
    ++ be_bytes 4 h4.

End Sha1.

Module Uuid.

Local Open Scope Z_scope.

Definition hex_digit (n : Z) : ascii :=
  ascii_of_N (Z.to_N (if n <? 10 then 48 + n else 87 + n)).

Definition hex_value (c : ascii) : option Z :=
  let n := Z.of_N (N_of_ascii c) in
  if (48 <=? n) && (n <=? 57) then Some (n - 48)
  else if (97 <=? n) && (n <=? 102) then Some (n - 87)
  else if (65 <=? n) && (n <=? 70) then Some (n - 55)
  else None.

(** The sixteen bytes of a UUID string; dashes are separators. *)
Fixpoint nibbles (s : string) : list Z :=
  match s with
  | EmptyString => []
  | String c rest =>
      match hex_value c with
      | Some x => x :: nibbles rest
      | None => nibbles rest
      end
  end.

Fixpoint pairs (l : list Z) : list Z :=
  match l with
  | x :: y :: rest => (16 * x + y) :: pairs rest
  | _ => []
  end.

Definition parse (s : string) : list Z := pairs (nibbles s).

Definition hex_byte (b : Z) (rest : string) : string :=
  String (hex_digit (b / 16)) (String (hex_digit (b mod 16)) rest).

Fixpoint hex (bs : list Z) : string :=
  match bs with
  | [] => EmptyString
  | b :: bs' => hex_byte b (hex bs')
  end.

(** [stringify]: the layout 8-4-4-4-12. *)
Definition stringify (bs : list Z) : string :=
  hex (firstn 4 bs) +:+ "-" +:+ hex (firstn 2 (skipn 4 bs)) +:+ "-"
    +:+ hex (firstn 2 (skipn 6 bs)) +:+ "-"
    +:+ hex (firstn 2 (skipn 8 bs)) +:+ "-" +:+ hex (firstn 6 (skipn 10 bs)).

Definition bytes_of_string (s : string) : list Z :=
  map (fun c => Z.of_N (N_of_ascii c)) (list_ascii_of_string s).

(** Version and variant bits are written into bytes 6 and 8 of the
    first sixteen bytes of the digest. *)
Definition stamp (bs : list Z) : list Z :=
  match bs with
  | b0 :: b1 :: b2 :: b3 :: b4 :: b5 :: b6 :: b7 :: b8 :: rest =>
      b0 :: b1 :: b2 :: b3 :: b4 :: b5
         :: Z.lor (Z.land b6 15) 80 :: b7
         :: Z.lor (Z.land b8 63) 128 :: rest
  | _ => bs
  end.

Definition v5 (name namespace : string) : string :=
  stringify
    (stamp (firstn 16 (Sha1.digest (parse namespace ++ bytes_of_string name)))).

End Uuid.

(** ** Regular expressions

    The anchored patterns of [packagesList] are matched with Brzozowski
    derivatives; [test r s] is [/^r$/.test(s)]. *)

Module Regex.

Inductive t : Type :=
| Void
| Eps
| Lit (c : ascii)
| Digit
| Cat (r s : t)
| Alt (r s : t)
| Star (r : t).

Definition plus (r : t) : t := Cat r (Star r).

Fixpoint nullable (r : t) : bool :=
  match r with
  | Void | Lit _ | Digit => false
  | Eps | Star _ => true
  | Cat r s => nullable r && nullable s
  | Alt r s => nullable r || nullable s
  end.

Fixpoint deriv (c : ascii) (r : t) : t :=
  match r with
  | Void | Eps => Void
  | Lit c' => if Ascii.eqb c c' then Eps else Void
  | Digit => if Js.is_digit c then Eps else Void
  | Cat r s =>
      if nullable r then Alt (Cat (deriv c r) s) (deriv c s)
      else Cat (deriv c r) s
  | Alt r s => Alt (deriv c r) (deriv c s)
  | Star r => Cat (deriv c r) (Star r)
  end.

Fixpoint test (r : t) (s : string) : bool :=
  match s with
  | EmptyString => nullable r
  | String c s' => test (deriv c r) s'
  end.

(** The characters a match of [r] can contain. *)
Fixpoint chars (r : t) (x : ascii) : bool :=
  match r with
  | Void | Eps => false
  | Lit c => Ascii.eqb x c
  | Digit => Js.is_digit x
  | Cat r s | Alt r s => chars r x || chars s x
  | Star r => chars r x
  end.

(** Patterns that match nothing. *)
Fixpoint dead (r : t) : bool :=
  match r with
  | Void => true
  | Cat r s => dead r || dead s
  | Alt r s => dead r && dead s
  | _ => false
  end.

(** Patterns all of whose matches contain the character [c]. *)
Fixpoint needs (c : ascii) (r : t) : bool :=
  match r with
  | Void => true
  | Lit c' => Ascii.eqb c c'
  | Cat r s => needs c r || needs c s
  | Alt r s => needs c r && needs c s
  | _ => false
  end.

End Regex.

(** [/github\.com\/([^/]+)\/([^/]+)(?:\/blob\/([^/]+)\/(.+))?/]: the first
    place where [github.com/] is followed by two non-empty path segments;
    the result is the pair of capture groups 1 and 2. *)

Module GithubUrl.

(** The longest prefix without [/], and what follows it. *)
Fixpoint segment (s : string) : string * string :=
  match s with
  | EmptyString => (EmptyString, EmptyString)
  | String c s' =>
      if Ascii.eqb c "/"%char then (EmptyString, s)
      else let '(seg, rest) := segment s' in (String c seg, rest)
  end.

Definition groups (s : string) : option (string * string) :=
  let '(owner, r1) := segment s in
  match owner, r1 with
  | String _ _, String _ r2 =>
      let '(repo, _) := segment r2 in
      match repo with
      | String _ _ => Some (owner, repo)
      | EmptyString => None
      end
  | _, _ => None
  end.

Fixpoint match_ (s : string) : option (string * string) :=
  match s with
  | EmptyString => None
  | String _ s' =>
      let here :=
        if String.prefix "github.com/" s
        then groups (String.substring 11 (String.length s - 11) s)
        else None in
      match here with
      | Some m => Some m
      | None => match_ s'
      end
  end.

End GithubUrl.

(** [s.split(sep)] for a one-character separator. *)
Fixpoint split (sep : ascii) (s : string) : list string :=
  match s with
  | EmptyString => [EmptyString]
  | String c s' =>
      if Ascii.eqb c sep then EmptyString :: split sep s'
      else match split sep s' with
           | [] => [String c EmptyString]
           | x :: xs => String c x :: xs
           end
  end.

(** ** Numbers

    A JavaScript number that [parseInt(s, 10)] or an addition of
    integers yields: [NaN], an infinity, or an integer that is a
    double.  An integer up to [2^53] in size is its own double; a
    larger one is rounded to 53 significant bits, to nearest and to
    even on a tie, and becomes an infinity from [2^1024] on. *)

Inductive JsNumber : Type :=
| NaN
| Num (z : Z)
| Infinity (negative : bool).

Definition MAX_SAFE_INTEGER : Z := 9007199254740991.

Definition to_double (z : Z) : JsNumber :=
  let a := Z.abs z in
  if (a <=? 2 ^ 53)%Z then Num z
  else
    let e := (Z.log2 a - 52)%Z in
    let q := Z.shiftr a e in
    let r := (a mod 2 ^ e)%Z in
    let half := (2 ^ (e - 1))%Z in
    let m := if (r <? half)%Z then q
             else if (half <? r)%Z then (q + 1)%Z
             else if Z.even q then q else (q + 1)%Z in
    if (2 ^ 1024 <=? m * 2 ^ e)%Z then Infinity (z <? 0)%Z
    else Num (Z.sgn z * (m * 2 ^ e))%Z.

Definition js_add (a : JsNumber) (b : Z) : JsNumber :=
  match a with
  | NaN => NaN
  | Num z => to_double (z + b)
  | Infinity negative => Infinity negative
  end.

Fixpoint digits (s : string) : list Z :=
  match s with
  | String c s' =>
      if Js.is_digit c then (Z.of_N (N_of_ascii c) - 48)%Z :: digits s'
      else []
  | EmptyString => []
  end.

Definition parseInt (s : string) : JsNumber :=
  let t := Js.trim_start s in
  let '(sign, body) :=
    match t with
    | String "-"%char r => ((-1)%Z, r)
    | String "+"%char r => (1%Z, r)
    | _ => (1%Z, t)
    end in
  match digits body with
  | [] => NaN
  | ds => to_double (sign * fold_left (fun acc d => 10 * acc + d) ds 0)%Z
  end.

(** ** Errors, rows and stores *)

(** Modelled from the spec: [CustomError] of [utils/types], a domain error
    that carries a message and a status code (its kind).  [Error] is any
    other JavaScript error, such as the ones the S3 client, the database
    driver and [axios] reject with. *)
Inductive JsError : Type :=
| CustomError (message : string) (status : Z)
| Error (message : string).

Definition message (e : JsError) : string :=
  match e with
  | CustomError m _ => m
  | Error m => m
  end.

Definition instanceof_CustomError (e : JsError) : bool :=
  match e with
  | CustomError _ _ => true
  | Error _ => false
  end.

(** [public.packages]; [name] is NULL when the service passes [undefined]. *)
Record PackageRow : Type := {
  name : option string;
  version : string;
  package_id : string;
  content_type : bool
}.

Record MetadataRow : Type := {
  m_name : option string;
  m_version : string;
  m_package_id : string
}.

(** [public.package_data]. *)
Record PackageDataRow : Type := {
  pd_package_id : string;
  pd_content_type : bool;
  url : option string;
  debloat : bool;
  js_program : option string
}.

(** One conjunct of a filter entry, with its bound parameter in place of
    the [$n] placeholder. *)
Inductive Condition : Type :=
| NameEq (v : string)                   (* name = $n *)
| IdEq (v : string)                     (* id = $n *)
| VersionEq (v : string)                (* version = $n *)
| VersionBetween (lo hi : option string) (* version >= $n AND version <= $n+1 *)
| VersionLike (pattern : string).       (* version LIKE $n *)

(** A where clause of [packagesList]: entries joined by OR, the
    conditions of one entry joined by AND. *)
Definition WhereClause : Type := list (list Condition).

(** What the service returns for one package. *)
Record PackageMetadata : Type := {
  Name : option string;
  Version : option string;
  ID : string
}.

Record PackageData : Type := {
  Content : option string;
  JSProgram : option string
}.

Record Package : Type := {
  metadata : PackageMetadata;
  data : PackageData
}.

(** The optional [metadata] argument of [packageCreate]. *)
Record MetadataArg : Type := {
  arg_Version : option string;
  arg_ID : option string;
  arg_Name : option string
}.

Record PackageQuery : Type := {
  q_Version : option string;
  q_ID : option string;
  q_Name : option string
}.

Record PackagesListResponse : Type := {
  packages_of : list PackageRow;
  nextOffset : option JsNumber
}.

(** What [getPackageInfoRepo] and [getPackageInfoZipFile] resolve to. *)
Record PackageInfo : Type := {
  info_name : option string;
  info_version : option string
}.

(** Calls that leave the process. *)
Inductive Op : Type :=
| ResolveRepo (owner repo : string)
| ResolveZip (content : string)
| HttpGet (url : string)
| S3Put (key : string) (body : Buffer)
| S3Get (key : string)
| S3List (prefix : string)
| S3Delete (keys : list string)
| DbExists (id : string)
| DbInsertPackage (row : PackageRow)
| DbInsertMetadata (row : MetadataRow)
| DbInsertData (row : PackageDataRow)
| DbSelectById (id : string)
| DbSelectPackages (conditions : list WhereClause) (limit : Z) (offset : JsNumber)
| DbReset.

Definition is_write (op : Op) : bool :=
  match op with
  | S3Put _ _ | S3Delete _ | DbInsertPackage _ | DbInsertMetadata _
  | DbInsertData _ | DbReset => true
  | _ => false
  end.

Definition is_resolve (op : Op) : bool :=
  match op with
  | ResolveRepo _ _ | ResolveZip _ => true
  | _ => false
  end.

Definition touches_store (op : Op) : bool :=
  match op with
  | ResolveRepo _ _ | ResolveZip _ | HttpGet _ => false
  | _ => true
  end.

(** The surroundings of the service: configuration, the collaborators
    that live outside [src/], and which calls fail.

    Modelled from the spec: [getPackageInfoRepo] and
    [getPackageInfoZipFile] of [utils/retrievePackageJson] are the Origin
    Resolver, [resolve(url|content) -> {name, version}]; [db_where] is the
    relational engine deciding whether a row satisfies the where clauses. *)
Record Env : Type := {
  bucketName : option string;               (* process.env.S3_BUCKET_NAME *)
  fault : Op -> option string;              (* the call rejects with this message *)
  getPackageInfoRepo : string -> string -> option PackageInfo;
  getPackageInfoZipFile : string -> option PackageInfo;
  http_body : string -> Buffer;             (* response.data of axios.get *)
  db_where : list WhereClause -> PackageRow -> bool
}.

(** The bucket, the three tables in insertion order, and the calls made
    so far, oldest first. *)
Record Store : Type := {
  s3 : gmap string Buffer;
  packages : list PackageRow;
  package_metadata : list MetadataRow;
  package_data : list PackageDataRow;
  log : list Op
}.

(** ** A state and exception monad

    A thrown error leaves the store as it is at the throw: nothing is
    rolled back. *)

Inductive Outcome (A : Type) : Type :=
| Return (a : A)
| Throw (e : JsError).

Arguments Return {A} a.
Arguments Throw {A} e.

Definition M (A : Type) : Type := Store -> Outcome A * Store.

Definition ret {A} (a : A) : M A := fun st => (Return a, st).
Definition throw {A} (e : JsError) : M A := fun st => (Throw e, st).

Definition bind {A B} (m : M A) (k : A -> M B) : M B :=
  fun st =>
    match m st with
    | (Return a, st') => k a st'
    | (Throw e, st') => (Throw e, st')
    end.

Definition try_catch {A} (m : M A) (handler : JsError -> M A) : M A :=
  fun st =>
    match m st with
    | (Return a, st') => (Return a, st')
    | (Throw e, st') => handler e st'
    end.

Notation "x <- m ;; k" := (bind m (fun x => k))
  (at level 100, m at next level, right associativity).
Notation "m ;;; k" := (bind m (fun _ => k))
  (at level 100, right associativity).

Definition modify (f : Store -> Store) : M unit := fun st => (Return tt, f st).
Definition gets {A} (f : Store -> A) : M A := fun st => (Return (f st), st).

Definition record (op : Op) (st : Store) : Store :=
  {| s3 := s3 st; packages := packages st;
     package_metadata := package_metadata st;
     package_data := package_data st; log := log st ++ [op] |}.

Definition set_s3 (f : gmap string Buffer -> gmap string Buffer) (st : Store) : Store :=
  {| s3 := f (s3 st); packages := packages st;
     package_metadata := package_metadata st;
     package_data := package_data st; log := log st |}.

Definition LIST_MAX_KEYS : nat := 1000.

(** Whether a Package row with this id is stored. *)
Definition hasId (id : string) (st : Store) : bool :=
  existsb (fun r => String.eqb (package_id r) id) (packages st).

(** The order in which S3 lists keys: by their UTF-8 bytes. *)
Definition keyOrder (a b : string) : Prop := String.leb a b = true.

Definition sortKeys (keys : list string) : list string :=
  merge_sort keyOrder (H := fun a b => decide (String.leb a b = true)) keys.

(** The keys of the bucket that start with [prefix], as S3 lists them. *)
Definition keysUnder (prefix : string) (bucket : gmap string Buffer) : list string :=
  List.filter (String.prefix prefix) (sortKeys (map fst (map_to_list bucket))).

Definition deleteKeys (keys : list string) (bucket : gmap string Buffer)
    : gmap string Buffer :=
  fold_right (fun k acc => delete k acc) bucket keys.

Section Service.

Variable env : Env.

(** An outside call: it is logged, then it rejects if the surroundings
    say so. *)
Definition call (op : Op) : M unit :=
  fun st =>
    match fault env op with
    | Some msg => (Throw (Error msg), record op st)
    | None => (Return tt, record op st)
    end.

(** *** The S3 client *)

Definition s3_putObject (key : string) (body : Buffer) : M unit :=
  call (S3Put key body) ;;; modify (set_s3 (fun m => <[key := body]> m)).

Definition s3_getObject (key : string) : M Buffer :=
  call (S3Get key) ;;;
  (fun st =>
     match s3 st !! key with
     | Some body => (Return body, st)
     | None => (Throw (Error "The specified key does not exist."), st)
     end).

(** One page of keys: S3 returns at most [LIST_MAX_KEYS] of them per
    request and the service asks once. *)
Definition s3_listObjectsV2 (prefix : string) : M (list string) :=
  call (S3List prefix) ;;;
  gets (fun st => firstn LIST_MAX_KEYS (keysUnder prefix (s3 st))).

Definition s3_deleteObjects (keys : list string) : M unit :=
  call (S3Delete keys) ;;;
  modify (set_s3 (deleteKeys keys)).

(** *** Queries *)

(** Modelled from the spec: [packageExistsQuery] of [packageQueries],
    [Exists(id) -> bool], a single read against the metadata store. *)
Definition packageExistsQuery (id : string) : M bool :=
  call (DbExists id) ;;; gets (hasId id).

(** Modelled from the spec: [insertPackageQuery], [insertIntoMetadataQuery]
    and [insertIntoPackageDataQuery] of [packageQueries] insert the Package
    row, the metadata row and the PackageOrigin row. *)
Definition insertPackageQuery (nm : option string) (ver id : string) (ct : bool) : M unit :=
  let row := {| name := nm; version := ver; package_id := id; content_type := ct |} in
  call (DbInsertPackage row) ;;;
  modify (fun st =>
    {| s3 := s3 st; packages := packages st ++ [row];
       package_metadata := package_metadata st;
       package_data := package_data st; log := log st |}).

Definition insertIntoMetadataQuery (nm : option string) (ver id : string) : M unit :=
  let row := {| m_name := nm; m_version := ver; m_package_id := id |} in
  call (DbInsertMetadata row) ;;;
  modify (fun st =>
    {| s3 := s3 st; packages := packages st;
       package_metadata := package_metadata st ++ [row];
       package_data := package_data st; log := log st |}).

Definition insertIntoPackageDataQuery (id : string) (ct : bool)
    (u : option string) (db : bool) (js : option string) : M unit :=
  let row := {| pd_package_id := id; pd_content_type := ct; url := u;
                debloat := db; js_program := js |} in
  call (DbInsertData row) ;;;
  modify (fun st =>
    {| s3 := s3 st; packages := packages st;
       package_metadata := package_metadata st;
       package_data := package_data st ++ [row]; log := log st |}).

(** Modelled from the spec: [executeSqlFile] of [queries/resetDB], the
    schema reset that drops and reinitialises every table. *)
Definition executeSqlFile : M unit :=
  call DbReset ;;;
  modify (fun st =>
    {| s3 := s3 st; packages := []; package_metadata := [];
       package_data := []; log := log st |}).

(** The largest [bigint] of PostgreSQL. *)
Definition BIGINT_MAX : Z := 9223372036854775807.

(** [getPackages]: [SELECT * FROM packages WHERE ... ORDER BY id LIMIT
    limit OFFSET offset].  The table is kept in [id] order.  The driver
    sends the offset as the text of the number and PostgreSQL reads a
    [bigint]: it rejects what is not a number, what is out of range
    and what is negative. *)
Definition getPackages (conditions : list WhereClause) (limit : Z)
    (offset : JsNumber) : M (list PackageRow) :=
  call (DbSelectPackages conditions limit offset) ;;;
  match offset with
  | NaN => throw (Error "invalid input syntax for type bigint: NaN")
  | Infinity negative =>
      throw (Error ("invalid input syntax for type bigint: "
                    +:+ (if negative then "-Infinity" else "Infinity")))
  | Num k =>
      if (k <? 0)%Z then throw (Error "OFFSET must not be negative")
      else if (BIGINT_MAX <? k)%Z
      then throw (Error "value is out of range for type bigint")
      else gets (fun st =>
             firstn (Z.to_nat limit)
               (skipn (Z.to_nat k)
                  (List.filter (db_where env conditions) (packages st))))
  end.

(** The rows of [packages JOIN package_data ON package_id] for one id,
    as [packageRetrieve] selects them. *)
Record JoinedRow : Type := {
  packagename : option string;
  packageversion : string;
  packageid : string;
  packageurl : option string;
  packagejs : option string;
  j_content_type : bool
}.

Definition joinedRows (id : string) (st : Store) : list JoinedRow :=
  flat_map (fun p =>
    flat_map (fun pd =>
      if String.eqb (package_id p) (pd_package_id pd)
         && String.eqb (package_id p) id
      then [ {| packagename := name p; packageversion := version p;
                packageid := package_id p; packageurl := url pd;
                packagejs := js_program pd;
                j_content_type := content_type p |} ]
      else [])
      (package_data st))
    (packages st).

Definition selectById (id : string) : M (list JoinedRow) :=
  call (DbSelectById id) ;;; gets (joinedRows id).

(** *** [packageCreate] *)

Definition NAMESPACE : string := "6ba7b810-9dad-11d1-80b4-00c04fd430c8".

Definition uuidv5 (nm ns : string) : string := Uuid.v5 nm ns.

(** The blob key of an archive. *)
Definition s3Key (packageName packageVersion : option string) : string :=
  "packages/" +:+ Js.interp packageName +:+ "/v" +:+ Js.interp packageVersion
    +:+ "/package.zip".

(** The string whose hash is the package id. *)
Definition idInput (packageName packageVersion : option string) : string :=
  Js.interp packageName +:+ "-" +:+ Js.interp packageVersion.

(** Lines 386-390: [uuidv5(`${packageName}-${packageVersion}`, NAMESPACE)]. *)
Definition Identity (packageName packageVersion : option string) : string :=
  uuidv5 (idInput packageName packageVersion) NAMESPACE.

(** Lines 332 and 341-344: the trimmed metadata version, or ["1.0.0"]. *)
Definition defaultedVersion (metadata_ : option MetadataArg) : option string :=
  let packageVersion := Js.trim <$> (metadata_ ≫= arg_Version) in
  if negb (Js.truthy packageVersion) then Some "1.0.0" else packageVersion.

(** Line 435: [`https://api.github.com/repos/${repoOwner}/${repoName}/zipball`]. *)
Definition zipballUrl (repoOwner repoName : option string) : string :=
  "https://api.github.com/repos/" +:+ Js.interp repoOwner
    +:+ "/" +:+ Js.interp repoName +:+ "/zipball".

(** [downloadFile]. *)
Definition downloadFile (u : string) : M string :=
  call (HttpGet u) ;;;
  ret (Base64.encode (http_body env u)).

(** Lines 351-384: where the name and the version come from.  The
    result is [(packageName, packageVersion, repoOwner, repoName)]. *)
Definition resolveNameVersion (Content URL Name_ packageName packageVersion : option string)
    : M (option string * option string * option string * option string) :=
  if negb (Js.truthy packageName) && negb (Js.truthy Name_) then
    if Js.truthy URL then
      match GithubUrl.match_ (Js.interp URL) with
      | None => throw (CustomError "Invalid GitHub URL format" 400)
      | Some (repoOwner, repoName) =>
          try_catch
            (call (ResolveRepo repoOwner repoName) ;;;
             let responseInfo := getPackageInfoRepo env repoOwner repoName in
             ret (responseInfo ≫= info_name, responseInfo ≫= info_version,
                  Some repoOwner, Some repoName))
            (fun _ => throw (CustomError
               "Failed to retrieve package info from package json using URL" 500))
      end
    else if Js.truthy Content then
      try_catch
        (call (ResolveZip (Js.interp Content)) ;;;
         match getPackageInfoZipFile env (Js.interp Content) with
         | Some responseInfo =>
             ret (info_name responseInfo, info_version responseInfo, None, None)
         | None => throw (Error "Cannot read properties of undefined")
         end)
        (fun _ => throw (CustomError
           "Failed to retrieve package info from package json" 500))
    else ret (packageName, packageVersion, None, None)
  else if Js.truthy Name_ then
    ret (Some (Js.trim (Js.interp Name_)), packageVersion, None, None)
  else ret (packageName, packageVersion, None, None).

(** Lines 409-459: the blob upload.  The result is
    [(contentBuffer, returnString)]. *)
Definition uploadArchive (Content URL packageName packageVersion repoOwner repoName : option string)
    : M (option string * option string) :=
  if Js.truthy Content && negb (Js.truthy URL) then
    try_catch
      (s3_putObject (s3Key packageName packageVersion)
                    (Base64.decode (Js.interp Content)) ;;;
       ret (None, Content))
      (fun _ => throw (CustomError "Failed to upload content" 500))
  else if Js.truthy URL && negb (Js.truthy Content) then
    let apiUrl := zipballUrl repoOwner repoName in
    try_catch
      (contentBuffer <- downloadFile apiUrl ;;
       s3_putObject (s3Key packageName packageVersion)
                    (Base64.decode contentBuffer) ;;;
       ret (Some contentBuffer, Some (Base64.btoa contentBuffer)))
      (fun _ => throw (CustomError
         "Failed to download or upload package from URL" 500))
  else ret (None, None).

(** Lines 461-496: the three inserts and the response. *)
Definition registerRows (JSProgram_ URL : option string) (debloatVal : bool)
    (packageName packageVersion : option string) (packageId : string)
    (contentBuffer returnString : option string) : M Package :=
  try_catch
    (let inline := negb (Js.truthy contentBuffer) in
     insertPackageQuery packageName (default "1.0.0" packageVersion) packageId inline ;;;
     insertIntoMetadataQuery packageName (default "1.0.0" packageVersion) packageId ;;;
     insertIntoPackageDataQuery packageId inline URL debloatVal JSProgram_ ;;;
     ret {| metadata := {| Name := packageName; Version := packageVersion;
                           ID := packageId |};
            data := {| Content := returnString; JSProgram := JSProgram_ |} |})
    (fun _ => throw (CustomError
       "Failed to upload package or insert into database" 500)).

Definition packageCreate (Content_ JSProgram_ URL : option string)
    (debloat_ : option bool) (Name_ : option string)
    (metadata_ : option MetadataArg) : M Package :=
  let packageName := Js.trim <$> (metadata_ ≫= arg_Name) in
  let packageId := Js.trim <$> (metadata_ ≫= arg_ID) in
  let debloatVal := default false debloat_ in
  let packageVersion := defaultedVersion metadata_ in
  if (negb (Js.truthy URL) && negb (Js.truthy Content_))
     || (Js.truthy URL && Js.truthy Content_)
  then throw (CustomError
         "Invalid request body. 'Content' or 'URL' (exclusively) is required." 400)
  else
    resolved <- resolveNameVersion Content_ URL Name_ packageName packageVersion ;;
    let '(packageName, packageVersion, repoOwner, repoName) := resolved in
    let derived := Identity packageName packageVersion in
    let packageId :=
      if negb (Js.truthy packageId)
         || negb (String.eqb (Js.interp packageId) derived)
      then derived else Js.interp packageId in
    if negb (Js.truthy (bucketName env)) then
      throw (CustomError
        "S3_BUCKET_NAME is not defined in the environment variables." 500)
    else
      found <- packageExistsQuery packageId ;;
      if found then throw (CustomError "Package already exists." 409)
      else
        uploaded <- uploadArchive Content_ URL packageName packageVersion
                                  repoOwner repoName ;;
        let '(contentBuffer, returnString) := uploaded in
        registerRows JSProgram_ URL debloatVal packageName packageVersion
                     packageId contentBuffer returnString.

(** *** [packageRetrieve] *)

(** Line 697: [`packages/${metadata.packageid}/v${metadata.packageversion}/package.zip`]. *)
Definition retrieveKey (packageid_ packageversion_ : string) : string :=
  "packages/" +:+ packageid_ +:+ "/v" +:+ packageversion_ +:+ "/package.zip".

Definition packageRetrieve (id : string) : M Package :=
  if negb (Js.truthy (bucketName env)) then
    throw (CustomError
      "S3_BUCKET_NAME is not defined in the environment variables." 500)
  else
    try_catch
      (rows <- selectById id ;;
       match rows with
       | [] => throw (CustomError "Package not found." 404)
       | metadata_ :: _ =>
           let key := retrieveKey (packageid metadata_) (packageversion metadata_) in
           body <- s3_getObject key ;;
           let content := Base64.encode body in
           if negb (Js.truthy (Some content)) then
             throw (CustomError "Package content not found in S3." 404)
           else
             ret {| metadata := {| Name := packagename metadata_;
                                   Version := Some (packageversion metadata_);
                                   ID := packageid metadata_ |};
                    data := {| Content := Some content;
                               JSProgram := packagejs metadata_ |} |}
       end)
      (fun error => throw (CustomError
         ("Failed to retrieve package: " +:+ message error) 500)).

(** *** [packagesList] *)

Definition semver : Regex.t :=
  Regex.Cat (Regex.plus Regex.Digit)
    (Regex.Cat (Regex.Lit ".")
       (Regex.Cat (Regex.plus Regex.Digit)
          (Regex.Cat (Regex.Lit ".") (Regex.plus Regex.Digit)))).

Definition exactFormat : Regex.t := semver.
Definition rangeFormat : Regex.t :=
  Regex.Cat semver (Regex.Cat (Regex.Lit "-") semver).
Definition caretFormat : Regex.t := Regex.Cat (Regex.Lit "^") semver.
Definition tildeFormat : Regex.t := Regex.Cat (Regex.Lit "~") semver.

Definition versionFormats : list Regex.t :=
  [exactFormat; rangeFormat; caretFormat; tildeFormat].

Definition substring1 (s : string) : string :=
  String.substring 1 (String.length s - 1) s.

(** Lines 829-862: the condition of a version filter. *)
Definition versionCondition (Version_ : string) : Outcome (list Condition) :=
  let version_ := Js.trim Version_ in
  if Regex.test exactFormat version_ then Return [VersionEq version_]
  else if Regex.test rangeFormat version_ then
    let parts := split "-" version_ in
    Return [VersionBetween (nth_error parts 0) (nth_error parts 1)]
  else if Regex.test caretFormat version_ then
    let parts := split "." (substring1 version_) in
    Return [VersionLike (Js.interp (nth_error parts 0) +:+ ".%")]
  else if Regex.test tildeFormat version_ then
    let parts := split "." (substring1 version_) in
    Return [VersionLike (Js.interp (nth_error parts 0) +:+ "."
                           +:+ Js.interp (nth_error parts 1) +:+ ".%")]
  else Throw (CustomError ("Invalid version format: " +:+ version_) 400).

(** Lines 792-862: the conditions of one filter entry. *)
Definition entryConditions (pkgQuery : PackageQuery) : Outcome (list Condition) :=
  let matches :=
    List.filter (fun regex => Regex.test regex (Js.interp (q_Version pkgQuery)))
                versionFormats in
  if Js.truthy (q_Version pkgQuery) && negb (Nat.eqb (length matches) 1) then
    Throw (CustomError ("Invalid or ambiguous version format: "
                          +:+ Js.interp (q_Version pkgQuery)) 400)
  else
    let byName :=
      if Js.truthy (q_Name pkgQuery) then [NameEq (Js.interp (q_Name pkgQuery))]
      else [] in
    let byId :=
      if Js.truthy (q_ID pkgQuery) then [IdEq (Js.interp (q_ID pkgQuery))]
      else [] in
    if Js.truthy (q_Version pkgQuery) then
      match versionCondition (Js.interp (q_Version pkgQuery)) with
      | Return byVersion => Return (byName ++ byId ++ byVersion)%list
      | Throw e => Throw e
      end
    else Return (byName ++ byId)%list.

(** The loop over the filter entries; an entry without conditions adds
    nothing. *)
Fixpoint packageConditions (body : list PackageQuery) : Outcome WhereClause :=
  match body with
  | [] => Return []
  | pkgQuery :: rest =>
      match entryConditions pkgQuery with
      | Throw e => Throw e
      | Return conditions =>
          match packageConditions rest with
          | Throw e => Throw e
          | Return more =>
              Return (match conditions with
                      | [] => more
                      | _ :: _ => conditions :: more
                      end)
          end
      end
  end.

(** [body.length === 1 && body[0].Name === "*"]. *)
Definition selectsAll (body : list PackageQuery) : bool :=
  match body with
  | [q] => match q_Name q with
           | Some n => String.eqb n "*"
           | None => false
           end
  | _ => false
  end.

Definition whereClauses (body : list PackageQuery) : Outcome (list WhereClause) :=
  match body with
  | [] => Return []
  | _ :: _ =>
      if selectsAll body then Return []
      else match packageConditions body with
           | Throw e => Throw e
           | Return [] => Return []
           | Return conds => Return [conds]
           end
  end.

Definition limit : Z := 10.

(** Line 776. *)
Definition offsetValue (offset : option string) : JsNumber :=
  if Js.truthy offset then parseInt (Js.interp offset) else Num 0.

Definition packagesList (body : list PackageQuery) (offset : option string)
    : M PackagesListResponse :=
  let offsetValue := offsetValue offset in
  try_catch
    (clauses <- match whereClauses body with
                | Return w => ret w
                | Throw e => throw e
                end ;;
     rows <- getPackages clauses limit offsetValue ;;
     let next :=
       if (Z.of_nat (length rows) =? limit)%Z
       then Some (js_add offsetValue limit) else None in
     ret {| packages_of := rows; nextOffset := next |})
    (fun error =>
       if instanceof_CustomError error then throw error
       else throw (CustomError "An unexpected error occurred." 500)).

(** *** [registryReset] *)

Definition registryReset : M unit :=
  if negb (Js.truthy (bucketName env)) then
    throw (Error "S3_BUCKET_NAME is not defined in the environment variables.")
  else
    try_catch
      (listed <- s3_listObjectsV2 "packages/" ;;
       match listed with
       | [] => ret tt
       | _ :: _ => s3_deleteObjects listed
       end ;;;
       executeSqlFile)
      (fun error => throw (Error ("Failed to reset registry: " +:+ message error))).

End Service.

(** ** Notions used in the statements *)

(** The answer of the Origin Resolver for a request without a name. *)
Definition resolverInfo (env : Env) (Content_ URL : option string) : option PackageInfo :=
  if Js.truthy URL then
    match GithubUrl.match_ (Js.interp URL) with
    | Some (repoOwner, repoName) => getPackageInfoRepo env repoOwner repoName
    | None => None
    end
  else getPackageInfoZipFile env (Js.interp Content_).

(** An ingestion that took [st] to [st'] and answered [pkg] used the
    version [v] for the response, the identity, the blob key and the
    Package and metadata rows. *)
Definition usesVersion (v : string) (pkg : Package) (st st' : Store) : Prop :=
  let nm := Name (metadata pkg) in
  Version (metadata pkg) = Some v
  /\ ID (metadata pkg) = Identity nm (Some v)
  /\ (exists body, s3 st' = <[s3Key nm (Some v) := body]> (s3 st))
  /\ (exists ct, packages st' = (packages st ++
         [ {| name := nm; version := v; package_id := ID (metadata pkg);
              content_type := ct |} ])%list)
  /\ package_metadata st' = (package_metadata st ++
         [ {| m_name := nm; m_version := v;
              m_package_id := ID (metadata pkg) |} ])%list.

(** A version filter that matches exactly one of the four formats. *)
Definition matchesOneFormat (v : string) : bool :=
  Nat.eqb (length (List.filter (fun regex => Regex.test regex v) versionFormats)) 1.

(** A filter entry whose version, if it has one, is well formed. *)
Definition validEntry (q : PackageQuery) : bool :=
  negb (Js.truthy (q_Version q)) || matchesOneFormat (Js.interp (q_Version q)).

Fixpoint contains (c : ascii) (s : string) : bool :=
  match s with
  | EmptyString => false
  | String x s' => Ascii.eqb x c || contains c s'
  end.





(** ** Surroundings and stores used in the examples *)

Definition emptyStore : Store :=
  {| s3 := ∅; packages := []; package_metadata := []; package_data := [];
     log := [] |}.

(** Nothing fails; the resolver finds [pkg] at version [9.9.9]; every
    row satisfies every where clause. *)
Definition calmEnv : Env :=
  {| bucketName := Some "package-nest";
     fault := fun _ => None;
     getPackageInfoRepo := fun _ _ =>
       Some {| info_name := Some "pkg"; info_version := Some "9.9.9" |};
     getPackageInfoZipFile := fun _ =>
       Some {| info_name := Some "pkg"; info_version := Some "9.9.9" |};
     http_body := fun _ => list_byte_of_string "PK-archive";
     db_where := fun _ _ => true |}.

(** As [calmEnv], but listing the bucket is refused. *)
Definition denyListing : Env :=
  {| bucketName := bucketName calmEnv;
     fault := fun op => match op with
                        | S3List _ => Some "Access Denied"
                        | _ => None
                        end;
     getPackageInfoRepo := getPackageInfoRepo calmEnv;
     getPackageInfoZipFile := getPackageInfoZipFile calmEnv;
     http_body := http_body calmEnv;
     db_where := db_where calmEnv |}.

Definition version_only (v : string) : option MetadataArg :=
  Some {| arg_Version := Some v; arg_ID := None; arg_Name := None |}.

(** Package [X] at version [1.0.0], uploaded inline into an empty registry. *)
Definition xCreated : Outcome Package * Store :=
  packageCreate calmEnv (Some "aGVsbG8=") None None None (Some "X")
    (version_only "1.0.0") emptyStore.

Definition xStore : Store := snd xCreated.

Definition xPackage : Package :=
  {| metadata := {| Name := Some "X"; Version := Some "1.0.0";
                    ID := "0fa1e118-4dd5-5760-9f72-e21644b59962" |};
     data := {| Content := Some "aGVsbG8="; JSProgram := None |} |}.

(** U+00A0, the no-break space, in UTF-8. *)
Definition nbsp : string := String (ascii_of_nat 194) (String (ascii_of_nat 160) "").

(** A metadata argument whose name is a no-break space. *)
Definition nbspNamed : option MetadataArg :=
  Some {| arg_Version := Some "2.0.0"; arg_ID := None; arg_Name := Some nbsp |}.

(** An inline upload that names no package and asks for version [2.0.0]. *)
Definition unnamedCreated : Outcome Package * Store :=
  packageCreate calmEnv (Some "aGVsbG8=") None None None None
    (version_only "2.0.0") emptyStore.

Definition unnamedStore : Store := snd unnamedCreated.

Definition unnamedPackage : Package :=
  {| metadata := {| Name := Some "pkg"; Version := Some "9.9.9";
                    ID := "95016783-58bd-5842-b2c5-c746f1a45ffc" |};
     data := {| Content := Some "aGVsbG8="; JSProgram := None |} |}.

(** An ingestion from a repository URL. *)
Definition urlCreated : Outcome Package * Store :=
  packageCreate calmEnv None None (Some "https://github.com/lodash/lodash")
    None None None emptyStore.

Definition urlStore : Store := snd urlCreated.

Definition urlPackage : Package :=
  {| metadata := {| Name := Some "pkg"; Version := Some "9.9.9";
                    ID := "95016783-58bd-5842-b2c5-c746f1a45ffc" |};
     data := {| Content := Some "VUVzdFlYSmphR2wyWlE9PQ=="; JSProgram := None |} |}.

Definition objectKey (n : nat) : string :=
  "packages/" +:+ String (ascii_of_nat (65 + n / 26 / 26))
    (String (ascii_of_nat (65 + (n / 26) mod 26))
       (String (ascii_of_nat (65 + n mod 26)) "/v1.0.0/package.zip")).

(** A bucket that holds 1001 archives. *)
Definition crowdedStore : Store :=
  {| s3 := list_to_map (map (fun n => (objectKey n, [])) (seq 0 1001));
     packages := []; package_metadata := []; package_data := []; log := [] |}.

(** A registry of twenty packages. *)
Definition twentyRows : Store :=
  {| s3 := ∅;
     packages := map (fun n => {| name := Some "pkg"; version := "1.0.0";
                                  package_id := objectKey n;
                                  content_type := true |}) (seq 0 20);
     package_metadata := []; package_data := []; log := [] |}.

Definition starQuery : list PackageQuery :=
  [ {| q_Version := Some "not-a-version"; q_ID := None; q_Name := Some "*" |} ].

Definition caretQuery : list PackageQuery :=
  [ {| q_Version := Some "^1.2.3"; q_ID := None; q_Name := Some "lodash" |} ].

Definition shortVersionQuery : list PackageQuery :=
  [ {| q_Version := Some "1.2"; q_ID := None; q_Name := Some "lodash" |} ].

(** ** Further notions used in the statements *)

(** The request passed validation, its name and version were resolved
    (leaving the store [st1]), the bucket is configured and the existence
    check answers that the id is free. *)
Definition reachesUpload (env : Env) (Content_ URL Name_ : option string)
    (metadata_ : option MetadataArg) (st : Store)
    (nm ver owner repo : option string) (st1 : Store) : Prop :=
  xorb (Js.truthy Content_) (Js.truthy URL) = true
  /\ resolveNameVersion env Content_ URL Name_
       (Js.trim <$> (metadata_ ≫= arg_Name)) (defaultedVersion metadata_) st
     = (Return (nm, ver, owner, repo), st1)
  /\ Js.truthy (bucketName env) = true
  /\ fault env (DbExists (Identity nm ver)) = None
  /\ hasId (Identity nm ver) st = false.

(** The metadata argument with another [ID]. *)
Definition withID (i : option string) (metadata_ : option MetadataArg)
    : option MetadataArg :=
  match metadata_ with
  | Some m => Some {| arg_Version := arg_Version m; arg_ID := i;
                      arg_Name := arg_Name m |}
  | None => Some {| arg_Version := None; arg_ID := i; arg_Name := None |}
  end.

(** The tables of a store. *)
Definition tables (st : Store)
    : list PackageRow * list MetadataRow * list PackageDataRow :=
  (packages st, package_metadata st, package_data st).

(** A string of one or more decimal digits, [\d+]. *)
Definition numeral (s : string) : bool := Regex.test (Regex.plus Regex.Digit) s.

(** [major.minor.patch]. *)
Definition dotted (a b c : string) : string := a +:+ "." +:+ b +:+ "." +:+ c.

(** ** Further surroundings and stores used in the examples *)

(** A request for [X] at [1.0.0] that carries an id of the caller's. *)
Definition xWithForeignId : option MetadataArg :=
  Some {| arg_Version := Some "1.0.0"; arg_ID := Some "1234567890";
          arg_Name := Some "X" |}.

(** The registry that holds [X], with a copy of the archive under the
    key that [packageRetrieve] reads. *)
Definition xStoreKeyedById : Store :=
  set_s3 (fun m => <[retrieveKey (ID (metadata xPackage)) "1.0.0"
                      := list_byte_of_string "hello"]> m) xStore.

(** A bucket with one archive and one object outside [packages/]. *)
Definition mixedStore : Store :=
  set_s3 (fun m => <["backups/2024.tar" := list_byte_of_string "tar"]> m) xStore.

(** As [calmEnv], but the bucket refuses every upload. *)
Definition denyUpload : Env :=
  {| bucketName := bucketName calmEnv;
     fault := fun op => match op with
                        | S3Put _ _ => Some "Access Denied"
                        | _ => None
                        end;
     getPackageInfoRepo := getPackageInfoRepo calmEnv;
     getPackageInfoZipFile := getPackageInfoZipFile calmEnv;
     http_body := http_body calmEnv;
     db_where := db_where calmEnv |}.

(** As [calmEnv], but the metadata table refuses every insert. *)
Definition denyMetadataInsert : Env :=
  {| bucketName := bucketName calmEnv;
     fault := fun op => match op with
                        | DbInsertMetadata _ => Some "relation does not exist"
                        | _ => None
                        end;
     getPackageInfoRepo := getPackageInfoRepo calmEnv;
     getPackageInfoZipFile := getPackageInfoZipFile calmEnv;
     http_body := http_body calmEnv;
     db_where := db_where calmEnv |}.

(** As [calmEnv], but the database refuses every listing. *)
Definition denySelect : Env :=
  {| bucketName := bucketName calmEnv;
     fault := fun op => match op with
                        | DbSelectPackages _ _ _ => Some "connection terminated"
                        | _ => None
                        end;
     getPackageInfoRepo := getPackageInfoRepo calmEnv;
     getPackageInfoZipFile := getPackageInfoZipFile calmEnv;
     http_body := http_body calmEnv;
     db_where := db_where calmEnv |}.

(** An ingestion from a URL that also names the package. *)
Definition namedUrlCreated : Outcome Package * Store :=
  packageCreate calmEnv None None (Some "https://github.com/lodash/lodash")
    None (Some "X") (version_only "1.0.0") emptyStore.

Definition namedUrlStore : Store := snd namedUrlCreated.

Definition namedUrlPackage : Package :=
  {| metadata := {| Name := Some "X"; Version := Some "1.0.0";
                    ID := "0fa1e118-4dd5-5760-9f72-e21644b59962" |};
     data := {| Content := Some "VUVzdFlYSmphR2wyWlE9PQ=="; JSProgram := None |} |}.

(** The same request with a body [Name] that is a no-break space: the
    name is given, and trims to the empty string. *)
Definition blankNamedUrlCreated : Outcome Package * Store :=
  packageCreate calmEnv None None (Some "https://github.com/lodash/lodash")
    None (Some nbsp) (version_only "1.0.0") emptyStore.

Definition blankNamedUrlStore : Store := snd blankNamedUrlCreated.

Definition blankNamedUrlPackage : Package :=
  {| metadata := {| Name := Some ""; Version := Some "1.0.0";
                    ID := "b443e1b0-6f76-5be7-ad1e-0d90419a8506" |};
     data := {| Content := Some "VUVzdFlYSmphR2wyWlE9PQ=="; JSProgram := None |} |}.

(** The joined row of [X]. *)
Definition xJoinedRow : JoinedRow :=
  {| packagename := Some "X"; packageversion := "1.0.0";
     packageid := "0fa1e118-4dd5-5760-9f72-e21644b59962";
     packageurl := None; packagejs := None; j_content_type := true |}.

(** The registry that held [X], after a reset. *)
Definition xStoreReset : Store := snd (registryReset calmEnv xStore).

(** The first and the second page of [twentyRows]. *)
Definition firstPage : PackagesListResponse :=
  {| packages_of := firstn 10 (packages twentyRows);
     nextOffset := Some (Num 10) |}.

Definition secondPage : PackagesListResponse :=
  {| packages_of := skipn 10 (packages twentyRows);
     nextOffset := Some (Num 20) |}.

Definition paddedVersionQuery : list PackageQuery :=
  [ {| q_Version := Some " 1.2.3"; q_ID := None; q_Name := Some "lodash" |} ].

Definition fieldlessQuery : list PackageQuery :=
  [ {| q_Version := None; q_ID := None; q_Name := None |};
    {| q_Version := Some ""; q_ID := Some ""; q_Name := Some "" |} ].

Definition wildcardAndLodash : list PackageQuery :=
  [ {| q_Version := None; q_ID := None; q_Name := Some "*" |};
    {| q_Version := None; q_ID := None; q_Name := Some "lodash" |} ].

(** ** The query text of a listing

    Lines 818-869 of [packagesList] and [getPackages]: the conditions
    as SQL text with numbered placeholders, and the values bound to
    them. *)

Inductive SqlParam : Type :=
| Text (s : option string)
| Number (n : JsNumber).

(** [`$${queryIndex}`]. *)
Definition placeholder (queryIndex : nat) : string :=
  "$" +:+ NilEmpty.string_of_uint (Nat.to_uint queryIndex).

(** [Array.prototype.join]. *)
Fixpoint join (sep : string) (l : list string) : string :=
  match l with
  | [] => ""
  | [x] => x
  | x :: l' => x +:+ sep +:+ join sep l'
  end.

(** The text pushed to [conditions] and the values pushed to
    [queryValues] for one condition, with [queryIndex] afterwards. *)
Definition conditionSql (queryIndex : nat) (c : Condition)
    : string * list SqlParam * nat :=
  match c with
  | NameEq v => ("name = " +:+ placeholder queryIndex, [Text (Some v)], S queryIndex)
  | IdEq v => ("id = " +:+ placeholder queryIndex, [Text (Some v)], S queryIndex)
  | VersionEq v =>
      ("version = " +:+ placeholder queryIndex, [Text (Some v)], S queryIndex)
  | VersionBetween lo hi =>
      ("version >= " +:+ placeholder queryIndex +:+ " AND version <= "
         +:+ placeholder (queryIndex + 1),
       [Text lo; Text hi], queryIndex + 2)
  | VersionLike pattern =>
      ("version LIKE " +:+ placeholder queryIndex, [Text (Some pattern)],
       S queryIndex)
  end.

(** [conditions] and [queryValues] of one entry. *)
Fixpoint conditionsSql (queryIndex : nat) (cs : list Condition)
    : list string * list SqlParam * nat :=
  match cs with
  | [] => ([], [], queryIndex)
  | c :: cs' =>
      let '(text, values, i) := conditionSql queryIndex c in
      let '(texts, more, j) := conditionsSql i cs' in
      (text :: texts, values ++ more, j)
  end.

(** [packageConditions] and [queryParams] after the loop over the entries. *)
Fixpoint packageConditionsSql (queryIndex : nat) (w : WhereClause)
    : list string * list SqlParam * nat :=
  match w with
  | [] => ([], [], queryIndex)
  | cs :: w' =>
      let '(conditions, queryValues, i) := conditionsSql queryIndex cs in
      let '(rest, queryParams, j) := packageConditionsSql i w' in
      (("(" +:+ join " AND " conditions +:+ ")") :: rest,
       queryValues ++ queryParams, j)
  end.

(** [whereClauses] and [queryParams] as they are handed to [getPackages]. *)
Fixpoint whereClausesSql (queryIndex : nat) (clauses : list WhereClause)
    : list string * list SqlParam * nat :=
  match clauses with
  | [] => ([], [], queryIndex)
  | w :: clauses' =>
      let '(packageConditions, queryParams, i) := packageConditionsSql queryIndex w in
      let '(rest, more, j) := whereClausesSql i clauses' in
      (join " OR " packageConditions :: rest, queryParams ++ more, j)
  end.

Definition dquote : string := String (ascii_of_nat 34) "".

(** [queryText] of [getPackages]. *)
Definition queryText (conditions : list string) (queryParams : list SqlParam)
    : string :=
  "SELECT * FROM public." +:+ dquote +:+ "packages" +:+ dquote
    +:+ (if Nat.ltb 0 (length conditions)
         then " WHERE " +:+ join " AND " conditions else "")
    +:+ " ORDER BY id LIMIT " +:+ placeholder (length queryParams + 1)
    +:+ " OFFSET " +:+ placeholder (length queryParams + 2).

Definition finalQueryParams (queryParams : list SqlParam) (limit : Z)
    (offset : JsNumber) : list SqlParam :=
  queryParams ++ [Number (Num limit); Number offset].

(** The statement sent for a listing: its text and its parameters. *)
Definition listingSql (clauses : list WhereClause) (offset : JsNumber)
    : string * list SqlParam :=
  let '(conditions, queryParams, _) := whereClausesSql 1 clauses in
  (queryText conditions queryParams, finalQueryParams queryParams limit offset).

(** A condition without its values. *)
Definition erase (c : Condition) : Condition :=
  match c with
  | NameEq _ => NameEq ""
  | IdEq _ => IdEq ""
  | VersionEq _ => VersionEq ""
  | VersionBetween _ _ => VersionBetween None None
  | VersionLike _ => VersionLike ""
  end.

(** The values of a condition, in the order of its placeholders. *)
Definition boundValues (c : Condition) : list SqlParam :=
  match c with
  | NameEq v | IdEq v | VersionEq v | VersionLike v => [Text (Some v)]
  | VersionBetween lo hi => [Text lo; Text hi]
  end.

(** ** [sanitizeInput]

    [input.replace(/[^a-zA-Z0-9-_\.]/g, "")]. *)

Definition allowed (c : ascii) : bool :=
  let n := N_of_ascii c in
  ((97 <=? n) && (n <=? 122))%N || ((65 <=? n) && (n <=? 90))%N
  || ((48 <=? n) && (n <=? 57))%N
  || Ascii.eqb c "-" || Ascii.eqb c "_" || Ascii.eqb c ".".

Fixpoint sanitizeInput (input : string) : string :=
  match input with
  | EmptyString => EmptyString
  | String c rest =>
      if allowed c then String c (sanitizeInput rest) else sanitizeInput rest
  end.

(** The query of a listing for [lodash] at [^1.2.3]. *)
Definition caretQueryText : string :=
  "SELECT * FROM public." +:+ dquote +:+ "packages" +:+ dquote
    +:+ " WHERE (name = $1 AND version LIKE $2) ORDER BY id LIMIT $3 OFFSET $4".

(** ** [packageByRegExGet] *)

Module RegExSearch.

Record PackageRegEx : Type := { RegEx : option string }.

(** A row as the database driver returns it: from column label to
    value, [None] for NULL. *)
Definition ResultRow : Type := gmap string (option string).

(** PostgreSQL folds an identifier that is not quoted to lower case. *)
Definition lower (c : ascii) : ascii :=
  let n := N_of_ascii c in
  if ((65 <=? n) && (n <=? 90))%N then ascii_of_N (n + 32) else c.

Fixpoint foldIdentifier (s : string) : string :=
  match s with
  | EmptyString => EmptyString
  | String c rest => String (lower c) (foldIdentifier rest)
  end.

Definition column (col : string) (p : PackageRow) : option string :=
  if String.eqb col "name" then name p
  else if String.eqb col "version" then Some (version p)
  else if String.eqb col "package_id" then Some (package_id p)
  else None.

(** [SELECT col AS label, ...] on one row. *)
Definition selectAs (cols : list (string * string)) (p : PackageRow) : ResultRow :=
  list_to_map (map (fun cl => (foldIdentifier (snd cl), column (fst cl) p)) cols).

(** The database as this function sees it: which names match a pattern
    under [~], and for which patterns the query fails. *)
Record Db : Type := {
  nameMatches : string -> option string -> bool;
  regexFault : string -> option string
}.

(** [SELECT name AS Name, version AS Version, package_id AS ID
     FROM public.packages WHERE name ~ $1]. *)
Definition regexQuery (db : Db) (pattern : string) (st : Store)
    : Outcome (list ResultRow) :=
  match regexFault db pattern with
  | Some msg => Throw (Error msg)
  | None =>
      Return (map (selectAs [("name", "Name"); ("version", "Version");
                             ("package_id", "ID")])
                  (List.filter (fun p => nameMatches db pattern (name p))
                               (packages st)))
  end.

(** An element of the answer; a field is [None] when it is [undefined]. *)
Record Found : Type := {
  Name : option (option string);
  Version : option (option string);
  ID : option (option string)
}.

Definition packageByRegExGet (db : Db) (body : option PackageRegEx) (st : Store)
    : Outcome (list Found) :=
  if negb (Js.truthy (body ≫= RegEx)) then
    Throw (CustomError "Invalid request body. 'RegEx' is required." 400)
  else
    match regexQuery db (Js.interp (body ≫= RegEx)) st with
    | Throw error =>
        Throw (CustomError ("Failed to retrieve packages: " +:+ message error) 500)
    | Return rows =>
        if Nat.eqb (length rows) 0 then Return []
        else Return (map (fun row : ResultRow =>
                            {| Name := row !! "name";
                               Version := row !! "version";
                               ID := row !! "package_id" |}) rows)
    end.

(** A database in which [~] is the test for a prefix and a lone
    parenthesis is refused. *)
Definition prefixDb : Db :=
  {| nameMatches := fun pattern nm =>
       match nm with
       | Some n => String.prefix pattern n
       | None => false
       end;
     regexFault := fun pattern =>
       if String.eqb pattern "("
       then Some "invalid regular expression: parentheses () not balanced"
       else None |}.

End RegExSearch.

(** ** [calculateMetrics] and [packageRate] *)

Module Metrics.

(** The sixteen numbers of a rating. *)
Record PackageRating (number : Type) : Type := {
  NetScore : number;
  NetScoreLatency : number;
  RampUp : number;
  RampUpLatency : number;
  Correctness : number;
  CorrectnessLatency : number;
  BusFactor : number;
  BusFactorLatency : number;
  PullRequest : number;
  PullRequestLatency : number;
  GoodPinningPractice : number;
  GoodPinningPracticeLatency : number;
  ResponsiveMaintainer : number;
  ResponsiveMaintainerLatency : number;
  LicenseScore : number;
  LicenseScoreLatency : number
}.

Arguments NetScore {number}.
Arguments NetScoreLatency {number}.
Arguments RampUp {number}.
Arguments RampUpLatency {number}.
Arguments Correctness {number}.
Arguments CorrectnessLatency {number}.
Arguments BusFactor {number}.
Arguments BusFactorLatency {number}.
Arguments PullRequest {number}.
Arguments PullRequestLatency {number}.
Arguments GoodPinningPractice {number}.
Arguments GoodPinningPracticeLatency {number}.
Arguments ResponsiveMaintainer {number}.
Arguments ResponsiveMaintainerLatency {number}.
Arguments LicenseScore {number}.
Arguments LicenseScoreLatency {number}.

(** Lines 131-148 of [metricExport]: the object [data], by property name. *)
Definition data {number} (r : PackageRating number) : gmap string number :=
  list_to_map
    [ ("NetScore", NetScore r); ("NetScoreLatency", NetScoreLatency r);
      ("RampUp", RampUp r); ("RampUpLatency", RampUpLatency r);
      ("Correctness", Correctness r); ("CorrectnessLatency", CorrectnessLatency r);
      ("BusFactor", BusFactor r); ("BusFactorLatency", BusFactorLatency r);
      ("PullRequest", PullRequest r); ("PullRequestLatency", PullRequestLatency r);
      ("GoodPinningPractice", GoodPinningPractice r);
      ("GoodPinningPracticeLatency", GoodPinningPracticeLatency r);
      ("ResponsiveMaintainer", ResponsiveMaintainer r);
      ("ResponsiveMaintainerLatency", ResponsiveMaintainerLatency r);
      ("LicenseScore", LicenseScore r);
      ("LicenseScoreLatency", LicenseScoreLatency r) ].

(** [calculateMetrics]: [computed] is what the body of its [try]
    arrives at for the given input. *)
Definition calculateMetrics {number}
    (computed : string -> Outcome (PackageRating number)) (input : string)
    : Outcome (gmap string number) :=
  match computed input with
  | Return r => Return (data r)
  | Throw error =>
      Throw (CustomError ("Failed to calculate metrics: " +:+ message error) 500)
  end.

(** [packageRate]: every field of [response] is assigned from a
    property of [testOutput]; a property that is absent reads as
    [undefined], here [None]. *)
Definition packageRate {number}
    (computed : string -> Outcome (PackageRating number)) (id : string)
    : Outcome (PackageRating (option number)) :=
  match calculateMetrics computed "" with
  | Throw e => Throw e
  | Return testOutput =>
      Return {| NetScore := testOutput !! "NetScore";
                NetScoreLatency := testOutput !! "NetScore_Latency";
                RampUp := testOutput !! "RampUp";
                RampUpLatency := testOutput !! "RampUp_Latency";
                Correctness := testOutput !! "Correctness";
                CorrectnessLatency := testOutput !! "Correctness_Latency";
                BusFactor := testOutput !! "BusFactor";
                BusFactorLatency := testOutput !! "BusFactor_Latency";
                PullRequest := testOutput !! "PullRequest";
                PullRequestLatency := testOutput !! "PullRequest_Latency";
                GoodPinningPractice := testOutput !! "GoodPinningPractice";
                GoodPinningPracticeLatency :=
                  testOutput !! "GoodPinningPracticeLatency";
                ResponsiveMaintainer := testOutput !! "ResponsiveMaintainer";
                ResponsiveMaintainerLatency :=
                  testOutput !! "ResponsiveMaintainer_Latency";
                LicenseScore := testOutput !! "LicenseScore";
                LicenseScoreLatency := testOutput !! "LicenseScore_Latency" |}
  end.

(** Sixteen distinct numbers, and a computation that always yields them. *)
Definition sixteen : PackageRating nat :=
  {| NetScore := 1; NetScoreLatency := 2; RampUp := 3; RampUpLatency := 4;
     Correctness := 5; CorrectnessLatency := 6; BusFactor := 7;
     BusFactorLatency := 8; PullRequest := 9; PullRequestLatency := 10;
     GoodPinningPractice := 11; GoodPinningPracticeLatency := 12;
     ResponsiveMaintainer := 13; ResponsiveMaintainerLatency := 14;
     LicenseScore := 15; LicenseScoreLatency := 16 |}.

Definition alwaysSixteen (input : string) : Outcome (PackageRating nat) :=
  Return sixteen.

End Metrics.

(** ** [calculatePullRequestMetric] *)

Module PullRequest.

(** A merged pull request as the query returns it; [additions] is
    [None] when the property is missing or null. *)
Record Node : Type := {
  additions : option Z;
  reviews_totalCount : Z
}.

Record Page : Type := {
  edges : list Node;
  hasNextPage : bool;
  endCursor : option string
}.

Definition maxPages : nat := 5.

(** The score: [-1], [0], or [Number((reviewed / total).toFixed(3))],
    which is kept as the two sums. *)
Inductive Score : Type :=
| Failed
| NoAdditions
| Ratio (reviewedAdditions totalAdditions : Z).

(** The body of the [for] loop, on [(totalAdditions, reviewedAdditions)]. *)
Definition addNode (sums : Z * Z) (pr : Node) : Z * Z :=
  let additions_ := default 0%Z (additions pr) in
  ((fst sums + additions_)%Z,
   if (0 <? reviews_totalCount pr)%Z then (snd sums + additions_)%Z
   else snd sums).

(** The [while] loop, counting the pages that may still be fetched,
    [remaining = maxPages - pageCount].  [graphqlWithAuth] answers a
    cursor with a page or rejects.  The result is the cursors that were
    sent and the sums, [None] when a request failed. *)
Fixpoint pages (graphqlWithAuth : option string -> option Page) (remaining : nat)
    (sums : Z * Z) (hasNextPage_ : bool) (afterCursor : option string)
    : list (option string) * option (Z * Z) :=
  match remaining with
  | O => ([], Some sums)
  | S remaining' =>
      if hasNextPage_ then
        match graphqlWithAuth afterCursor with
        | None => ([afterCursor], None)
        | Some response =>
            let '(sent, result) :=
              pages graphqlWithAuth remaining'
                    (fold_left addNode (edges response) sums)
                    (hasNextPage response) (endCursor response) in
            (afterCursor :: sent, result)
        end
      else ([], Some sums)
  end.

Definition calculatePullRequestMetric (graphqlWithAuth : option string -> option Page)
    : list (option string) * Score :=
  let '(sent, result) := pages graphqlWithAuth maxPages (0%Z, 0%Z) true None in
  (sent,
   match result with
   | None => Failed
   | Some (totalAdditions, reviewedAdditions) =>
       if (totalAdditions =? 0)%Z then NoAdditions
       else Ratio reviewedAdditions totalAdditions
   end).

(** No request reports a negative number of added lines. *)
Definition additionsNonNegative (graphqlWithAuth : option string -> option Page)
    : Prop :=
  forall cursor response pr,
    graphqlWithAuth cursor = Some response -> In pr (edges response) ->
    (0 <= default 0 (additions pr))%Z.

(** A repository with two pages of merged pull requests. *)
Definition twoPages (afterCursor : option string) : option Page :=
  match afterCursor with
  | None =>
      Some {| edges := [ {| additions := Some 10%Z; reviews_totalCount := 1 |};
                         {| additions := Some 5%Z; reviews_totalCount := 0 |};
                         {| additions := None; reviews_totalCount := 3 |} ];
              hasNextPage := true; endCursor := Some "Y3Vyc29yOjEwMA" |}
  | Some cursor =>
      if String.eqb cursor "Y3Vyc29yOjEwMA" then
        Some {| edges := [ {| additions := Some 5%Z; reviews_totalCount := 2 |} ];
                hasNextPage := false; endCursor := None |}
      else None
  end.

End PullRequest.

(** ** [createAuthToken] *)

Module Auth.

Record UserClaim : Type := {
  name : option string;
  isAdmin : option bool;
  isBackend : option bool
}.

Record SecretPart : Type := { password : option string }.

Record AuthenticationRequest : Type := {
  User : option UserClaim;
  Secret : option SecretPart
}.

(** What the function reads of a stored user. *)
Record UserRow : Type := { password_hash : string }.

Record TokenPayload : Type := {
  payload_name : string;
  payload_isAdmin : option bool;
  payload_isBackend : option bool
}.

Record AuthenticationToken : Type := { token : string }.

(** The collaborators that live outside [src/]: the user table, [bcrypt],
    [jsonwebtoken] and the configured secret. *)
Record Env : Type := {
  getUserByUsername : string -> Outcome (option UserRow);
  bcrypt_compare : string -> string -> Outcome bool;
  jwt_sign : TokenPayload -> string -> string -> Outcome string;
  JWT_SECRET : option string
}.

(** A promise built with [new Promise(async (resolve, reject) => ...)]:
    it settles only when the executor calls [resolve] or [reject]; an
    exception inside the executor reaches neither. *)
Inductive Settled (A : Type) : Type :=
| Resolved (a : A)
| Rejected (e : JsError)
| Unsettled.

Arguments Resolved {A}.
Arguments Rejected {A}.
Arguments Unsettled {A}.

Definition createAuthToken (env : Env) (body : option AuthenticationRequest)
    : Settled AuthenticationToken :=
  match body with
  | None => Unsettled
  | Some body_ =>
      let name_ := User body_ ≫= name in
      let password_ := Secret body_ ≫= password in
      if Js.truthy name_ && Js.truthy password_ then
        match getUserByUsername env (Js.interp name_) with
        | Throw _ => Unsettled
        | Return None => Rejected (CustomError "User not found" 404)
        | Return (Some foundUser) =>
            match bcrypt_compare env (Js.interp password_)
                                 (password_hash foundUser) with
            | Throw _ => Unsettled
            | Return false => Rejected (CustomError "Invalid password" 401)
            | Return true =>
                match jwt_sign env
                        {| payload_name := Js.interp name_;
                           payload_isAdmin := User body_ ≫= isAdmin;
                           payload_isBackend := User body_ ≫= isBackend |}
                        (default "defaultSecret" (JWT_SECRET env)) "10h" with
                | Throw _ => Unsettled
                | Return signed => Resolved {| token := signed |}
                end
            end
        end
      else
        Rejected (CustomError
          "Missing required properties 'User' or 'Password'" 400)
  end.

(** One stored user; the comparison accepts one password for its hash;
    no secret is configured. *)
Definition oneUser : Env :=
  {| getUserByUsername := fun n =>
       Return (if String.eqb n "alice"
               then Some {| password_hash := "$2b$10$abcdefghijklmnopqrstuv" |}
               else None);
     bcrypt_compare := fun p h =>
       Return (String.eqb p "correcthorsebatterystaple"
               && String.eqb h "$2b$10$abcdefghijklmnopqrstuv");
     jwt_sign := fun payload secret expiresIn =>
       Return ("jwt(" +:+ payload_name payload +:+ "," +:+ secret +:+ ","
                 +:+ expiresIn +:+ ")");
     JWT_SECRET := None |}.

(** As [oneUser], but the user table cannot be reached. *)
Definition noUserTable : Env :=
  {| getUserByUsername := fun _ => Throw (Error "connection terminated");
     bcrypt_compare := bcrypt_compare oneUser;
     jwt_sign := jwt_sign oneUser;
     JWT_SECRET := JWT_SECRET oneUser |}.

(** Alice asks for a token and claims to be an administrator. *)
Definition aliceAsAdmin : AuthenticationRequest :=
  {| User := Some {| name := Some "alice"; isAdmin := Some true;
                     isBackend := None |};
     Secret := Some {| password := Some "correcthorsebatterystaple" |} |}.

(** A request without a name, one of an unknown user, and one of Alice
    with a wrong password. *)
Definition nobody : AuthenticationRequest :=
  {| User := Some {| name := Some ""; isAdmin := None; isBackend := None |};
     Secret := Some {| password := Some "correcthorsebatterystaple" |} |}.

Definition bobAsks : AuthenticationRequest :=
  {| User := Some {| name := Some "bob"; isAdmin := None; isBackend := None |};
     Secret := Some {| password := Some "correcthorsebatterystaple" |} |}.

Definition aliceGuesses : AuthenticationRequest :=
  {| User := Some {| name := Some "alice"; isAdmin := None; isBackend := None |};
     Secret := Some {| password := Some "123456" |} |}.

End Auth.

(** * Properties *)

(** ** Base64 *)

Section Base64Facts.

Lemma byteN_bound (b : byte) : (byteN b < 256)%N.
Proof. unfold byteN. apply N_ascii_bounded. Qed.

Lemma Nbyte_byteN (b : byte) : Nbyte (byteN b) = b.
Proof.
  unfold Nbyte, byteN. rewrite ascii_N_embedding. apply byte_of_ascii_of_byte.
Qed.

Lemma index_char (n : N) :
  (n < 64)%N ->
  Base64.index (Base64.char n) = Some n /\ Ascii.eqb (Base64.char n) "=" = false.
Proof.
  intros Hn.
  assert (Hall : forallb Base64.digit_ok (map N.of_nat (seq 0 64)) = true)
    by (vm_compute; reflexivity).
  rewrite forallb_forall in Hall.
  assert (Hok : Base64.digit_ok n = true).
  { apply Hall, in_map_iff. exists (N.to_nat n). split; [lia|].
    apply in_seq. lia. }
  unfold Base64.digit_ok in Hok. apply andb_true_iff in Hok as [H1 H2].
  destruct (Base64.index (Base64.char n)) as [m|]; [|discriminate].
  apply N.eqb_eq in H1. subst m. split; [reflexivity|].
  now apply negb_true_iff in H2.
Qed.

Lemma sextets_digit (n : N) (s : string) :
  (n < 64)%N ->
  Base64.sextets (String (Base64.char n) s) = n :: Base64.sextets s.
Proof.
  intros Hn. destruct (index_char n Hn) as [Hi He].
  cbn [Base64.sextets]. rewrite He, Hi. reflexivity.
Qed.

Lemma list_ind3 {A} (P : list A -> Prop) :
  P [] -> (forall a, P [a]) -> (forall a b, P [a; b]) ->
  (forall a b c l, P l -> P (a :: b :: c :: l)) ->
  forall l, P l.
Proof.
  intros H0 H1 H2 H3.
  assert (H : forall l, P l /\ (forall a, P (a :: l)) /\ (forall a b, P (a :: b :: l))).
  { induction l as [|x l (IH0 & IH1 & IH2)]; [now auto|].
    repeat split; auto. }
  intros l. apply H.
Qed.

Ltac euclid := zify; Z.to_euclidean_division_equations; lia.

Lemma group3 (a b c : N) :
  (a < 256 -> b < 256 -> c < 256 ->
   let n := a * 65536 + b * 256 + c in
   (n / 262144 < 64 /\ (n / 4096) mod 64 < 64 /\ (n / 64) mod 64 < 64
    /\ n mod 64 < 64) /\
   ((n / 262144 * 64 + (n / 4096) mod 64) * 64 + (n / 64) mod 64) * 64
     + n mod 64 = n /\
   n / 65536 = a /\ (n / 256) mod 256 = b /\ n mod 256 = c)%N.
Proof. intros. subst n. repeat split; euclid. Qed.

Lemma group2 (a b : N) :
  (a < 256 -> b < 256 ->
   let n := a * 65536 + b * 256 in
   (n / 262144 < 64 /\ (n / 4096) mod 64 < 64 /\ (n / 64) mod 64 < 64) /\
   ((n / 262144 * 64 + (n / 4096) mod 64) * 64 + (n / 64) mod 64) * 64 = n /\
   n / 65536 = a /\ (n / 256) mod 256 = b)%N.
Proof. intros. subst n. repeat split; euclid. Qed.

Lemma group1 (a : N) :
  (a < 256 ->
   let n := a * 65536 in
   (n / 262144 < 64 /\ (n / 4096) mod 64 < 64) /\
   (n / 262144 * 64 + (n / 4096) mod 64) * 4096 = n /\
   n / 65536 = a)%N.
Proof. intros. subst n. repeat split; euclid. Qed.

(** Decoding what [encode] wrote gives the bytes back. *)
Lemma decode_encode (bs : list byte) :
  Base64.decode (Base64.encode bs) = bs.
Proof.
  unfold Base64.decode. induction bs as [|a|a b|a b c rest IH] using list_ind3.
  - reflexivity.
  - destruct (group1 (byteN a) (byteN_bound a)) as ((L0 & L1) & E & Ea).
    cbn [Base64.encode]. cbv zeta.
    rewrite !sextets_digit by assumption.
    cbn [Base64.sextets Base64.bytes Ascii.eqb Bool.eqb]. cbv zeta.
    rewrite E, Ea, Nbyte_byteN. reflexivity.
  - destruct (group2 (byteN a) (byteN b) (byteN_bound a) (byteN_bound b))
      as ((L0 & L1 & L2) & E & Ea & Eb).
    cbn [Base64.encode]. cbv zeta.
    rewrite !sextets_digit by assumption.
    cbn [Base64.sextets Base64.bytes Ascii.eqb Bool.eqb]. cbv zeta.
    rewrite E, Ea, Eb, !Nbyte_byteN. reflexivity.
  - destruct (group3 (byteN a) (byteN b) (byteN c)
                (byteN_bound a) (byteN_bound b) (byteN_bound c))
      as ((L0 & L1 & L2 & L3) & E & Ea & Eb & Ec).
    cbn [Base64.encode]. cbv zeta.
    rewrite !sextets_digit by assumption.
    cbn [Base64.bytes]. cbv zeta.
    rewrite E, Ea, Eb, Ec, !Nbyte_byteN, IH. reflexivity.
Qed.

End Base64Facts.

(** ** Running the monad *)

Section MonadFacts.

Context {A B : Type}.

Lemma bind_Return_inv (m : M A) (k : A -> M B) st b st' :
  bind m k st = (Return b, st') ->
  exists a st1, m st = (Return a, st1) /\ k a st1 = (Return b, st').
Proof.
  unfold bind. destruct (m st) as [[a|e] st1]; intros H.
  - exists a, st1. split; [reflexivity|assumption].
  - discriminate.
Qed.

Lemma bind_Return (m : M A) (k : A -> M B) st a st1 :
  m st = (Return a, st1) -> bind m k st = k a st1.
Proof. unfold bind. intros ->. reflexivity. Qed.

Lemma bind_Throw (m : M A) (k : A -> M B) st e st1 :
  m st = (Throw e, st1) -> bind m k st = (Throw e, st1).
Proof. unfold bind. intros ->. reflexivity. Qed.

Lemma try_catch_Return (m : M A) h st a st1 :
  m st = (Return a, st1) -> try_catch m h st = (Return a, st1).
Proof. unfold try_catch. intros ->. reflexivity. Qed.

Lemma try_catch_Throw (m : M A) h st e st1 :
  m st = (Throw e, st1) -> try_catch m h st = h e st1.
Proof. unfold try_catch. intros ->. reflexivity. Qed.

(** A handler that always rethrows cannot turn a failure into a result. *)
Lemma try_rethrow_Return_inv (m : M A) (f : JsError -> JsError) st a st' :
  try_catch m (fun e => throw (f e)) st = (Return a, st') ->
  m st = (Return a, st').
Proof.
  unfold try_catch, throw. destruct (m st) as [[x|e] st1]; intros H.
  - assumption.
  - discriminate.
Qed.

End MonadFacts.

Section CallFacts.

Variable env : Env.

Lemma call_ok op st :
  fault env op = None -> call env op st = (Return tt, record op st).
Proof. unfold call. intros ->. reflexivity. Qed.

Lemma call_fail op msg st :
  fault env op = Some msg -> call env op st = (Throw (Error msg), record op st).
Proof. unfold call. intros ->. reflexivity. Qed.

Lemma call_Return_inv op st u st' :
  call env op st = (Return u, st') ->
  fault env op = None /\ st' = record op st.
Proof.
  unfold call. destruct (fault env op); intros H; inversion H; auto.
Qed.

Lemma call_store op st o st' :
  call env op st = (o, st') -> st' = record op st.
Proof. unfold call. destruct (fault env op); intros H; inversion H; auto. Qed.

End CallFacts.

Ltac inv_run :=
  repeat match goal with
  | H : bind _ _ _ = (Return _, _) |- _ =>
      apply bind_Return_inv in H; destruct H as (? & ? & ? & H)
  | H : try_catch _ (fun _ => throw _) _ = (Return _, _) |- _ =>
      apply (try_rethrow_Return_inv _ (fun _ => _)) in H
  | H : call _ _ _ = (Return _, _) |- _ =>
      apply call_Return_inv in H; destruct H as [? ->]
  | H : ret _ _ = (Return _, _) |- _ =>
      unfold ret in H; inversion H; subst; clear H
  | H : modify _ _ = (Return _, _) |- _ =>
      unfold modify in H; inversion H; subst; clear H
  | H : gets _ _ = (Return _, _) |- _ =>
      unfold gets in H; inversion H; subst; clear H
  | H : throw _ _ = (Return _, _) |- _ =>
      unfold throw in H; discriminate H
  end.

Section CreateFacts.

Variable env : Env.

Lemma registerRows_Return JSProgram_ URL debloatVal packageName packageVersion
      packageId contentBuffer returnString st pkg st' :
  registerRows env JSProgram_ URL debloatVal packageName packageVersion
               packageId contentBuffer returnString st = (Return pkg, st') ->
  let inline := negb (Js.truthy contentBuffer) in
  let row := {| name := packageName; version := default "1.0.0" packageVersion;
                package_id := packageId; content_type := inline |} in
  let mrow := {| m_name := packageName; m_version := default "1.0.0" packageVersion;
                 m_package_id := packageId |} in
  let drow := {| pd_package_id := packageId; pd_content_type := inline;
                 url := URL; debloat := debloatVal; js_program := JSProgram_ |} in
  pkg = {| metadata := {| Name := packageName; Version := packageVersion;
                          ID := packageId |};
           data := {| Content := returnString; JSProgram := JSProgram_ |} |}
  /\ st' = {| s3 := s3 st; packages := packages st ++ [row];
              package_metadata := package_metadata st ++ [mrow];
              package_data := package_data st ++ [drow];
              log := log st ++ [DbInsertPackage row; DbInsertMetadata mrow;
                                DbInsertData drow] |}.
Proof.
  unfold registerRows, insertPackageQuery, insertIntoMetadataQuery,
    insertIntoPackageDataQuery.
  intros H. inv_run. cbn. split; [reflexivity|].
  f_equal. rewrite <- !app_assoc. reflexivity.
Qed.

Lemma uploadArchive_Return Content_ URL nm ver owner repo st cb rs st' :
  uploadArchive env Content_ URL nm ver owner repo st = (Return (cb, rs), st') ->
  (Js.truthy Content_ = true /\ Js.truthy URL = false /\ cb = None /\ rs = Content_
   /\ let body := Base64.decode (Js.interp Content_) in
      st' = set_s3 (fun m => <[s3Key nm ver := body]> m)
              (record (S3Put (s3Key nm ver) body) st))
  \/ (Js.truthy URL = true /\ Js.truthy Content_ = false
      /\ let b64 := Base64.encode (http_body env (zipballUrl owner repo)) in
         cb = Some b64 /\ rs = Some (Base64.btoa b64)
         /\ fault env (HttpGet (zipballUrl owner repo)) = None
         /\ st' = set_s3 (fun m => <[s3Key nm ver := Base64.decode b64]> m)
                    (record (S3Put (s3Key nm ver) (Base64.decode b64))
                       (record (HttpGet (zipballUrl owner repo)) st)))
  \/ (Js.truthy Content_ = Js.truthy URL /\ cb = None /\ rs = None /\ st' = st).
Proof.
  unfold uploadArchive, s3_putObject, downloadFile.
  destruct (Js.truthy Content_) eqn:HC, (Js.truthy URL) eqn:HU; cbn [andb negb];
    intros H; inv_run.
  - right; right. auto.
  - left. cbn. auto.
  - right; left. cbn. auto 10.
  - right; right. auto.
Qed.

Lemma resolveNameVersion_Return Content_ URL Name_ pn pv st nm ver owner repo st' :
  resolveNameVersion env Content_ URL Name_ pn pv st
    = (Return (nm, ver, owner, repo), st') ->
  (* a name was supplied: the resolver is not consulted *)
  (Js.truthy pn || Js.truthy Name_ = true /\ ver = pv /\ st' = st
   /\ owner = None /\ repo = None
   /\ nm = if Js.truthy Name_ then Some (Js.trim (Js.interp Name_)) else pn)
  (* no name, a URL: the repository's package.json *)
  \/ (Js.truthy pn || Js.truthy Name_ = false /\ Js.truthy URL = true
      /\ exists o r,
           GithubUrl.match_ (Js.interp URL) = Some (o, r)
           /\ owner = Some o /\ repo = Some r
           /\ nm = getPackageInfoRepo env o r ≫= info_name
           /\ ver = getPackageInfoRepo env o r ≫= info_version
           /\ st' = record (ResolveRepo o r) st)
  (* no name, inline content: the archive's package.json *)
  \/ (Js.truthy pn || Js.truthy Name_ = false /\ Js.truthy URL = false
      /\ Js.truthy Content_ = true
      /\ exists info,
           getPackageInfoZipFile env (Js.interp Content_) = Some info
           /\ nm = info_name info /\ ver = info_version info
           /\ owner = None /\ repo = None
           /\ st' = record (ResolveZip (Js.interp Content_)) st)
  \/ (Js.truthy pn || Js.truthy Name_ = false /\ Js.truthy URL = false
      /\ Js.truthy Content_ = false /\ nm = pn /\ ver = pv /\ st' = st).
Proof.
  unfold resolveNameVersion.
  destruct (Js.truthy pn) eqn:Hpn, (Js.truthy Name_) eqn:HN; cbn [andb negb orb].
  1-3: intros H; inv_run; left; auto 10.
  destruct (Js.truthy URL) eqn:HU.
  - destruct (GithubUrl.match_ (Js.interp URL)) as [[o r]|] eqn:Hm;
      intros H; inv_run.
    right; left. repeat split; auto. exists o, r. auto 10.
  - destruct (Js.truthy Content_) eqn:HC; intros H; inv_run.
    + destruct (getPackageInfoZipFile env (Js.interp Content_)) as [info|] eqn:Hi;
        inv_run.
      right; right; left. repeat split; auto. exists info. auto 10.
    + right; right; right. auto 10.
Qed.

(** Lines 388-391: whatever id the caller sent, the id used is the
    derived one. *)
Lemma packageId_is_derived (packageId : option string) (derived : string) :
  (if negb (Js.truthy packageId)
      || negb (String.eqb (Js.interp packageId) derived)
   then derived else Js.interp packageId) = derived.
Proof.
  destruct (negb (Js.truthy packageId)); cbn [orb]; [reflexivity|].
  destruct (String.eqb (Js.interp packageId) derived) eqn:E; cbn [negb];
    [|reflexivity].
  now apply String.eqb_eq in E.
Qed.

Lemma packageCreate_Return Content_ JSProgram_ URL debloat_ Name_ metadata_ st pkg st' :
  packageCreate env Content_ JSProgram_ URL debloat_ Name_ metadata_ st
    = (Return pkg, st') ->
  exists nm ver owner repo st1 cb rs st2,
    xorb (Js.truthy Content_) (Js.truthy URL) = true
    /\ resolveNameVersion env Content_ URL Name_
         (Js.trim <$> (metadata_ ≫= arg_Name)) (defaultedVersion metadata_) st
       = (Return (nm, ver, owner, repo), st1)
    /\ Js.truthy (bucketName env) = true
    /\ fault env (DbExists (Identity nm ver)) = None
    /\ hasId (Identity nm ver) st1 = false
    /\ uploadArchive env Content_ URL nm ver owner repo
         (record (DbExists (Identity nm ver)) st1) = (Return (cb, rs), st2)
    /\ registerRows env JSProgram_ URL (default false debloat_) nm ver
         (Identity nm ver) cb rs st2 = (Return pkg, st').
Proof.
  unfold packageCreate.
  destruct (Js.truthy URL) eqn:HU, (Js.truthy Content_) eqn:HC;
    cbn [andb negb orb]; intros H; inv_run.
  all: match goal with
       | H : resolveNameVersion _ _ _ _ _ _ _ = (Return ?x, _) |- _ =>
           destruct x as [[[nm ver] owner] repo]
       end.
  all: rewrite packageId_is_derived in *.
  all: destruct (Js.truthy (bucketName env)) eqn:Hb; cbn [negb] in *; inv_run.
  all: unfold packageExistsQuery in *; inv_run.
  all: match goal with
       | H : (if ?c then _ else _) _ = (Return _, _) |- _ =>
           destruct c eqn:Hex; inv_run
       end.
  all: match goal with
       | H : uploadArchive _ _ _ _ _ _ _ _ = (Return ?x, _) |- _ =>
           destruct x as [cb rs]
       end.
  all: do 8 eexists; repeat split; eauto.
Qed.

End CreateFacts.

Section IngestAndRetrieve.

Variable env : Env.

Lemma resolveNameVersion_store Content_ URL Name_ pn pv st r st' :
  resolveNameVersion env Content_ URL Name_ pn pv st = (Return r, st') ->
  s3 st' = s3 st /\ packages st' = packages st
  /\ package_metadata st' = package_metadata st
  /\ package_data st' = package_data st
  /\ exists ops, log st' = log st ++ ops
                 /\ Forall (fun op => touches_store op = false) ops.
Proof.
  destruct r as [[[nm ver] owner] repo]. intros H.
  apply resolveNameVersion_Return in H.
  destruct H as [H|[H|[H|H]]].
  - destruct H as (_ & _ & -> & _). repeat split; auto.
    exists []. rewrite app_nil_r. auto.
  - destruct H as (_ & _ & o & r & _ & _ & _ & _ & _ & ->).
    repeat split; auto. exists [ResolveRepo o r]. auto.
  - destruct H as (_ & _ & _ & info & _ & _ & _ & _ & _ & ->).
    repeat split; auto. exists [ResolveZip (Js.interp Content_)]. auto.
  - destruct H as (_ & _ & _ & _ & _ & ->). repeat split; auto.
    exists []. rewrite app_nil_r. auto.
Qed.

(** C7. A request that supplies both [Content] and [URL], or neither,
    is rejected with status 400 and the store, call log included, is
    exactly as before: no blob or relational call was made. *)
Theorem packageCreate_rejects_both_or_neither
    Content_ JSProgram_ URL debloat_ Name_ metadata_ st :
  Js.truthy Content_ = Js.truthy URL ->
  packageCreate env Content_ JSProgram_ URL debloat_ Name_ metadata_ st
  = (Throw (CustomError
       "Invalid request body. 'Content' or 'URL' (exclusively) is required." 400),
     st).
Proof.
  intros H. unfold packageCreate. rewrite H.
  destruct (Js.truthy URL); reflexivity.
Qed.

(** C3. When the identity derived for the request is already stored,
    ingestion fails with status 409 and has written nothing: bucket and
    tables are unchanged and no call made so far is a write. *)
Theorem packageCreate_conflict_writes_nothing
    Content_ JSProgram_ URL debloat_ Name_ metadata_ st nm ver owner repo st1 :
  xorb (Js.truthy Content_) (Js.truthy URL) = true ->
  resolveNameVersion env Content_ URL Name_
    (Js.trim <$> (metadata_ ≫= arg_Name)) (defaultedVersion metadata_) st
  = (Return (nm, ver, owner, repo), st1) ->
  Js.truthy (bucketName env) = true ->
  fault env (DbExists (Identity nm ver)) = None ->
  hasId (Identity nm ver) st = true ->
  exists st',
    packageCreate env Content_ JSProgram_ URL debloat_ Name_ metadata_ st
    = (Throw (CustomError "Package already exists." 409), st')
    /\ s3 st' = s3 st /\ packages st' = packages st
    /\ package_metadata st' = package_metadata st
    /\ package_data st' = package_data st
    /\ exists ops, log st' = log st ++ ops
                   /\ Forall (fun op => is_write op = false) ops.
Proof.
  intros Hx Hres Hb Hf Hid.
  destruct (resolveNameVersion_store _ _ _ _ _ _ _ _ Hres)
    as (E1 & E2 & E3 & E4 & ops & El & Hops).
  exists (record (DbExists (Identity nm ver)) st1). split.
  - unfold packageCreate.
    destruct (Js.truthy URL), (Js.truthy Content_); try discriminate Hx;
      cbn [andb negb orb].
    all: rewrite (bind_Return _ _ _ _ _ Hres); cbn beta iota.
    all: rewrite packageId_is_derived, Hb; cbn [negb].
    all: unfold packageExistsQuery.
    all: erewrite bind_Return
           by (erewrite bind_Return by (apply call_ok; exact Hf); reflexivity).
    all: unfold gets.
    all: replace (hasId (Identity nm ver) (record (DbExists (Identity nm ver)) st1))
           with true by (unfold hasId in *; cbn; rewrite E2; auto).
    all: reflexivity.
  - cbn. repeat split; auto.
    exists (ops ++ [DbExists (Identity nm ver)]).
    rewrite El, <- app_assoc. split; [reflexivity|].
    apply Forall_app. split.
    + eapply Forall_impl; [exact Hops|]. intros [] ?; cbn in *; congruence.
    + repeat constructor.
Qed.

Lemma flat_map_nil {X Y} (f : X -> list Y) (l : list X) :
  (forall x, In x l -> f x = []) -> flat_map f l = [].
Proof.
  induction l as [|x l IH]; cbn; intros H; [reflexivity|].
  rewrite (H x) by auto. apply IH. auto.
Qed.

Lemma joinedRows_unknown id st :
  hasId id st = false -> joinedRows id st = [].
Proof.
  unfold hasId, joinedRows. intros H.
  apply flat_map_nil. intros p Hp.
  apply flat_map_nil. intros pd _.
  assert (E : String.eqb (package_id p) id = false).
  { destruct (String.eqb (package_id p) id) eqn:E; [|reflexivity].
    rewrite <- H. symmetry. apply existsb_exists. eauto. }
  rewrite E, andb_false_r. reflexivity.
Qed.

(** C5. Retrieving an id that no Package row carries ends in status 500
    with the message of the 404 error wrapped, not in the 404 error
    that the function raised inside its [try] block. *)
Theorem packageRetrieve_unknown_id_reports_500 id st :
  Js.truthy (bucketName env) = true ->
  fault env (DbSelectById id) = None ->
  hasId id st = false ->
  packageRetrieve env id st
  = (Throw (CustomError "Failed to retrieve package: Package not found." 500),
     record (DbSelectById id) st).
Proof.
  intros Hb Hf Hid. unfold packageRetrieve. rewrite Hb. cbn [negb].
  apply joinedRows_unknown in Hid.
  erewrite (try_catch_Throw _ _ _ (CustomError "Package not found." 404));
    [reflexivity|].
  unfold selectById.
  erewrite bind_Return
    by (erewrite bind_Return by (apply call_ok; exact Hf); reflexivity).
  replace (joinedRows id (record (DbSelectById id) st)) with (@nil JoinedRow)
    by (symmetry; exact Hid).
  reflexivity.
Qed.

(** C10. A successful ingestion from a URL answers with the base64
    text of the base64 text of the downloaded archive and stores the
    archive's bytes themselves; a successful inline ingestion answers
    with the [Content] it was given. *)
Theorem packageCreate_echoes_content
    Content_ JSProgram_ URL debloat_ Name_ metadata_ st pkg st' :
  packageCreate env Content_ JSProgram_ URL debloat_ Name_ metadata_ st
    = (Return pkg, st') ->
  (Js.truthy URL = true ->
     exists apiUrl,
       In (HttpGet apiUrl) (log st')
       /\ Content (data pkg)
          = Some (Base64.btoa (Base64.encode (http_body env apiUrl)))
       /\ s3 st' !! s3Key (Name (metadata pkg)) (Version (metadata pkg))
          = Some (http_body env apiUrl))
  /\ (Js.truthy Content_ = true -> Content (data pkg) = Content_).
Proof.
  intros H. apply packageCreate_Return in H.
  destruct H as (nm & ver & owner & repo & st1 & cb & rs & st2
                 & Hx & _ & _ & _ & _ & Hup & Hreg).
  apply registerRows_Return in Hreg. cbv zeta in Hreg.
  destruct Hreg as [-> ->]. cbn [metadata data Name Version Content s3 log].
  apply uploadArchive_Return in Hup.
  destruct Hup as [(HC & HU & -> & -> & ->)
                  |[(HU & HC & Hrest)|(Heq & _)]].
  - split; [congruence|reflexivity].
  - cbv zeta in Hrest. destruct Hrest as (-> & -> & _ & ->).
    split; [|congruence]. intros _.
    exists (zipballUrl owner repo). cbn. repeat split.
    + rewrite !in_app_iff. cbn. auto.
    + rewrite decode_encode. apply lookup_insert_eq.
  - rewrite Heq in Hx. now destruct (Js.truthy URL).
Qed.

Lemma defaultedVersion_cases metadata_ :
  (Js.truthy (Js.trim <$> (metadata_ ≫= arg_Version)) = true
   /\ exists mv, metadata_ ≫= arg_Version = Some mv
                 /\ defaultedVersion metadata_ = Some (Js.trim mv))
  \/ (Js.truthy (Js.trim <$> (metadata_ ≫= arg_Version)) = false
      /\ defaultedVersion metadata_ = Some "1.0.0").
Proof.
  unfold defaultedVersion.
  destruct (Js.truthy (Js.trim <$> (metadata_ ≫= arg_Version))) eqn:E;
    cbn [negb]; [left|right; auto].
  split; [reflexivity|].
  destruct (metadata_ ≫= arg_Version) as [mv|]; [|discriminate E].
  exists mv. auto.
Qed.

Lemma create_uses_version Content_ JSProgram_ URL debloatVal nm v owner repo
      op st st1 cb rs st2 pkg st' :
  s3 st1 = s3 st -> packages st1 = packages st ->
  package_metadata st1 = package_metadata st ->
  xorb (Js.truthy Content_) (Js.truthy URL) = true ->
  uploadArchive env Content_ URL nm (Some v) owner repo (record op st1)
    = (Return (cb, rs), st2) ->
  registerRows env JSProgram_ URL debloatVal nm (Some v)
    (Identity nm (Some v)) cb rs st2 = (Return pkg, st') ->
  usesVersion v pkg st st'.
Proof.
  intros E1 E2 E3 Hx Hup Hreg.
  apply registerRows_Return in Hreg. cbv zeta in Hreg. destruct Hreg as [-> ->].
  unfold usesVersion. cbn [metadata Name Version ID s3 packages package_metadata].
  apply uploadArchive_Return in Hup.
  destruct Hup as [(HC & HU & -> & -> & ->)
                  |[(HU & HC & Hrest)|(Heq & _)]].
  - cbn. rewrite E1, E2, E3. repeat split; eauto.
  - cbv zeta in Hrest. destruct Hrest as (-> & -> & _ & ->).
    cbn. rewrite E1, E2, E3. repeat split; eauto.
  - rewrite Heq in Hx. now destruct (Js.truthy URL).
Qed.

Lemma create_log Content_ JSProgram_ URL debloatVal nm ver id owner repo
      st1 cb rs st2 pkg st' :
  uploadArchive env Content_ URL nm ver owner repo (record (DbExists id) st1)
    = (Return (cb, rs), st2) ->
  registerRows env JSProgram_ URL debloatVal nm ver id cb rs st2
    = (Return pkg, st') ->
  exists ops, log st' = log st1 ++ ops
              /\ Forall (fun op => is_resolve op = false) ops.
Proof.
  intros Hup Hreg.
  apply registerRows_Return in Hreg. cbv zeta in Hreg. destruct Hreg as [_ ->].
  apply uploadArchive_Return in Hup.
  destruct Hup as [(_ & _ & _ & _ & ->)|[(_ & _ & Hrest)|(_ & _ & _ & ->)]];
    [| cbv zeta in Hrest; destruct Hrest as (_ & _ & _ & ->) |];
    cbn [log record set_s3]; rewrite <- !app_assoc;
    eexists; (split; [reflexivity|]); repeat constructor.
Qed.

(** C4, as amended. For a successful ingestion whose request names the
    package (body [Name] or metadata [Name]), the trimmed metadata
    [Version], or ["1.0.0"] when there is none, is the version of the
    response, the identity, the blob key and the rows, and the resolver
    is not consulted. For a successful ingestion without a name, the
    resolver is consulted, once and before any other call, and the
    version it reports is the one used instead. *)
Theorem packageCreate_version_precedence
    Content_ JSProgram_ URL debloat_ Name_ metadata_ st pkg st' :
  packageCreate env Content_ JSProgram_ URL debloat_ Name_ metadata_ st
    = (Return pkg, st') ->
  let named := Js.truthy (Js.trim <$> (metadata_ ≫= arg_Name)) || Js.truthy Name_ in
  (named = true ->
     (forall mv, metadata_ ≫= arg_Version = Some mv ->
                 Js.truthy (Some (Js.trim mv)) = true ->
                 usesVersion (Js.trim mv) pkg st st')
     /\ (Js.truthy (Js.trim <$> (metadata_ ≫= arg_Version)) = false ->
         usesVersion "1.0.0" pkg st st')
     /\ exists ops, log st' = log st ++ ops
                    /\ Forall (fun op => is_resolve op = false) ops)
  /\ (named = false ->
      (forall v, resolverInfo env Content_ URL ≫= info_version = Some v ->
                 usesVersion v pkg st st')
      /\ exists op ops, is_resolve op = true
                        /\ log st' = log st ++ [op] ++ ops
                        /\ Forall (fun op => is_resolve op = false) ops).
Proof.
  intros H named. apply packageCreate_Return in H.
  destruct H as (nm & ver & owner & repo & st1 & cb & rs & st2
                 & Hx & Hres & _ & _ & _ & Hup & Hreg).
  destruct (create_log _ _ _ _ _ _ _ _ _ _ _ _ _ _ _ Hup Hreg)
    as (ops & Hlog & Hops).
  apply resolveNameVersion_Return in Hres. fold named in Hres.
  destruct Hres as [(Hn & -> & -> & _)
                   |[(Hn & HU & o & r & Hm & -> & -> & -> & -> & ->)
                    |[(Hn & HU & HC & info & Hi & -> & -> & -> & -> & ->)
                     |(Hn & HU & HC & _)]]].
  - split; [intros _|congruence]. split; [|split].
    + intros mv Hmv Ht.
      assert (E : defaultedVersion metadata_ = Some (Js.trim mv)).
      { unfold defaultedVersion. rewrite Hmv. cbn [fmap option_fmap option_map].
        rewrite Ht. reflexivity. }
      rewrite E in *. eapply create_uses_version; eauto.
    + intros Hf.
      assert (E : defaultedVersion metadata_ = Some "1.0.0").
      { unfold defaultedVersion. rewrite Hf. reflexivity. }
      rewrite E in *. eapply create_uses_version; eauto.
    + eauto.
  - split; [congruence|intros _]. split.
    + intros v Hv.
      unfold resolverInfo in Hv. rewrite HU, Hm in Hv. rewrite Hv in *.
      eapply create_uses_version with (st1 := record (ResolveRepo o r) st); eauto.
    + exists (ResolveRepo o r), ops. split; [reflexivity|].
      split; [|exact Hops]. rewrite Hlog. cbn [log record].
      now rewrite <- app_assoc.
  - split; [congruence|intros _]. split.
    + intros v Hv.
      unfold resolverInfo in Hv. rewrite HU, Hi in Hv. cbn in Hv. rewrite Hv in *.
      eapply create_uses_version
        with (st1 := record (ResolveZip (Js.interp Content_)) st); eauto.
    + exists (ResolveZip (Js.interp Content_)), ops. split; [reflexivity|].
      split; [|exact Hops]. rewrite Hlog. cbn [log record].
      now rewrite <- app_assoc.
  - rewrite HU, HC in Hx. discriminate.
Qed.

Lemma append_length (a b : string) :
  String.length (a +:+ b) = String.length a + String.length b.
Proof.
  induction a as [|c a IH]; [reflexivity|].
  change (S (String.length (a +:+ b)) = S (String.length a + String.length b)).
  now rewrite IH.
Qed.

Lemma append_inv_tail (s1 s2 t : string) :
  s1 +:+ t = s2 +:+ t -> s1 = s2.
Proof.
  intros H.
  assert (Hlen : String.length s1 = String.length s2).
  { apply (f_equal String.length) in H. rewrite !append_length in H. lia. }
  revert s2 H Hlen. induction s1 as [|c s1 IH]; intros [|c2 s2] H Hlen;
    try discriminate Hlen; [reflexivity|].
  change (String c (s1 +:+ t) = String c2 (s2 +:+ t)) in H.
  injection H as -> H. f_equal. apply IH; [assumption|].
  cbn in Hlen. lia.
Qed.

Lemma retrieveKey_differs nm v id :
  Js.interp nm <> id -> retrieveKey id v <> s3Key nm (Some v).
Proof.
  unfold retrieveKey, s3Key. cbn [Js.interp]. intros Hne H.
  apply String.app_inj in H. apply append_inv_tail in H. congruence.
Qed.

Lemma joinedRows_after_insert id st st1 row drow :
  hasId id st = false ->
  package_id row = id -> pd_package_id drow = id ->
  packages st1 = packages st ++ [row] ->
  package_data st1 = package_data st ++ [drow] ->
  exists j rest, joinedRows id st1 = j :: rest
                 /\ packageid j = id /\ packageversion j = version row.
Proof.
  intros Hid Hrow Hdrow Ep Ed. unfold joinedRows. rewrite Ep, flat_map_app.
  rewrite (flat_map_nil _ (packages st)).
  2:{ intros p Hp. apply flat_map_nil. intros pd _.
      assert (E : String.eqb (package_id p) id = false).
      { destruct (String.eqb (package_id p) id) eqn:E; [|reflexivity].
        rewrite <- Hid. symmetry. apply existsb_exists. eauto. }
      rewrite E, andb_false_r. reflexivity. }
  cbn [flat_map app]. rewrite app_nil_r, Ed, flat_map_app. cbn [flat_map].
  rewrite Hrow, Hdrow, String.eqb_refl. cbn [andb app].
  set (G := fun pd : PackageDataRow => _).
  assert (HG : forall l,
             Forall (fun j => packageid j = id /\ packageversion j = version row)
                    (flat_map G l)).
  { induction l as [|pd pds IH]; cbn; [constructor|].
    apply Forall_app. split; [|exact IH]. subst G. cbn.
    destruct (String.eqb id (pd_package_id pd)); repeat constructor. }
  specialize (HG (package_data st)).
  destruct (flat_map G (package_data st)) as [|j rest].
  - eexists _, _. split; [reflexivity|]. cbn. auto.
  - inversion HG; subst. eexists _, _. split; [reflexivity|]. assumption.
Qed.

(** What [packageRetrieve] does once a row is found: one blob read at
    the key built from the row's id and version. *)
Lemma packageRetrieve_found id st j rest :
  Js.truthy (bucketName env) = true ->
  fault env (DbSelectById id) = None ->
  joinedRows id st = j :: rest ->
  let key := retrieveKey (packageid j) (packageversion j) in
  exists o,
    packageRetrieve env id st
    = (o, record (S3Get key) (record (DbSelectById id) st))
    /\ (s3 st !! key = None ->
        exists msg, o = Throw (CustomError
                                 ("Failed to retrieve package: " +:+ msg) 500)).
Proof.
  intros Hb Hf Hj key. unfold packageRetrieve. rewrite Hb. cbn [negb].
  unfold try_catch, selectById.
  erewrite bind_Return
    by (erewrite bind_Return by (apply call_ok; exact Hf); reflexivity).
  replace (joinedRows id (record (DbSelectById id) st)) with (j :: rest)
    by (symmetry; exact Hj).
  fold key. unfold s3_getObject, bind at 1 2, call.
  destruct (fault env (S3Get key)) as [msg|] eqn:Hg.
  - eexists. split; [reflexivity|]. intros _. eexists. reflexivity.
  - cbn [s3 record]. destruct (s3 st !! key) as [body|] eqn:Hl.
    + destruct (Js.truthy (Some (Base64.encode body))); cbn [negb];
        eexists; (split; [reflexivity|]); discriminate.
    + eexists. split; [reflexivity|]. intros _. eexists. reflexivity.
Qed.

(** C1 at the code: after a successful ingestion the archive sits at
    the key built from the package name, and a retrieve with the
    returned id reads the bucket once, at the key built from the id.
    The two keys differ unless the name is its own id, so the read
    misses the archive and retrieve fails with status 500. *)
Theorem packageRetrieve_after_create_reads_key_by_id
    Content_ JSProgram_ URL debloat_ Name_ metadata_ st pkg st1 :
  packageCreate env Content_ JSProgram_ URL debloat_ Name_ metadata_ st
    = (Return pkg, st1) ->
  fault env (DbSelectById (ID (metadata pkg))) = None ->
  let id := ID (metadata pkg) in
  let written := s3Key (Name (metadata pkg)) (Version (metadata pkg)) in
  let read := retrieveKey id (default "1.0.0" (Version (metadata pkg))) in
  (exists archive, In (S3Put written archive) (log st1)
                   /\ s3 st1 !! written = Some archive)
  /\ (exists o,
        packageRetrieve env id st1
        = (o, record (S3Get read) (record (DbSelectById id) st1))
        /\ (s3 st1 !! read = None ->
            exists msg, o = Throw (CustomError
                                     ("Failed to retrieve package: " +:+ msg) 500)))
  /\ (forall v, Version (metadata pkg) = Some v ->
                Js.interp (Name (metadata pkg)) <> id -> read <> written).
Proof.
  intros H Hf. apply packageCreate_Return in H.
  destruct H as (nm & ver & owner & repo & st0 & cb & rs & st2
                 & Hx & Hres & Hb & _ & Hid & Hup & Hreg).
  apply registerRows_Return in Hreg. cbv zeta in Hreg. destruct Hreg as [-> ->].
  cbn [metadata Name Version ID] in *. cbv zeta. split; [|split].
  - apply uploadArchive_Return in Hup.
    destruct Hup as [(_ & _ & _ & _ & ->)|[(_ & _ & Hrest)|(Heq & _)]].
    + eexists. cbn. rewrite !in_app_iff. split; [left; right; left; reflexivity|].
      apply lookup_insert_eq.
    + cbv zeta in Hrest. destruct Hrest as (_ & _ & _ & ->).
      eexists. cbn. rewrite !in_app_iff. split; [left; right; left; reflexivity|].
      apply lookup_insert_eq.
    + rewrite Heq in Hx. now destruct (Js.truthy URL).
  - assert (Htab : packages st2 = packages st0
                   /\ package_data st2 = package_data st0).
    { apply uploadArchive_Return in Hup.
      destruct Hup as [(_ & _ & _ & _ & ->)|[(_ & _ & Hrest)|(_ & _ & _ & ->)]];
        [| cbv zeta in Hrest; destruct Hrest as (_ & _ & _ & ->) |]; auto. }
    destruct Htab as [Ep Ed].
    match goal with
    | |- context [packageRetrieve env _ ?s] => set (st1 := s)
    end.
    destruct (joinedRows_after_insert (Identity nm ver) st0 st1
                {| name := nm; version := default "1.0.0" ver;
                   package_id := Identity nm ver;
                   content_type := negb (Js.truthy cb) |}
                {| pd_package_id := Identity nm ver;
                   pd_content_type := negb (Js.truthy cb); url := URL;
                   debloat := default false debloat_;
                   js_program := JSProgram_ |})
      as (j & rest & Hj & Hjid & Hjver); auto.
    { subst st1. cbn. now rewrite Ep. }
    { subst st1. cbn. now rewrite Ed. }
    cbn [version] in Hjver.
    destruct (packageRetrieve_found (Identity nm ver) st1 j rest Hb Hf Hj)
      as (o & Ho & Hmiss).
    rewrite Hjid, Hjver in *. eauto.
  - intros v -> Hne. cbn [default]. now apply retrieveKey_differs.
Qed.

End IngestAndRetrieve.

(** ** Version formats *)

Section RegexFacts.

Import Regex.

Lemma dead_nullable r : dead r = true -> nullable r = false.
Proof.
  induction r; cbn; intros H; try discriminate; try reflexivity.
  - apply orb_true_iff in H as [H|H]; [rewrite IHr1|rewrite IHr2]; auto.
    apply andb_false_r.
  - apply andb_true_iff in H as [H1 H2]. now rewrite IHr1, IHr2.
Qed.

Lemma dead_deriv c r : dead r = true -> dead (deriv c r) = true.
Proof.
  induction r; cbn; intros H; try discriminate; try reflexivity.
  - apply orb_true_iff in H as [H|H].
    + rewrite (dead_nullable _ H). cbn. now rewrite IHr1.
    + destruct (nullable r1); cbn; rewrite ?IHr2, ?H by assumption;
        rewrite ?orb_true_r; reflexivity.
  - apply andb_true_iff in H as [H1 H2]. now rewrite IHr1, IHr2.
Qed.

Lemma dead_test r s : dead r = true -> test r s = false.
Proof.
  revert r. induction s as [|c s IH]; cbn; intros r H.
  - now apply dead_nullable.
  - apply IH. now apply dead_deriv.
Qed.

Lemma deriv_foreign c r : chars r c = false -> dead (deriv c r) = true.
Proof.
  induction r; cbn; intros H; try reflexivity.
  - now rewrite H.
  - now rewrite H.
  - apply orb_false_iff in H as [H1 H2].
    destruct (nullable r1); cbn; rewrite IHr1, ?IHr2 by assumption; reflexivity.
  - apply orb_false_iff in H as [H1 H2]. now rewrite IHr1, IHr2.
  - now rewrite IHr.
Qed.

Lemma chars_deriv c r x : chars (deriv c r) x = true -> chars r x = true.
Proof.
  induction r; cbn; try discriminate.
  - destruct (Ascii.eqb c c0); discriminate.
  - destruct (Js.is_digit c); discriminate.
  - destruct (nullable r1); cbn; intros H.
    + apply orb_true_iff in H as [H|H].
      * apply orb_true_iff in H as [H|H]; [rewrite IHr1|rewrite H]; auto.
        apply orb_true_r.
      * rewrite IHr2 by assumption. apply orb_true_r.
    + apply orb_true_iff in H as [H|H]; [rewrite IHr1|rewrite H]; auto.
      apply orb_true_r.
  - intros H. apply orb_true_iff in H as [H|H];
      [rewrite IHr1|rewrite IHr2]; auto. apply orb_true_r.
  - intros H. apply orb_true_iff in H as [H|H]; auto.
Qed.

(** Every character of a matched string is one the pattern mentions. *)
Lemma test_chars r s x :
  test r s = true -> contains x s = true -> chars r x = true.
Proof.
  revert r. induction s as [|c s IH]; cbn; intros r Ht Hx; [discriminate|].
  destruct (chars r c) eqn:Hc.
  - apply orb_true_iff in Hx as [Hx|Hx].
    + apply Ascii.eqb_eq in Hx. congruence.
    + eapply chars_deriv, IH; eauto.
  - rewrite dead_test in Ht by now apply deriv_foreign. discriminate.
Qed.

End RegexFacts.

Section TrimFacts.

Lemma space_length_0 c s :
  Js.starts_space c = false -> Js.space_length (String c s) = 0.
Proof.
  unfold Js.starts_space. cbv zeta. intros H.
  apply orb_false_iff in H as [Hs H].
  repeat (apply orb_false_iff in H as [H ?]).
  unfold Js.space_length. cbv zeta. rewrite Hs.
  destruct s as [|d [|e s]]; [reflexivity| |];
    repeat match goal with E : (_ =? _)%N = false |- _ => rewrite E; clear E end;
    reflexivity.
Qed.

Lemma trim_start_from_no_space pending s :
  Js.space_length (Js.trim_start_from pending s) = 0.
Proof.
  revert pending. induction s as [|c s IH]; intros pending; [reflexivity|].
  cbn [Js.trim_start_from]. destruct pending as [|k]; [|apply IH].
  destruct (Js.space_length (String c s)) eqn:E; [exact E|apply IH].
Qed.

(** What [trimStart] leaves does not start with white space. *)
Lemma trim_start_no_space s : Js.space_length (Js.trim_start s) = 0.
Proof. apply trim_start_from_no_space. Qed.

Lemma trim_start_id s :
  (forall x, contains x s = true -> Js.starts_space x = false) ->
  Js.trim_start s = s.
Proof.
  destruct s as [|c s]; [reflexivity|]. intros H.
  unfold Js.trim_start. cbn [Js.trim_start_from].
  rewrite space_length_0; [reflexivity|].
  apply H. cbn. now rewrite Ascii.eqb_refl.
Qed.

Lemma trim_end_id s :
  (forall x, contains x s = true -> Js.starts_space x = false) ->
  Js.trim_end s = s.
Proof.
  induction s as [|c s IH]; intros H; [reflexivity|].
  cbn [Js.trim_end]. unfold Js.blank. rewrite (trim_start_id _ H).
  rewrite IH; [reflexivity|].
  intros x Hx. apply H. cbn. rewrite Hx. apply orb_true_r.
Qed.

Lemma trim_id s :
  (forall x, contains x s = true -> Js.starts_space x = false) -> Js.trim s = s.
Proof.
  intros H. unfold Js.trim. rewrite (trim_start_id _ H). now apply trim_end_id.
Qed.

Lemma format_chars_not_space r x :
  In r versionFormats -> Regex.chars r x = true -> Js.starts_space x = false.
Proof.
  intros Hr Hc.
  destruct (Js.starts_space x) eqn:Hs; [|reflexivity].
  assert (Hd : Js.is_digit x = false).
  { unfold Js.starts_space, Js.is_space, Js.is_digit in *. cbv zeta in *.
    apply andb_false_iff. rewrite !N.leb_gt.
    repeat rewrite ?orb_true_iff, ?andb_true_iff, ?N.leb_le, ?N.eqb_eq in Hs.
    lia. }
  assert (Hl : forall c, In c ["."; "-"; "^"; "~"]%char -> Ascii.eqb x c = false).
  { intros c Hin. destruct (Ascii.eqb x c) eqn:E; [|reflexivity].
    apply Ascii.eqb_eq in E. subst x.
    cbn in Hin. destruct Hin as [<-|[<-|[<-|[<-|[]]]]]; discriminate Hs. }
  cbn in Hr.
  destruct Hr as [<-|[<-|[<-|[<-|[]]]]]; cbn in Hc;
    rewrite ?Hd, ?Hl in Hc by (cbn; auto); discriminate Hc.
Qed.

Lemma matched_version_trim r v :
  In r versionFormats -> Regex.test r v = true -> Js.trim v = v.
Proof.
  intros Hr Ht. apply trim_id. intros x Hx.
  eapply format_chars_not_space; [exact Hr|].
  eapply test_chars; eauto.
Qed.

End TrimFacts.

Section ExclusiveFormats.

Import Regex.

Lemma needs_not_nullable c r : needs c r = true -> nullable r = false.
Proof.
  induction r; cbn; intros H; try discriminate; try reflexivity.
  - apply orb_true_iff in H as [H|H]; [rewrite IHr1|rewrite IHr2]; auto.
    apply andb_false_r.
  - apply andb_true_iff in H as [H1 H2]. now rewrite IHr1, IHr2.
Qed.

Lemma needs_deriv c x r :
  Ascii.eqb x c = false -> needs c r = true -> needs c (deriv x r) = true.
Proof.
  intros Hx. induction r; cbn; intros H; try discriminate; try reflexivity.
  - apply Ascii.eqb_eq in H. subst c0. now rewrite Hx.
  - destruct (needs c r1) eqn:H1.
    + rewrite (needs_not_nullable _ _ H1). cbn. now rewrite IHr1.
    + cbn in H. destruct (nullable r1); cbn; rewrite H, ?IHr2 by assumption;
        rewrite ?orb_true_r; reflexivity.
  - apply andb_true_iff in H as [H1 H2]. now rewrite IHr1, IHr2.
Qed.

Lemma test_needs c r s :
  needs c r = true -> test r s = true -> contains c s = true.
Proof.
  revert r. induction s as [|x s IH]; cbn; intros r Hn Ht.
  - rewrite (needs_not_nullable _ _ Hn) in Ht. discriminate.
  - destruct (Ascii.eqb x c) eqn:Hx; [reflexivity|].
    eapply IH; [|exact Ht]. now apply needs_deriv.
Qed.

Lemma needs_excludes c r1 r2 v :
  needs c r1 = true -> chars r2 c = false ->
  test r1 v = true -> test r2 v = true -> False.
Proof.
  intros Hn Hc H1 H2.
  pose proof (test_needs c r1 v Hn H1) as Hin.
  pose proof (test_chars r2 v c H2 Hin) as Hch. congruence.
Qed.

(** The four formats are mutually exclusive: no version matches two. *)
Lemma versionFormats_exclusive v :
  length (List.filter (fun regex => test regex v) versionFormats) <= 1.
Proof.
  unfold versionFormats. cbn [List.filter].
  destruct (test exactFormat v) eqn:E, (test rangeFormat v) eqn:R,
           (test caretFormat v) eqn:C, (test tildeFormat v) eqn:T;
    cbn [length]; try lia; exfalso.
  all: first
    [ exact (needs_excludes "-" rangeFormat exactFormat v eq_refl eq_refl R E)
    | exact (needs_excludes "^" caretFormat exactFormat v eq_refl eq_refl C E)
    | exact (needs_excludes "~" tildeFormat exactFormat v eq_refl eq_refl T E)
    | exact (needs_excludes "^" caretFormat rangeFormat v eq_refl eq_refl C R)
    | exact (needs_excludes "~" tildeFormat rangeFormat v eq_refl eq_refl T R)
    | exact (needs_excludes "~" tildeFormat caretFormat v eq_refl eq_refl T C) ].
Qed.

End ExclusiveFormats.

(** ** Listing *)

Section ListFacts.

Variable env : Env.

Lemma matchesOneFormat_witness v :
  matchesOneFormat v = true ->
  exists r, In r versionFormats /\ Regex.test r v = true.
Proof.
  unfold matchesOneFormat. intros H. apply Nat.eqb_eq in H.
  destruct (List.filter (fun regex => Regex.test regex v) versionFormats)
    as [|r l] eqn:E; [discriminate H|].
  assert (Hin : In r (List.filter (fun regex => Regex.test regex v) versionFormats))
    by (rewrite E; left; reflexivity).
  apply filter_In in Hin. eauto.
Qed.

Lemma versionCondition_ok v :
  matchesOneFormat v = true -> exists c, versionCondition v = Return c.
Proof.
  intros H. destruct (matchesOneFormat_witness v H) as (r & Hr & Ht).
  unfold versionCondition. rewrite (matched_version_trim r v Hr Ht).
  destruct (Regex.test exactFormat v) eqn:E1; [eauto|].
  destruct (Regex.test rangeFormat v) eqn:E2; [eauto|].
  destruct (Regex.test caretFormat v) eqn:E3; [eauto|].
  destruct (Regex.test tildeFormat v) eqn:E4; [eauto|].
  cbn in Hr. destruct Hr as [<-|[<-|[<-|[<-|[]]]]]; congruence.
Qed.

Lemma entryConditions_valid q :
  validEntry q = true -> exists c, entryConditions q = Return c.
Proof.
  unfold validEntry, entryConditions, matchesOneFormat.
  destruct (Js.truthy (q_Version q)) eqn:Hv; cbn [negb orb andb]; intros H.
  - rewrite H. cbn [negb].
    destruct (versionCondition_ok (Js.interp (q_Version q)) H) as [c ->]. eauto.
  - eauto.
Qed.

Lemma entryConditions_invalid q :
  validEntry q = false ->
  entryConditions q
  = Throw (CustomError ("Invalid or ambiguous version format: "
                          +:+ Js.interp (q_Version q)) 400).
Proof.
  unfold validEntry, entryConditions, matchesOneFormat.
  destruct (Js.truthy (q_Version q)); cbn [negb orb andb]; intros H;
    [|discriminate].
  rewrite H. reflexivity.
Qed.

Lemma packageConditions_valid body :
  forallb validEntry body = true -> exists w, packageConditions body = Return w.
Proof.
  induction body as [|q body IH]; cbn; intros H; [eauto|].
  apply andb_true_iff in H as [Hq Hb].
  destruct (entryConditions_valid q Hq) as [c ->].
  destruct (IH Hb) as [w ->]. eauto.
Qed.

Lemma packageConditions_invalid body :
  forallb validEntry body = false ->
  exists msg, packageConditions body = Throw (CustomError msg 400).
Proof.
  induction body as [|q body IH]; cbn; intros H; [discriminate|].
  destruct (validEntry q) eqn:Hq; cbn in H.
  - destruct (entryConditions_valid q Hq) as [c ->].
    destruct (IH H) as [msg ->]. eauto.
  - rewrite (entryConditions_invalid q Hq). eauto.
Qed.

Lemma whereClauses_valid body :
  forallb validEntry body = true -> exists w, whereClauses body = Return w.
Proof.
  intros H. unfold whereClauses. destruct body as [|q body]; [eauto|].
  destruct (selectsAll (q :: body)); [eauto|].
  destruct (packageConditions_valid _ H) as [[|c w] ->]; eauto.
Qed.

Lemma whereClauses_invalid body :
  selectsAll body = false -> forallb validEntry body = false ->
  exists msg, whereClauses body = Throw (CustomError msg 400).
Proof.
  intros Hs H. unfold whereClauses. destruct body as [|q body]; [discriminate|].
  rewrite Hs. destruct (packageConditions_invalid _ H) as [msg ->]. eauto.
Qed.

(** Once the filters are accepted, the query is sent: whatever the
    store answers, the call is in the log. *)
Lemma packagesList_proceeds body offset st clauses :
  whereClauses body = Return clauses ->
  log (snd (packagesList env body offset st))
  = log st ++ [DbSelectPackages clauses limit (offsetValue offset)].
Proof.
  intros Hw. unfold packagesList, try_catch. rewrite Hw.
  unfold bind at 1. unfold ret at 1. unfold getPackages, bind at 1 2, call.
  destruct (fault env _); [reflexivity|].
  destruct (offsetValue offset) as [|k|neg]; [reflexivity| |reflexivity].
  destruct (k <? 0)%Z; [reflexivity|].
  destruct (BIGINT_MAX <? k)%Z; reflexivity.
Qed.

(** C6, as amended. Apart from the single-entry query [Name = "*"],
    the query is sent to the store exactly when every entry with a
    non-empty [Version] matches exactly one of the four formats;
    otherwise it fails with status 400 and the store is not asked. The
    single-entry query [Name = "*"] is sent, without a where clause,
    whatever its [Version] is. *)
Theorem packagesList_version_validation body offset st :
  (selectsAll body = false ->
   (forallb validEntry body = true ->
      exists clauses,
        whereClauses body = Return clauses
        /\ log (snd (packagesList env body offset st))
           = log st ++ [DbSelectPackages clauses limit (offsetValue offset)])
   /\ (forallb validEntry body = false ->
       exists msg,
         packagesList env body offset st = (Throw (CustomError msg 400), st)))
  /\ (selectsAll body = true ->
      whereClauses body = Return []
      /\ log (snd (packagesList env body offset st))
         = log st ++ [DbSelectPackages [] limit (offsetValue offset)]).
Proof.
  split.
  - intros Hs. split; intros H.
    + destruct (whereClauses_valid body H) as [w Hw].
      exists w. split; [exact Hw|]. now apply packagesList_proceeds.
    + destruct (whereClauses_invalid body Hs H) as [msg Hw].
      exists msg. unfold packagesList, try_catch. rewrite Hw. reflexivity.
  - intros Hs.
    assert (Hw : whereClauses body = Return []).
    { unfold whereClauses. destruct body as [|q body]; [reflexivity|].
      now rewrite Hs. }
    split; [exact Hw|]. now apply packagesList_proceeds.
Qed.

Lemma firstn_skipn_length {X} (l : list X) (n k : nat) :
  length (firstn n (skipn k l)) = Nat.min n (length l - k).
Proof. now rewrite length_firstn, length_skipn. Qed.

(** What [packagesList] answers when the query goes through. *)
Lemma to_double_safe z :
  (Z.abs z <= MAX_SAFE_INTEGER)%Z -> to_double z = Num z.
Proof.
  unfold to_double, MAX_SAFE_INTEGER. cbv zeta. intros H.
  destruct (Z.leb_spec (Z.abs z) (2 ^ 53)) as [_|Hgt]; [reflexivity|].
  change (2 ^ 53)%Z with 9007199254740992%Z in Hgt. lia.
Qed.

Lemma packagesList_Return body offset st clauses k :
  whereClauses body = Return clauses ->
  offsetValue offset = Num k -> (0 <= k <= BIGINT_MAX)%Z ->
  fault env (DbSelectPackages clauses limit (Num k)) = None ->
  let rows := firstn 10 (skipn (Z.to_nat k)
                (List.filter (db_where env clauses) (packages st))) in
  packagesList env body offset st
  = (Return {| packages_of := rows;
               nextOffset := if Nat.eqb (length rows) 10
                             then Some (js_add (Num k) limit) else None |},
     record (DbSelectPackages clauses limit (Num k)) st).
Proof.
  intros Hw Ho Hk Hf rows. unfold packagesList, try_catch. rewrite Hw, Ho.
  unfold bind at 1. unfold ret at 1. unfold getPackages, bind at 1 2, call.
  rewrite Hf. destruct (k <? 0)%Z eqn:Hneg; [lia|].
  destruct (BIGINT_MAX <? k)%Z eqn:Hbig; [lia|].
  cbn [gets ret packages record].
  change (Z.to_nat limit) with 10%nat. fold rows.
  replace (Z.of_nat (length rows) =? limit)%Z with (Nat.eqb (length rows) 10);
    [reflexivity|].
  unfold limit. destruct (Nat.eqb_spec (length rows) 10); lia.
Qed.

Lemma packagesList_Return_inv body offset st resp st' :
  packagesList env body offset st = (Return resp, st') ->
  exists clauses k,
    whereClauses body = Return clauses /\ offsetValue offset = Num k
    /\ (0 <= k <= BIGINT_MAX)%Z
    /\ fault env (DbSelectPackages clauses limit (Num k)) = None.
Proof.
  unfold packagesList, try_catch.
  destruct (whereClauses body) as [w|e] eqn:Hw.
  2:{ unfold bind, throw. destruct (instanceof_CustomError e); discriminate. }
  unfold bind at 1. unfold ret at 1. unfold getPackages, bind at 1 2, call.
  destruct (fault env _) eqn:Hf; [cbn; discriminate|].
  destruct (offsetValue offset) as [|k|neg]; [cbn; discriminate| |cbn; discriminate].
  destruct (k <? 0)%Z eqn:Hneg; [cbn; discriminate|].
  destruct (BIGINT_MAX <? k)%Z eqn:Hbig; [cbn; discriminate|].
  intros _. exists w, k. repeat split; auto; lia.
Qed.

(** C8. A query answered at offset [k] carries [nextOffset = k + 10]
    when it returned ten rows and [null] otherwise. When the rows that
    match number [10 * m], the page at offset [10 * (m - 1)] is full
    and points to [10 * m], and the page at [10 * m] is empty with
    [nextOffset = null]. *)
Theorem packagesList_pagination body offset st k :
  offsetValue offset = Num k ->
  (0 <= k)%Z -> (k + limit <= MAX_SAFE_INTEGER)%Z ->
  (forall resp st',
      packagesList env body offset st = (Return resp, st') ->
      nextOffset resp
      = if Nat.eqb (length (packages_of resp)) 10
        then Some (Num (k + 10)) else None)
  /\ (forall clauses m,
        whereClauses body = Return clauses ->
        fault env (DbSelectPackages clauses limit (Num k)) = None ->
        length (List.filter (db_where env clauses) (packages st)) = 10 * m ->
        (k = Z.of_nat (10 * m) ->
         fst (packagesList env body offset st)
         = Return {| packages_of := []; nextOffset := None |})
        /\ ((k + 10)%Z = Z.of_nat (10 * m) ->
            exists rows,
              length rows = 10
              /\ fst (packagesList env body offset st)
                 = Return {| packages_of := rows;
                             nextOffset := Some (Num (Z.of_nat (10 * m))) |})).
Proof.
  intros Ho Hk0 Hsafe.
  assert (Hadd : js_add (Num k) limit = Num (k + 10)).
  { unfold js_add, limit in *. rewrite to_double_safe; [reflexivity|]. lia. }
  assert (Hbig : (0 <= k <= BIGINT_MAX)%Z).
  { unfold MAX_SAFE_INTEGER, limit in Hsafe. unfold BIGINT_MAX. lia. }
  fold limit in Hadd.
  split.
  - intros resp st' H.
    destruct (packagesList_Return_inv _ _ _ _ _ H) as (w & k' & Hw & Ho' & Hk & Hf).
    assert (k' = k) by congruence. subst k'.
    rewrite (packagesList_Return _ _ _ _ _ Hw Ho Hk Hf), Hadd in H.
    cbv zeta in H. injection H as <- _. reflexivity.
  - intros w m Hw Hf Hlen. split; intros Hk.
    + rewrite (packagesList_Return _ _ _ _ _ Hw Ho Hbig Hf). cbv zeta.
      cbn [fst].
      replace (firstn 10 _) with (@nil PackageRow); [reflexivity|].
      symmetry. apply length_zero_iff_nil.
      rewrite firstn_skipn_length, Hlen. lia.
    + rewrite (packagesList_Return _ _ _ _ _ Hw Ho Hbig Hf), Hadd. cbv zeta.
      cbn [fst]. eexists. split; [|rewrite <- Hk].
      2:{ replace (Nat.eqb _ 10) with true; [reflexivity|].
          symmetry. apply Nat.eqb_eq.
          rewrite firstn_skipn_length, Hlen. lia. }
      rewrite firstn_skipn_length, Hlen. lia.
Qed.

End ListFacts.

(** ** Identity and reset *)

Section IdentityFacts.

Lemma contains_append c a b :
  contains c (a +:+ String c b) = true.
Proof.
  induction a as [|x a IH].
  - change (contains c (String c b) = true). cbn. now rewrite Ascii.eqb_refl.
  - change (contains c (String x (a +:+ String c b)) = true).
    cbn. rewrite IH. apply orb_true_r.
Qed.

(** With no dash in the versions, the joined string determines both
    the name and the version. *)
Lemma idInput_inj n1 v1 n2 v2 :
  contains "-" v1 = false -> contains "-" v2 = false ->
  idInput (Some n1) (Some v1) = idInput (Some n2) (Some v2) ->
  n1 = n2 /\ v1 = v2.
Proof.
  unfold idInput. cbn [Js.interp]. intros H1 H2.
  revert n2. induction n1 as [|c n1 IH]; intros [|c2 n2] H.
  - change (String "-" v1 = String "-" v2) in H. injection H as ->. auto.
  - change (String "-" v1 = String c2 (n2 +:+ String "-" v2)) in H.
    injection H as <- ->. now rewrite contains_append in H1.
  - change (String c (n1 +:+ String "-" v1) = String "-" v2) in H.
    injection H as -> <-. now rewrite contains_append in H2.
  - change (String c (n1 +:+ "-" +:+ v1) = String c2 (n2 +:+ "-" +:+ v2)) in H.
    injection H as -> H. destruct (IH _ H) as [-> ->]. auto.
Qed.

Section IdentityBytes.

Local Open Scope Z_scope.















Lemma length_hex bs : String.length (Uuid.hex bs) = (2 * length bs)%nat.
Proof. induction bs as [|b bs IH]; cbn in *; lia. Qed.











End IdentityBytes.


End IdentityFacts.

Section ResetFacts.

Variable env : Env.

Lemma lookup_deleteKeys keys (m : gmap string Buffer) k :
  deleteKeys keys m !! k = if decide (k ∈ keys) then None else m !! k.
Proof.
  unfold deleteKeys. induction keys as [|x keys IH]; cbn.
  - rewrite decide_False by apply not_elem_of_nil. reflexivity.
  - destruct (decide (x = k)) as [->|Hne].
    + rewrite lookup_delete_eq, decide_True by left. reflexivity.
    + rewrite lookup_delete_ne, IH by assumption.
      destruct (decide (k ∈ keys)) as [Hin|Hin].
      * rewrite decide_True by now right. reflexivity.
      * rewrite decide_False; [reflexivity|].
        intros Hc. apply elem_of_cons in Hc as [->|]; congruence.
Qed.

Lemma leb_trans a b c :
  String.leb a b = true -> String.leb b c = true -> String.leb a c = true.
Proof.
  unfold String.leb. revert b c.
  induction a as [|x a IH]; intros [|y b] [|z c]; cbn; try congruence.
  unfold Ascii.compare.
  destruct (N.compare_spec (N_of_ascii x) (N_of_ascii y)) as [E1|L1|G1];
    destruct (N.compare_spec (N_of_ascii y) (N_of_ascii z)) as [E2|L2|G2];
    try congruence; intros H1 H2.
  - rewrite E1, E2, N.compare_refl. eauto.
  - rewrite E1. now apply N.compare_lt_iff in L2 as ->.
  - rewrite <- E2. now apply N.compare_lt_iff in L1 as ->.
  - assert (L : (N_of_ascii x < N_of_ascii z)%N) by lia.
    now apply N.compare_lt_iff in L as ->.
Qed.

Lemma sortKeys_In keys k : In k (sortKeys keys) <-> In k keys.
Proof.
  unfold sortKeys. rewrite <- !list_elem_of_In.
  now rewrite merge_sort_Permutation.
Qed.

Lemma keysUnder_spec prefix (m : gmap string Buffer) k :
  In k (keysUnder prefix m) <-> is_Some (m !! k) /\ String.prefix prefix k = true.
Proof.
  unfold keysUnder. rewrite filter_In, sortKeys_In, in_map_iff. split.
  - intros [((k' & b) & <- & Hin) Hp]. split; [|exact Hp].
    apply list_elem_of_In, elem_of_map_to_list in Hin. cbn. eauto.
  - intros [[b Hb] Hp]. split; [|exact Hp].
    exists (k, b). split; [reflexivity|].
    now apply list_elem_of_In, elem_of_map_to_list.
Qed.

(** The listing is in key order. *)
Lemma keysUnder_sorted prefix (m : gmap string Buffer) :
  StronglySorted keyOrder (keysUnder prefix m).
Proof.
  unfold keysUnder.
  assert (Hs : StronglySorted keyOrder (sortKeys (map fst (map_to_list m)))).
  { apply StronglySorted_merge_sort.
    - intros a b c. unfold keyOrder. apply leb_trans.
    - intros a b. apply String.leb_total. }
  induction Hs as [|k l Hs IH Hall]; cbn; [constructor|].
  destruct (String.prefix prefix k); [|exact IH].
  constructor; [exact IH|].
  apply List.Forall_forall. intros x Hx. apply filter_In in Hx as [Hx _].
  rewrite List.Forall_forall in Hall. auto.
Qed.

(** Deleting every key under a prefix leaves none under it. *)
Lemma keysUnder_deleteKeys prefix (m : gmap string Buffer) :
  keysUnder prefix (deleteKeys (keysUnder prefix m) m) = [].
Proof.
  destruct (keysUnder prefix (deleteKeys (keysUnder prefix m) m)) as [|k l] eqn:E;
    [reflexivity|exfalso].
  assert (Hin : In k (keysUnder prefix (deleteKeys (keysUnder prefix m) m)))
    by (rewrite E; left; reflexivity).
  apply keysUnder_spec in Hin as [[b Hb] Hp].
  rewrite lookup_deleteKeys in Hb.
  destruct (decide (k ∈ keysUnder prefix m)) as [|Hn]; [discriminate|].
  apply Hn, list_elem_of_In, keysUnder_spec. eauto.
Qed.

(** C9, as amended. For a bucket whose keys under [packages/] fit in
    one listing, phase 1 lists these keys and deletes them all; phase
    2, the schema reset, is attempted only after phase 1 succeeded. A
    failure in either phase is reported as an [Error] whose message is
    the failure's message after the prefix ["Failed to reset registry: "],
    and nothing is rolled back. After a successful reset no key under
    [packages/] remains. *)
Theorem registryReset_two_phases st :
  Js.truthy (bucketName env) = true ->
  length (keysUnder "packages/" (s3 st)) <= LIST_MAX_KEYS ->
  let listing := S3List "packages/" in
  let keys := keysUnder "packages/" (s3 st) in
  let phase1 := match keys with
                | [] => [listing]
                | _ :: _ => [listing; S3Delete keys]
                end in
  let phase1_ok :=
    fault env listing = None
    /\ (keys = [] \/ fault env (S3Delete keys) = None) in
  (forall msg, fault env listing = Some msg ->
     registryReset env st
     = (Throw (Error ("Failed to reset registry: " +:+ msg)), record listing st))
  /\ (forall msg, fault env listing = None -> keys <> [] ->
        fault env (S3Delete keys) = Some msg ->
        registryReset env st
        = (Throw (Error ("Failed to reset registry: " +:+ msg)),
           record (S3Delete keys) (record listing st)))
  /\ (forall msg, phase1_ok -> fault env DbReset = Some msg ->
        exists st',
          registryReset env st
          = (Throw (Error ("Failed to reset registry: " +:+ msg)), st')
          /\ log st' = log st ++ phase1 ++ [DbReset]
          /\ s3 st' = deleteKeys keys (s3 st)
          /\ keysUnder "packages/" (s3 st') = []
          /\ packages st' = packages st
          /\ package_metadata st' = package_metadata st
          /\ package_data st' = package_data st)
  /\ (phase1_ok -> fault env DbReset = None ->
        exists st',
          registryReset env st = (Return tt, st')
          /\ log st' = log st ++ phase1 ++ [DbReset]
          /\ s3 st' = deleteKeys keys (s3 st)
          /\ keysUnder "packages/" (s3 st') = []
          /\ packages st' = [] /\ package_metadata st' = []
          /\ package_data st' = []).
Proof.
  intros Hb Hlen. cbv zeta.
  pose proof (keysUnder_deleteKeys "packages/" (s3 st)) as Hgone.
  pose proof (firstn_all2 (n := LIST_MAX_KEYS) (keysUnder "packages/" (s3 st)) Hlen)
    as Hall.
  assert (Hnil : keysUnder "packages/" (s3 st) = [] ->
                 keysUnder "packages/" (s3 st) = keysUnder "packages/" (s3 st))
    by reflexivity.
  unfold registryReset. rewrite Hb. cbn [negb].
  unfold try_catch, s3_listObjectsV2, s3_deleteObjects, executeSqlFile.
  unfold bind, call, gets, modify, ret, throw.
  split; [|split; [|split]].
  - intros msg ->. reflexivity.
  - intros msg -> Hne Hd. cbn [s3 record]. rewrite Hall.
    destruct (keysUnder "packages/" (s3 st)) as [|k l]; [congruence|].
    rewrite Hd. reflexivity.
  - intros msg [-> Hd] Hr. cbn [s3 record]. rewrite Hall.
    destruct (keysUnder "packages/" (s3 st)) as [|k l] eqn:Ek.
    + rewrite Hr. eexists. split; [reflexivity|]. cbn.
      rewrite <- app_assoc, Ek. auto 10.
    + destruct Hd as [|Hd]; [discriminate|]. rewrite Hd. cbn [set_s3 log record].
      rewrite Hr. eexists. split; [reflexivity|]. cbn [s3 log packages
        package_metadata package_data set_s3 record].
      rewrite <- !app_assoc. auto 10.
  - intros [-> Hd] Hr. cbn [s3 record]. rewrite Hall.
    destruct (keysUnder "packages/" (s3 st)) as [|k l] eqn:Ek.
    + rewrite Hr. eexists. split; [reflexivity|]. cbn.
      rewrite <- app_assoc, Ek. auto 10.
    + destruct Hd as [|Hd]; [discriminate|]. rewrite Hd. cbn [set_s3 log record].
      rewrite Hr. eexists. split; [reflexivity|]. cbn [s3 log packages
        package_metadata package_data set_s3 record].
      rewrite <- !app_assoc. auto 10.
Qed.

End ResetFacts.

(** ** Examples and instances *)

Ltac by_computation :=
  repeat match goal with |- _ /\ _ => split end; vm_compute; reflexivity.

Example base64_hello :
  Base64.encode (list_byte_of_string "hello") = "aGVsbG8="
  /\ Base64.decode "aGVsbG8=" = list_byte_of_string "hello"
  /\ Base64.decode "aGV sbG8" = list_byte_of_string "hello".
Proof. by_computation. Qed.

Example trim_examples :
  Js.trim "  1.0.0 " = "1.0.0" /\ Js.trim "   " = "" /\ Js.trim "a b" = "a b".
Proof. repeat split; reflexivity. Qed.

(** White space outside ASCII is trimmed as well: U+00A0, U+2003,
    U+3000 and U+FEFF here, in UTF-8.  A character that merely shares
    a byte with one of them (U+00E0, whose second byte is that of
    U+00A0) stays. *)
Example trim_unicode :
  let em := String (ascii_of_nat 226) (String (ascii_of_nat 128)
              (String (ascii_of_nat 131) "")) in
  let ideographic := String (ascii_of_nat 227) (String (ascii_of_nat 128)
              (String (ascii_of_nat 128) "")) in
  let bom := String (ascii_of_nat 239) (String (ascii_of_nat 187)
              (String (ascii_of_nat 191) "")) in
  let agrave := String (ascii_of_nat 195) (String (ascii_of_nat 160) "") in
  Js.trim (nbsp +:+ "X" +:+ nbsp) = "X"
  /\ Js.trim (bom +:+ em +:+ " a b" +:+ ideographic +:+ " ") = "a b"
  /\ Js.trim (nbsp +:+ em) = ""
  /\ Js.trim (agrave +:+ " ") = agrave
  /\ parseInt (nbsp +:+ "12") = Num 12.
Proof. cbv zeta. by_computation. Qed.

(** [parseInt] yields doubles: beyond [2^53] the integer read is
    rounded, and a long enough numeral is [Infinity]. *)
Example parseInt_doubles :
  parseInt "9007199254740992" = Num 9007199254740992
  /\ parseInt "9007199254740993" = Num 9007199254740992
  /\ parseInt "9007199254740995" = Num 9007199254740996
  /\ parseInt "-9007199254740993" = Num (-9007199254740992)
  /\ parseInt "123456789012345678901234567890"
     = Num 123456789012345677877719597056
  /\ parseInt (String "1" (string_of_list_ascii (repeat "0"%char 309)))
     = Infinity false
  /\ js_add (Num 9007199254740992) 1 = Num 9007199254740992
  /\ js_add (Num 9007199254740991) 10 = Num 9007199254741000.
Proof. by_computation. Qed.

(** The digest of ["abc"] and the UUID of [python.org] in the DNS name
    space, as published with SHA-1 and with RFC 4122 implementations. *)
Example uuid_vectors :
  Uuid.hex (Sha1.digest (Uuid.bytes_of_string "abc"))
    = "a9993e364706816aba3e25717850c26c9cd0d89d"
  /\ Uuid.v5 "python.org" NAMESPACE = "886313e1-3b8a-5372-9b90-0c9aee199e5d".
Proof. by_computation. Qed.

Example github_url_groups :
  GithubUrl.match_ "https://github.com/lodash/lodash/blob/main/a.js"
    = Some ("lodash", "lodash")
  /\ GithubUrl.match_ "https://github.com/lodash" = None.
Proof. split; reflexivity. Qed.

Example parseInt_examples :
  parseInt " 12abc" = Num 12 /\ parseInt "-5" = Num (-5) /\ parseInt "abc" = NaN.
Proof. repeat split; reflexivity. Qed.

(** The retrieve that follows the ingestion of [X] fails: the archive
    is at [packages/X/v1.0.0/package.zip] and the read goes to the key
    with the id in place of [X]. *)
Example retrieve_of_created_package_fails :
  keysUnder "packages/" (s3 xStore) = ["packages/X/v1.0.0/package.zip"]
  /\ fst (packageRetrieve calmEnv (ID (metadata xPackage)) xStore)
     = Throw (CustomError
                "Failed to retrieve package: The specified key does not exist."
                500)
  /\ last (log (snd (packageRetrieve calmEnv (ID (metadata xPackage)) xStore)))
     = Some (S3Get
               "packages/0fa1e118-4dd5-5760-9f72-e21644b59962/v1.0.0/package.zip").
Proof. by_computation. Qed.

(** The theorem above at the ingestion of [X]: the archive is written
    under the name and read under the id. *)
Lemma packageRetrieve_after_create_witness :
  packageCreate calmEnv (Some "aGVsbG8=") None None None (Some "X")
    (version_only "1.0.0") emptyStore = (Return xPackage, xStore)
  /\ fault calmEnv (DbSelectById (ID (metadata xPackage))) = None
  /\ (exists archive,
         In (S3Put "packages/X/v1.0.0/package.zip" archive) (log xStore)
         /\ s3 xStore !! "packages/X/v1.0.0/package.zip" = Some archive)
  /\ (exists o,
         packageRetrieve calmEnv (ID (metadata xPackage)) xStore
         = (o, record (S3Get
                 "packages/0fa1e118-4dd5-5760-9f72-e21644b59962/v1.0.0/package.zip")
                 (record (DbSelectById (ID (metadata xPackage))) xStore))
         /\ (s3 xStore
               !! "packages/0fa1e118-4dd5-5760-9f72-e21644b59962/v1.0.0/package.zip"
             = None ->
             exists msg,
               o = Throw (CustomError
                            ("Failed to retrieve package: " +:+ msg) 500)))
  /\ fst (packageRetrieve calmEnv (ID (metadata xPackage)) xStore)
     = Throw (CustomError
                "Failed to retrieve package: The specified key does not exist."
                500).
Proof.
  assert (Hc : packageCreate calmEnv (Some "aGVsbG8=") None None None (Some "X")
                 (version_only "1.0.0") emptyStore = (Return xPackage, xStore))
    by (vm_compute; reflexivity).
  assert (Hf : fault calmEnv (DbSelectById (ID (metadata xPackage))) = None)
    by reflexivity.
  split; [exact Hc|]. split; [exact Hf|].
  pose proof (packageRetrieve_after_create_reads_key_by_id calmEnv
                _ _ _ _ _ _ _ _ _ Hc Hf) as H.
  cbv zeta in H. destruct H as (H1 & H2 & _).
  split; [exact H1|]. split; [exact H2|]. vm_compute. reflexivity.
Defined.


(** Publishing [X] at [1.0.0] a second time. *)
Lemma packageCreate_conflict_witness :
  xorb (Js.truthy (Some "aGVsbG8=")) (Js.truthy None) = true
  /\ resolveNameVersion calmEnv (Some "aGVsbG8=") None (Some "X")
       (Js.trim <$> (version_only "1.0.0" ≫= arg_Name))
       (defaultedVersion (version_only "1.0.0")) xStore
     = (Return (Some "X", Some "1.0.0", None, None), xStore)
  /\ Js.truthy (bucketName calmEnv) = true
  /\ fault calmEnv (DbExists (Identity (Some "X") (Some "1.0.0"))) = None
  /\ hasId (Identity (Some "X") (Some "1.0.0")) xStore = true
  /\ exists st',
       packageCreate calmEnv (Some "aGVsbG8=") None None None (Some "X")
         (version_only "1.0.0") xStore
       = (Throw (CustomError "Package already exists." 409), st')
       /\ s3 st' = s3 xStore /\ packages st' = packages xStore
       /\ package_metadata st' = package_metadata xStore
       /\ package_data st' = package_data xStore
       /\ exists ops, log st' = log xStore ++ ops
                      /\ Forall (fun op => is_write op = false) ops.
Proof.
  assert (Hx : xorb (Js.truthy (Some "aGVsbG8=")) (Js.truthy None) = true)
    by reflexivity.
  assert (Hres : resolveNameVersion calmEnv (Some "aGVsbG8=") None (Some "X")
                   (Js.trim <$> (version_only "1.0.0" ≫= arg_Name))
                   (defaultedVersion (version_only "1.0.0")) xStore
                 = (Return (Some "X", Some "1.0.0", None, None), xStore))
    by (vm_compute; reflexivity).
  assert (Hb : Js.truthy (bucketName calmEnv) = true) by reflexivity.
  assert (Hf : fault calmEnv (DbExists (Identity (Some "X") (Some "1.0.0"))) = None)
    by reflexivity.
  assert (Hid : hasId (Identity (Some "X") (Some "1.0.0")) xStore = true)
    by (vm_compute; reflexivity).
  repeat (split; [assumption|]).
  exact (packageCreate_conflict_writes_nothing calmEnv _ None _ None _ _ _ _ _ _ _ _
           Hx Hres Hb Hf Hid).
Defined.

(** C4 as stated fails: the metadata asks for version [2.0.0], no name is
    given, and the package is stored at the resolver's [9.9.9]. *)
Lemma resolver_version_overrides_metadata_version :
  packageCreate calmEnv (Some "aGVsbG8=") None None None None
    (version_only "2.0.0") emptyStore = (Return unnamedPackage, unnamedStore)
  /\ Version (metadata unnamedPackage) = Some "9.9.9"
  /\ ID (metadata unnamedPackage) = Identity (Some "pkg") (Some "9.9.9")
  /\ map version (packages unnamedStore) = ["9.9.9"]
  /\ map m_version (package_metadata unnamedStore) = ["9.9.9"]
  /\ keysUnder "packages/" (s3 unnamedStore) = ["packages/pkg/v9.9.9/package.zip"].
Proof. by_computation. Qed.

(** A named request keeps its metadata version; an unnamed one, also
    one whose metadata name is a no-break space, gets the resolver's. *)
Lemma packageCreate_version_precedence_witness :
  (packageCreate calmEnv (Some "aGVsbG8=") None None None (Some "X")
     (version_only "1.0.0") emptyStore = (Return xPackage, xStore)
   /\ usesVersion "1.0.0" xPackage emptyStore xStore)
  /\ (Js.trim nbsp = ""
      /\ packageCreate calmEnv (Some "aGVsbG8=") None None None None
           nbspNamed emptyStore = (Return unnamedPackage, unnamedStore)
      /\ usesVersion "9.9.9" unnamedPackage emptyStore unnamedStore
      /\ exists op ops,
           is_resolve op = true
           /\ log unnamedStore = log emptyStore ++ [op] ++ ops
           /\ Forall (fun op => is_resolve op = false) ops).
Proof.
  split.
  - assert (Hc : packageCreate calmEnv (Some "aGVsbG8=") None None None (Some "X")
                   (version_only "1.0.0") emptyStore = (Return xPackage, xStore))
      by (vm_compute; reflexivity).
    split; [exact Hc|].
    pose proof (packageCreate_version_precedence calmEnv _ _ _ _ _ _ _ _ _ Hc) as H.
    cbv zeta in H. destruct H as [H _].
    destruct (H eq_refl) as (H1 & _).
    exact (H1 "1.0.0" eq_refl eq_refl).
  - assert (Hc : packageCreate calmEnv (Some "aGVsbG8=") None None None None
                   nbspNamed emptyStore
                 = (Return unnamedPackage, unnamedStore))
      by (vm_compute; reflexivity).
    split; [reflexivity|]. split; [exact Hc|].
    pose proof (packageCreate_version_precedence calmEnv _ _ _ _ _ _ _ _ _ Hc) as H.
    cbv zeta in H. destruct H as [_ H].
    destruct (H eq_refl) as [H1 H2].
    split; [exact (H1 "9.9.9" eq_refl)|exact H2].
Defined.

(** Retrieving an id that was never published. *)
Lemma packageRetrieve_unknown_id_witness :
  Js.truthy (bucketName calmEnv) = true
  /\ fault calmEnv (DbSelectById "no-such-id") = None
  /\ hasId "no-such-id" xStore = false
  /\ packageRetrieve calmEnv "no-such-id" xStore
     = (Throw (CustomError "Failed to retrieve package: Package not found." 500),
        record (DbSelectById "no-such-id") xStore).
Proof.
  assert (Hid : hasId "no-such-id" xStore = false) by (vm_compute; reflexivity).
  split; [reflexivity|]. split; [reflexivity|]. split; [exact Hid|].
  exact (packageRetrieve_unknown_id_reports_500 calmEnv "no-such-id" xStore
           eq_refl eq_refl Hid).
Defined.

(** C6 as stated fails: the lone [Name = "*"] entry carries a version
    that matches none of the formats, and the query is sent all the same. *)
Lemma star_query_skips_version_validation :
  matchesOneFormat "not-a-version" = false
  /\ forallb validEntry starQuery = false
  /\ fst (packagesList calmEnv starQuery None emptyStore)
     = Return {| packages_of := []; nextOffset := None |}
  /\ log (snd (packagesList calmEnv starQuery None emptyStore))
     = [DbSelectPackages [] limit (Num 0)].
Proof. by_computation. Qed.

(** A caret filter is accepted, a two-component version is refused, and
    the lone wildcard is sent with a version that is none. *)
Lemma packagesList_version_validation_witness :
  (selectsAll caretQuery = false /\ forallb validEntry caretQuery = true
   /\ exists clauses,
        whereClauses caretQuery = Return clauses
        /\ log (snd (packagesList calmEnv caretQuery None emptyStore))
           = log emptyStore ++ [DbSelectPackages clauses limit (offsetValue None)])
  /\ (selectsAll shortVersionQuery = false
      /\ forallb validEntry shortVersionQuery = false
      /\ exists msg,
           packagesList calmEnv shortVersionQuery None emptyStore
           = (Throw (CustomError msg 400), emptyStore))
  /\ (selectsAll starQuery = true
      /\ forallb validEntry starQuery = false
      /\ whereClauses starQuery = Return []
      /\ log (snd (packagesList calmEnv starQuery None emptyStore))
         = log emptyStore ++ [DbSelectPackages [] limit (offsetValue None)]).
Proof.
  split; [|split].
  - split; [reflexivity|]. split; [reflexivity|].
    exact (proj1 (proj1 (packagesList_version_validation calmEnv caretQuery None
                           emptyStore) eq_refl) eq_refl).
  - split; [reflexivity|]. split; [reflexivity|].
    exact (proj2 (proj1 (packagesList_version_validation calmEnv shortVersionQuery
                           None emptyStore) eq_refl) eq_refl).
  - split; [reflexivity|]. split; [reflexivity|].
    exact (proj2 (packagesList_version_validation calmEnv starQuery None
                    emptyStore) eq_refl).
Defined.

(** A request with both an inline archive and a URL. *)
Lemma packageCreate_rejects_both_witness :
  Js.truthy (Some "aGVsbG8=") = Js.truthy (Some "https://github.com/lodash/lodash")
  /\ packageCreate calmEnv (Some "aGVsbG8=") None
       (Some "https://github.com/lodash/lodash") None None None emptyStore
     = (Throw (CustomError
          "Invalid request body. 'Content' or 'URL' (exclusively) is required." 400),
        emptyStore).
Proof.
  split; [reflexivity|].
  exact (packageCreate_rejects_both_or_neither calmEnv (Some "aGVsbG8=") None
           (Some "https://github.com/lodash/lodash") None None None emptyStore
           eq_refl).
Defined.

(** Twenty rows: the page at offset 10 is full and points to 20, the page
    at offset 20 is empty. *)
Lemma packagesList_pagination_witness :
  (offsetValue (Some "10") = Num 10 /\ (0 <= 10)%Z
   /\ (10 + limit <= MAX_SAFE_INTEGER)%Z
   /\ exists rows,
        length rows = 10
        /\ fst (packagesList calmEnv [] (Some "10") twentyRows)
           = Return {| packages_of := rows;
                       nextOffset := Some (Num (Z.of_nat (10 * 2))) |})
  /\ (offsetValue (Some "20") = Num 20 /\ (0 <= 20)%Z
      /\ (20 + limit <= MAX_SAFE_INTEGER)%Z
      /\ fst (packagesList calmEnv [] (Some "20") twentyRows)
         = Return {| packages_of := []; nextOffset := None |}).
Proof.
  assert (B1 : (10 + limit <= MAX_SAFE_INTEGER)%Z) by (vm_compute; discriminate).
  assert (B2 : (20 + limit <= MAX_SAFE_INTEGER)%Z) by (vm_compute; discriminate).
  assert (P1 : (0 <= 10)%Z) by lia.
  assert (P2 : (0 <= 20)%Z) by lia.
  assert (Hlen : length (List.filter (db_where calmEnv []) (packages twentyRows))
                 = 10 * 2) by (vm_compute; reflexivity).
  split.
  - split; [reflexivity|]. split; [exact P1|]. split; [exact B1|].
    exact (proj2 (proj2 (packagesList_pagination calmEnv [] (Some "10") twentyRows
                           10 eq_refl P1 B1) [] 2 eq_refl eq_refl Hlen) eq_refl).
  - split; [reflexivity|]. split; [exact P2|]. split; [exact B2|].
    exact (proj1 (proj2 (packagesList_pagination calmEnv [] (Some "20") twentyRows
                           20 eq_refl P2 B2) [] 2 eq_refl eq_refl Hlen) eq_refl).
Defined.

(** C9 as stated fails: a refused listing is not reported as it is but
    under a new message. *)
Lemma registryReset_rewraps_failures :
  fault denyListing (S3List "packages/") = Some "Access Denied"
  /\ fst (registryReset denyListing xStore)
     = Throw (Error "Failed to reset registry: Access Denied")
  /\ fst (registryReset denyListing xStore) <> Throw (Error "Access Denied").
Proof.
  split; [reflexivity|]. split; [vm_compute; reflexivity|].
  vm_compute. discriminate.
Qed.

(** The listing is a single request: of 1001 archives, the one whose key
    comes last stays in the bucket after a reset that reports success. *)
Example registryReset_lists_one_page :
  length (keysUnder "packages/" (s3 crowdedStore)) = 1001
  /\ fst (registryReset calmEnv crowdedStore) = Return tt
  /\ keysUnder "packages/" (s3 (snd (registryReset calmEnv crowdedStore)))
     = ["packages/BMM/v1.0.0/package.zip"].
Proof. by_computation. Qed.

(** Resetting the registry that holds [X]. *)
Lemma registryReset_two_phases_witness :
  Js.truthy (bucketName calmEnv) = true
  /\ length (keysUnder "packages/" (s3 xStore)) <= LIST_MAX_KEYS
  /\ keysUnder "packages/" (s3 xStore) = ["packages/X/v1.0.0/package.zip"]
  /\ exists st',
       registryReset calmEnv xStore = (Return tt, st')
       /\ log st' = log xStore
                      ++ [S3List "packages/";
                          S3Delete ["packages/X/v1.0.0/package.zip"]]
                      ++ [DbReset]
       /\ s3 st' = deleteKeys ["packages/X/v1.0.0/package.zip"] (s3 xStore)
       /\ keysUnder "packages/" (s3 st') = []
       /\ packages st' = [] /\ package_metadata st' = []
       /\ package_data st' = [].
Proof.
  assert (Hk : keysUnder "packages/" (s3 xStore)
               = ["packages/X/v1.0.0/package.zip"]) by (vm_compute; reflexivity).
  assert (Hlen : length (keysUnder "packages/" (s3 xStore)) <= LIST_MAX_KEYS)
    by (rewrite Hk; apply Nat.leb_le; reflexivity).
  split; [reflexivity|]. split; [exact Hlen|]. split; [exact Hk|].
  pose proof (registryReset_two_phases calmEnv xStore eq_refl Hlen) as H.
  cbv zeta in H. destruct H as (_ & _ & _ & H).
  rewrite Hk in H. apply H; [|reflexivity].
  split; [reflexivity|right; reflexivity].
Defined.

(** An ingestion from a URL answers with the archive encoded twice. *)
Lemma packageCreate_echoes_content_witness :
  packageCreate calmEnv None None (Some "https://github.com/lodash/lodash")
    None None None emptyStore = (Return urlPackage, urlStore)
  /\ Content (data urlPackage)
     = Some (Base64.encode (list_byte_of_string
               (Base64.encode (list_byte_of_string "PK-archive"))))
  /\ exists apiUrl,
       In (HttpGet apiUrl) (log urlStore)
       /\ Content (data urlPackage)
          = Some (Base64.btoa (Base64.encode (http_body calmEnv apiUrl)))
       /\ s3 urlStore
            !! s3Key (Name (metadata urlPackage)) (Version (metadata urlPackage))
          = Some (http_body calmEnv apiUrl).
Proof.
  assert (Hc : packageCreate calmEnv None None
                 (Some "https://github.com/lodash/lodash") None None None emptyStore
               = (Return urlPackage, urlStore))
    by (vm_compute; reflexivity).
  split; [exact Hc|]. split; [vm_compute; reflexivity|].
  exact (proj1 (packageCreate_echoes_content calmEnv _ _ _ _ _ _ _ _ _ Hc) eq_refl).
Defined.

(** * Further properties *)

(** ** More on ingestion *)

Section IngestionFacts.

Variable env : Env.

Lemma packageCreate_after_guard
    Content_ JSProgram_ URL debloat_ Name_ metadata_ st nm ver owner repo st1 :
  reachesUpload env Content_ URL Name_ metadata_ st nm ver owner repo st1 ->
  packageCreate env Content_ JSProgram_ URL debloat_ Name_ metadata_ st
  = bind (uploadArchive env Content_ URL nm ver owner repo)
      (fun uploaded =>
         let '(contentBuffer, returnString) := uploaded in
         registerRows env JSProgram_ URL (default false debloat_) nm ver
           (Identity nm ver) contentBuffer returnString)
      (record (DbExists (Identity nm ver)) st1).
Proof.
  intros (Hx & Hres & Hb & Hf & Hid).
  destruct (resolveNameVersion_store _ _ _ _ _ _ _ _ _ Hres) as (_ & E2 & _).
  unfold packageCreate.
  destruct (Js.truthy URL), (Js.truthy Content_); try discriminate Hx;
    cbn [andb negb orb].
  all: rewrite (bind_Return _ _ _ _ _ Hres); cbn beta iota.
  all: rewrite packageId_is_derived, Hb; cbn [negb].
  all: unfold packageExistsQuery.
  all: erewrite bind_Return
         by (erewrite bind_Return by (apply call_ok; exact Hf); reflexivity).
  all: replace (hasId (Identity nm ver) (record (DbExists (Identity nm ver)) st1))
         with false by (unfold hasId in *; cbn; rewrite E2; auto).
  all: reflexivity.
Qed.

Lemma packageCreate_withID
    Content_ JSProgram_ URL debloat_ Name_ metadata_ i st :
  packageCreate env Content_ JSProgram_ URL debloat_ Name_ (withID i metadata_) st
  = packageCreate env Content_ JSProgram_ URL debloat_ Name_ metadata_ st.
Proof.
  unfold packageCreate.
  replace (Js.trim <$> (withID i metadata_ ≫= arg_Name))
    with (Js.trim <$> (metadata_ ≫= arg_Name)) by now destruct metadata_.
  replace (defaultedVersion (withID i metadata_))
    with (defaultedVersion metadata_) by now destruct metadata_.
  destruct (Js.truthy URL), (Js.truthy Content_); cbn [andb negb orb];
    try reflexivity.
  all: unfold bind at 1 4.
  all: destruct (resolveNameVersion _ _ _ _ _ _ _)
         as [[[[[nm ver] owner] repo]|e] st1]; [|reflexivity].
  all: rewrite !packageId_is_derived; reflexivity.
Qed.

(** X1. The id of a published package is the one derived from its name
    and version, and the [ID] the caller put in the metadata plays no
    part: any other [ID] gives the same answer and the same store. *)
Theorem packageCreate_overwrites_supplied_id
    Content_ JSProgram_ URL debloat_ Name_ metadata_ st pkg st' :
  packageCreate env Content_ JSProgram_ URL debloat_ Name_ metadata_ st
    = (Return pkg, st') ->
  ID (metadata pkg) = Identity (Name (metadata pkg)) (Version (metadata pkg))
  /\ forall i,
       packageCreate env Content_ JSProgram_ URL debloat_ Name_
         (withID i metadata_) st = (Return pkg, st').
Proof.
  intros H. split.
  - apply packageCreate_Return in H.
    destruct H as (nm & ver & owner & repo & st1 & cb & rs & st2
                   & _ & _ & _ & _ & _ & _ & Hreg).
    apply registerRows_Return in Hreg. cbv zeta in Hreg.
    destruct Hreg as [-> _]. reflexivity.
  - intros i. rewrite packageCreate_withID. exact H.
Qed.

(** X2. The name of a published package is the body's [Name] (trimmed)
    when there is one, else the metadata's [Name] (trimmed) when there is
    one, else the name the resolver reports. *)
Theorem packageCreate_name_precedence
    Content_ JSProgram_ URL debloat_ Name_ metadata_ st pkg st' :
  packageCreate env Content_ JSProgram_ URL debloat_ Name_ metadata_ st
    = (Return pkg, st') ->
  Name (metadata pkg)
  = if Js.truthy Name_ then Some (Js.trim (Js.interp Name_))
    else if Js.truthy (Js.trim <$> (metadata_ ≫= arg_Name))
         then Js.trim <$> (metadata_ ≫= arg_Name)
         else resolverInfo env Content_ URL ≫= info_name.
Proof.
  intros H. apply packageCreate_Return in H.
  destruct H as (nm & ver & owner & repo & st1 & cb & rs & st2
                 & Hx & Hres & _ & _ & _ & _ & Hreg).
  apply registerRows_Return in Hreg. cbv zeta in Hreg. destruct Hreg as [-> _].
  cbn [metadata Name].
  apply resolveNameVersion_Return in Hres.
  destruct Hres as [(Hn & _ & _ & _ & _ & ->)
                   |[(Hn & HU & o & r & Hm & _ & _ & -> & _)
                    |[(Hn & HU & HC & info & Hi & -> & _)
                     |(Hn & HU & HC & _)]]].
  - destruct (Js.truthy Name_); [reflexivity|].
    rewrite orb_false_r in Hn. now rewrite Hn.
  - apply orb_false_iff in Hn as [-> ->].
    unfold resolverInfo. now rewrite HU, Hm.
  - apply orb_false_iff in Hn as [-> ->].
    unfold resolverInfo. now rewrite HU, Hi.
  - rewrite HU, HC in Hx. discriminate.
Qed.

(** X3. When the request names the package and gives a URL, the owner
    and the repository are never read from the URL: the archive that is
    stored and echoed is the one served for the repository
    [undefined/undefined]. *)
Theorem packageCreate_named_url_fetches_undefined_repo
    Content_ JSProgram_ URL debloat_ Name_ metadata_ st pkg st' :
  packageCreate env Content_ JSProgram_ URL debloat_ Name_ metadata_ st
    = (Return pkg, st') ->
  Js.truthy URL = true ->
  Js.truthy (Js.trim <$> (metadata_ ≫= arg_Name)) || Js.truthy Name_ = true ->
  let apiUrl := "https://api.github.com/repos/undefined/undefined/zipball" in
  In (HttpGet apiUrl) (log st')
  /\ s3 st' !! s3Key (Name (metadata pkg)) (Version (metadata pkg))
     = Some (http_body env apiUrl)
  /\ Content (data pkg)
     = Some (Base64.btoa (Base64.encode (http_body env apiUrl))).
Proof.
  intros H HU Hnamed apiUrl. apply packageCreate_Return in H.
  destruct H as (nm & ver & owner & repo & st1 & cb & rs & st2
                 & Hx & Hres & _ & _ & _ & Hup & Hreg).
  apply registerRows_Return in Hreg. cbv zeta in Hreg. destruct Hreg as [-> ->].
  cbn [metadata data Name Version Content s3 log].
  apply resolveNameVersion_Return in Hres.
  destruct Hres as [(_ & _ & _ & -> & -> & _)
                   |[(Hn & _)|[(Hn & _)|(Hn & _)]]]; try congruence.
  apply uploadArchive_Return in Hup.
  destruct Hup as [(_ & HU' & _)|[(_ & _ & Hrest)|(Heq & _)]].
  - congruence.
  - cbv zeta in Hrest. destruct Hrest as (-> & -> & _ & ->).
    change (zipballUrl None None) with apiUrl. cbn. repeat split.
    + rewrite !in_app_iff. cbn. auto.
    + rewrite decode_encode. apply lookup_insert_eq.
  - rewrite Heq, HU in Hx. discriminate.
Qed.

End IngestionFacts.

Section IngestionFailures.

Variable env : Env.

(** X4. A failed blob upload (or a failed download before it) ends the
    ingestion with status 500 and no row is written: bucket and tables
    are as before. *)
Theorem packageCreate_upload_failure_writes_nothing
    Content_ JSProgram_ URL debloat_ Name_ metadata_ st nm ver owner repo st1 :
  reachesUpload env Content_ URL Name_ metadata_ st nm ver owner repo st1 ->
  (Js.truthy Content_ = true ->
   forall msg,
     fault env (S3Put (s3Key nm ver) (Base64.decode (Js.interp Content_)))
       = Some msg ->
     exists st',
       packageCreate env Content_ JSProgram_ URL debloat_ Name_ metadata_ st
       = (Throw (CustomError "Failed to upload content" 500), st')
       /\ s3 st' = s3 st /\ tables st' = tables st)
  /\ (Js.truthy URL = true ->
      forall msg,
        fault env (HttpGet (zipballUrl owner repo)) = Some msg
        \/ (fault env (HttpGet (zipballUrl owner repo)) = None
            /\ fault env (S3Put (s3Key nm ver)
                            (http_body env (zipballUrl owner repo))) = Some msg) ->
        exists st',
          packageCreate env Content_ JSProgram_ URL debloat_ Name_ metadata_ st
          = (Throw (CustomError
                      "Failed to download or upload package from URL" 500), st')
          /\ s3 st' = s3 st /\ tables st' = tables st).
Proof.
  intros Hr.
  pose proof Hr as (Hx & Hres & _).
  destruct (resolveNameVersion_store _ _ _ _ _ _ _ _ _ Hres)
    as (E1 & E2 & E3 & E4 & _).
  rewrite (packageCreate_after_guard env _ JSProgram_ _ debloat_ _ _ _ _ _ _ _ _ Hr).
  unfold tables. split.
  - intros HC msg Hf.
    assert (HU : Js.truthy URL = false) by (rewrite HC in Hx; now destruct (Js.truthy URL)).
    unfold uploadArchive, s3_putObject. rewrite HC, HU. cbn [andb negb].
    unfold bind, try_catch, call. rewrite Hf. cbn [throw].
    eexists. split; [reflexivity|]. cbn. now rewrite E1, E2, E3, E4.
  - intros HU msg Hf.
    assert (HC : Js.truthy Content_ = false)
      by (rewrite HU in Hx; now destruct (Js.truthy Content_)).
    unfold uploadArchive, s3_putObject, downloadFile. rewrite HC, HU.
    cbn [andb negb]. unfold bind, try_catch, call, ret.
    destruct Hf as [Hf|[Hf Hp]]; rewrite Hf.
    + eexists. split; [reflexivity|]. cbn. now rewrite E1, E2, E3, E4.
    + rewrite decode_encode, Hp.
      eexists. split; [reflexivity|]. cbn. now rewrite E1, E2, E3, E4.
Qed.

(** X5. Nothing is undone when an insert fails after the upload,
    inline or from a URL: if the metadata row cannot be inserted, the
    ingestion ends with status 500 while the archive stays in the
    bucket and the Package row stays in its table. *)
Theorem packageCreate_insert_failure_leaves_blob_and_row
    Content_ JSProgram_ URL debloat_ Name_ metadata_ st nm ver owner repo st1 msg :
  reachesUpload env Content_ URL Name_ metadata_ st nm ver owner repo st1 ->
  let key := s3Key nm ver in
  let apiUrl := zipballUrl owner repo in
  let inline := Js.truthy Content_ in
  let body := if inline then Base64.decode (Js.interp Content_)
              else http_body env apiUrl in
  let contentBuffer := if inline then None
                       else Some (Base64.encode (http_body env apiUrl)) in
  let row := {| name := nm; version := default "1.0.0" ver;
                package_id := Identity nm ver;
                content_type := negb (Js.truthy contentBuffer) |} in
  let mrow := {| m_name := nm; m_version := default "1.0.0" ver;
                 m_package_id := Identity nm ver |} in
  (inline = false -> fault env (HttpGet apiUrl) = None) ->
  fault env (S3Put key body) = None ->
  fault env (DbInsertPackage row) = None ->
  fault env (DbInsertMetadata mrow) = Some msg ->
  exists st',
    packageCreate env Content_ JSProgram_ URL debloat_ Name_ metadata_ st
    = (Throw (CustomError
                "Failed to upload package or insert into database" 500), st')
    /\ s3 st' = <[key := body]> (s3 st)
    /\ packages st' = packages st ++ [row]
    /\ package_metadata st' = package_metadata st
    /\ package_data st' = package_data st.
Proof.
  intros Hr key apiUrl inline body contentBuffer row mrow Hg Hp Hi1 Hi2.
  pose proof Hr as (Hx & Hres & _).
  destruct (resolveNameVersion_store _ _ _ _ _ _ _ _ _ Hres)
    as (E1 & E2 & E3 & E4 & _).
  rewrite (packageCreate_after_guard env _ JSProgram_ _ debloat_ _ _ _ _ _ _ _ _ Hr).
  subst inline. destruct (Js.truthy Content_) eqn:HC.
  - assert (HU : Js.truthy URL = false) by now destruct (Js.truthy URL).
    unfold uploadArchive, s3_putObject. rewrite HC, HU. cbn [andb negb].
    fold key. subst body contentBuffer. cbv iota in *.
    unfold registerRows, insertPackageQuery, insertIntoMetadataQuery.
    unfold bind, try_catch, call, modify, ret, throw.
    rewrite Hp. fold row mrow. rewrite Hi1, Hi2.
    eexists. split; [reflexivity|]. cbn. now rewrite E1, E2, E3, E4.
  - assert (HU : Js.truthy URL = true) by now destruct (Js.truthy URL).
    unfold uploadArchive, s3_putObject, downloadFile. rewrite HC, HU.
    cbn [andb negb]. fold key apiUrl. subst body contentBuffer. cbv iota in *.
    unfold registerRows, insertPackageQuery, insertIntoMetadataQuery.
    unfold bind, try_catch, call, modify, ret, throw.
    rewrite (Hg eq_refl), decode_encode, Hp. fold row mrow. rewrite Hi1, Hi2.
    eexists. split; [reflexivity|]. cbn. now rewrite E1, E2, E3, E4.
Qed.

Lemma encode_nil_iff (bs : list byte) : Base64.encode bs = "" <-> bs = [].
Proof.
  split; [|intros ->; reflexivity].
  destruct bs as [|a [|b [|c rest]]]; [reflexivity|discriminate..].
Qed.

(** X6. The [content_type] flag of the new Package row is true for an
    inline upload; for an ingestion from a URL it is true exactly when
    the downloaded archive is empty, so an empty download is recorded
    as an inline upload. *)
Theorem packageCreate_content_type_flag
    Content_ JSProgram_ URL debloat_ Name_ metadata_ st pkg st' :
  packageCreate env Content_ JSProgram_ URL debloat_ Name_ metadata_ st
    = (Return pkg, st') ->
  exists row,
    packages st' = packages st ++ [row]
    /\ package_id row = ID (metadata pkg)
    /\ (Js.truthy Content_ = true -> content_type row = true)
    /\ (Js.truthy URL = true ->
        exists apiUrl,
          In (HttpGet apiUrl) (log st')
          /\ (content_type row = true <-> http_body env apiUrl = [])).
Proof.
  intros H. apply packageCreate_Return in H.
  destruct H as (nm & ver & owner & repo & st1 & cb & rs & st2
                 & Hx & Hres & _ & _ & _ & Hup & Hreg).
  destruct (resolveNameVersion_store _ _ _ _ _ _ _ _ _ Hres) as (_ & E2 & _).
  apply registerRows_Return in Hreg. cbv zeta in Hreg. destruct Hreg as [-> ->].
  cbn [metadata ID packages log].
  apply uploadArchive_Return in Hup.
  destruct Hup as [(HC & HU & -> & -> & ->)
                  |[(HU & HC & Hrest)|(Heq & _)]].
  - eexists. cbn. rewrite E2. split; [reflexivity|]. split; [reflexivity|].
    split; [reflexivity|congruence].
  - cbv zeta in Hrest. destruct Hrest as (-> & -> & _ & ->).
    eexists. cbn [packages set_s3 record content_type package_id].
    rewrite E2. split; [reflexivity|]. split; [reflexivity|].
    split; [congruence|]. intros _. exists (zipballUrl owner repo). split.
    + cbn. rewrite !in_app_iff. cbn. auto.
    + rewrite <- encode_nil_iff.
      destruct (Base64.encode (http_body env (zipballUrl owner repo)));
        cbn; split; congruence.
  - rewrite Heq in Hx. now destruct (Js.truthy URL).
Qed.

(** X7. The outside calls of a successful ingestion, in order: at most
    one resolver call, the existence check, at most one download, the
    blob upload, then the Package row, the metadata row and the
    package-data row. The upload always precedes the three inserts. *)
Theorem packageCreate_call_order
    Content_ JSProgram_ URL debloat_ Name_ metadata_ st pkg st' :
  packageCreate env Content_ JSProgram_ URL debloat_ Name_ metadata_ st
    = (Return pkg, st') ->
  exists pre fetch key body row mrow drow,
    log st' = log st ++ pre ++ [DbExists (ID (metadata pkg))] ++ fetch
                ++ [S3Put key body; DbInsertPackage row;
                    DbInsertMetadata mrow; DbInsertData drow]
    /\ Forall (fun op => is_resolve op = true) pre /\ length pre <= 1
    /\ (fetch = [] \/ exists u, fetch = [HttpGet u])
    /\ s3 st' !! key = Some body.
Proof.
  intros H. apply packageCreate_Return in H.
  destruct H as (nm & ver & owner & repo & st1 & cb & rs & st2
                 & Hx & Hres & _ & _ & _ & Hup & Hreg).
  apply registerRows_Return in Hreg. cbv zeta in Hreg. destruct Hreg as [-> ->].
  cbn [metadata ID log s3].
  assert (Hpre : exists pre, log st1 = log st ++ pre
                             /\ Forall (fun op => is_resolve op = true) pre
                             /\ length pre <= 1).
  { apply resolveNameVersion_Return in Hres.
    destruct Hres as [(_ & _ & -> & _)
                     |[(_ & _ & o & r & _ & _ & _ & _ & _ & ->)
                      |[(_ & _ & _ & info & _ & _ & _ & _ & _ & ->)
                       |(_ & _ & _ & _ & _ & ->)]]].
    - exists []. rewrite app_nil_r. auto.
    - exists [ResolveRepo o r]. cbn. auto.
    - exists [ResolveZip (Js.interp Content_)]. cbn. auto.
    - exists []. rewrite app_nil_r. auto. }
  destruct Hpre as (pre & Hlog & Hpre & Hlen).
  apply uploadArchive_Return in Hup.
  destruct Hup as [(HC & HU & -> & -> & ->)
                  |[(HU & HC & Hrest)|(Heq & _)]].
  - exists pre, []. do 5 eexists. cbn [log set_s3 record s3].
    rewrite Hlog, <- !app_assoc. cbn [app].
    split; [reflexivity|]. repeat split; auto. apply lookup_insert_eq.
  - cbv zeta in Hrest. destruct Hrest as (-> & -> & _ & ->).
    exists pre, [HttpGet (zipballUrl owner repo)]. do 5 eexists.
    cbn [log set_s3 record s3]. rewrite Hlog, <- !app_assoc. cbn [app].
    split; [reflexivity|]. repeat split; eauto. apply lookup_insert_eq.
  - rewrite Heq in Hx. now destruct (Js.truthy URL).
Qed.

Lemma resolveNameVersion_again Content_ URL Name_ pn pv st r st1 st2 :
  resolveNameVersion env Content_ URL Name_ pn pv st = (Return r, st1) ->
  exists st3,
    resolveNameVersion env Content_ URL Name_ pn pv st2 = (Return r, st3)
    /\ s3 st3 = s3 st2 /\ tables st3 = tables st2.
Proof.
  unfold resolveNameVersion, tables.
  destruct (negb (Js.truthy pn) && negb (Js.truthy Name_)).
  - destruct (Js.truthy URL).
    + destruct (GithubUrl.match_ (Js.interp URL)) as [[o p]|]; [|discriminate].
      unfold try_catch, bind, call, ret, throw.
      destruct (fault env (ResolveRepo o p)); [discriminate|].
      intros [= <- _]. eexists. split; [reflexivity|]. auto.
    + destruct (Js.truthy Content_).
      * unfold try_catch, bind, call, ret, throw.
        destruct (fault env (ResolveZip _)); [discriminate|].
        destruct (getPackageInfoZipFile env _); [|discriminate].
        intros [= <- _]. eexists. split; [reflexivity|]. auto.
      * intros [= <- _]. eexists. split; [reflexivity|]. auto.
  - destruct (Js.truthy Name_); intros [= <- _]; eexists;
      (split; [reflexivity|]); auto.
Qed.

(** X8. Publishing the same request a second time, right after it
    succeeded, fails with status 409 and leaves bucket and tables as the
    first publication left them. *)
Theorem packageCreate_twice_conflicts
    Content_ JSProgram_ URL debloat_ Name_ metadata_ st pkg st' :
  packageCreate env Content_ JSProgram_ URL debloat_ Name_ metadata_ st
    = (Return pkg, st') ->
  exists st'',
    packageCreate env Content_ JSProgram_ URL debloat_ Name_ metadata_ st'
    = (Throw (CustomError "Package already exists." 409), st'')
    /\ s3 st'' = s3 st' /\ tables st'' = tables st'.
Proof.
  intros H. apply packageCreate_Return in H.
  destruct H as (nm & ver & owner & repo & st1 & cb & rs & st2
                 & Hx & Hres & Hb & Hf & _ & _ & Hreg).
  apply registerRows_Return in Hreg. cbv zeta in Hreg. destruct Hreg as [_ Est'].
  destruct (resolveNameVersion_again _ _ _ _ _ _ _ _ st' Hres)
    as (st3 & Hres' & E1 & Et).
  assert (Hid : hasId (Identity nm ver) st3 = true).
  { unfold tables in Et. injection Et as Ep _ _. unfold hasId. rewrite Ep, Est'.
    cbn [packages]. rewrite existsb_app. cbn.
    rewrite String.eqb_refl. cbn. apply orb_true_r. }
  exists (record (DbExists (Identity nm ver)) st3). split.
  - unfold packageCreate.
    destruct (Js.truthy URL), (Js.truthy Content_); try discriminate Hx;
      cbn [andb negb orb].
    all: rewrite (bind_Return _ _ _ _ _ Hres'); cbn beta iota.
    all: rewrite packageId_is_derived, Hb; cbn [negb].
    all: unfold packageExistsQuery.
    all: erewrite bind_Return
           by (erewrite bind_Return by (apply call_ok; exact Hf); reflexivity).
    all: replace (hasId (Identity nm ver) (record (DbExists (Identity nm ver)) st3))
           with true by (symmetry; exact Hid).
    all: reflexivity.
  - split; [exact E1|]. exact Et.
Qed.

End IngestionFailures.

(** ** More on retrieve and reset *)

Section RetrieveAndResetFacts.

Variable env : Env.

(** X9. [packageRetrieve] only reads: whatever it answers, bucket and
    tables are unchanged and it has made at most two outside calls,
    none of them a write. *)
Theorem packageRetrieve_reads_only id st :
  s3 (snd (packageRetrieve env id st)) = s3 st
  /\ tables (snd (packageRetrieve env id st)) = tables st
  /\ exists ops,
       log (snd (packageRetrieve env id st)) = log st ++ ops
       /\ Forall (fun op => is_write op = false) ops /\ length ops <= 2.
Proof.
  unfold packageRetrieve, tables.
  destruct (Js.truthy (bucketName env)); cbn [negb].
  2:{ cbn. repeat split. exists []. rewrite app_nil_r. auto. }
  unfold try_catch, selectById, s3_getObject, bind, call, gets, ret, throw.
  destruct (fault env (DbSelectById id)).
  { cbn. repeat split. exists [DbSelectById id]. cbn. auto. }
  destruct (joinedRows id (record (DbSelectById id) st)) as [|j rest].
  { cbn. repeat split. exists [DbSelectById id]. cbn. auto. }
  set (key := retrieveKey (packageid j) (packageversion j)).
  assert (Hops : exists ops,
             log st ++ [DbSelectById id] ++ [S3Get key] = log st ++ ops
             /\ Forall (fun op => is_write op = false) ops /\ length ops <= 2).
  { exists [DbSelectById id; S3Get key]. cbn. auto. }
  destruct (fault env (S3Get key)).
  { cbn. rewrite <- app_assoc. auto. }
  cbn [s3 record].
  destruct (s3 st !! key) as [body|].
  - destruct (negb (Js.truthy (Some (Base64.encode body))));
      cbn; rewrite <- app_assoc; auto.
  - cbn. rewrite <- app_assoc. auto.
Qed.

(** X10. When the row is found and the bucket holds a non-empty object
    at the key built from the row's id and version, [packageRetrieve]
    answers with the row's name, version and id and with a [Content]
    that decodes to that object; an empty object is reported as a
    failure with status 500. *)
Theorem packageRetrieve_returns_stored_object id st j rest (body : Buffer) :
  Js.truthy (bucketName env) = true ->
  fault env (DbSelectById id) = None ->
  joinedRows id st = j :: rest ->
  fault env (S3Get (retrieveKey (packageid j) (packageversion j))) = None ->
  (s3 st !! retrieveKey (packageid j) (packageversion j) : option Buffer)
  = Some body ->
  (body <> [] ->
   exists pkg content,
     fst (packageRetrieve env id st) = Return pkg
     /\ metadata pkg = {| Name := packagename j;
                          Version := Some (packageversion j);
                          ID := packageid j |}
     /\ JSProgram (data pkg) = packagejs j
     /\ Content (data pkg) = Some content
     /\ Base64.decode content = body)
  /\ (body = [] ->
      fst (packageRetrieve env id st)
      = Throw (CustomError
                 "Failed to retrieve package: Package content not found in S3."
                 500)).
Proof.
  intros Hb Hf Hj Hg Hl. unfold packageRetrieve. rewrite Hb. cbn [negb].
  unfold try_catch, selectById, s3_getObject, bind, call, gets, ret, throw.
  rewrite Hf.
  replace (joinedRows id (record (DbSelectById id) st)) with (j :: rest)
    by (symmetry; exact Hj).
  cbv zeta. rewrite Hg. cbn [s3 record]. rewrite Hl. split.
  - intros Hne.
    assert (Ht : Js.truthy (Some (Base64.encode body)) = true).
    { destruct (Base64.encode body) eqn:E; [|reflexivity].
      apply encode_nil_iff in E. congruence. }
    rewrite Ht. cbn. eexists _, _. repeat split. apply decode_encode.
  - intros ->. reflexivity.
Qed.

Lemma In_firstn {X} (n : nat) (l : list X) x : In x (firstn n l) -> In x l.
Proof.
  revert l. induction n as [|n IH]; intros [|y l]; cbn; try tauto.
  intros [->|H]; auto.
Qed.

(** X11. Objects whose key does not start with [packages/] survive a
    registry reset, whatever its outcome. *)
Theorem registryReset_keeps_other_prefixes st k :
  String.prefix "packages/" k = false ->
  s3 (snd (registryReset env st)) !! k = s3 st !! k.
Proof.
  intros Hk. unfold registryReset.
  destruct (Js.truthy (bucketName env)); cbn [negb]; [|reflexivity].
  unfold try_catch, s3_listObjectsV2, s3_deleteObjects, executeSqlFile.
  unfold bind, call, gets, modify, ret, throw.
  destruct (fault env (S3List "packages/")); [reflexivity|].
  cbn [s3 record].
  remember (firstn LIST_MAX_KEYS (keysUnder "packages/" (s3 st))) as page eqn:Ep.
  assert (Hpage : k ∉ page).
  { intros Hin. apply list_elem_of_In in Hin. rewrite Ep in Hin.
    apply In_firstn, keysUnder_spec in Hin. destruct Hin as [_ Hp]. congruence. }
  destruct page as [|x page'].
  - destruct (fault env DbReset); reflexivity.
  - destruct (fault env (S3Delete (x :: page'))); [reflexivity|].
    cbn [set_s3 record s3 log].
    destruct (fault env DbReset); cbn [snd s3 set_s3 record];
      rewrite lookup_deleteKeys, decide_False by exact Hpage; reflexivity.
Qed.

Lemma registryReset_Return_inv st st1 :
  registryReset env st = (Return tt, st1) ->
  Js.truthy (bucketName env) = true
  /\ packages st1 = [] /\ package_data st1 = [].
Proof.
  unfold registryReset.
  destruct (Js.truthy (bucketName env)); cbn [negb]; [|discriminate].
  unfold try_catch, s3_listObjectsV2, s3_deleteObjects, executeSqlFile.
  unfold bind, call, gets, modify, ret, throw.
  destruct (fault env (S3List "packages/")); [discriminate|].
  destruct (firstn LIST_MAX_KEYS _) as [|x page].
  - destruct (fault env DbReset); [discriminate|].
    intros [= <-]. auto.
  - destruct (fault env (S3Delete (x :: page))); [discriminate|].
    destruct (fault env DbReset); [discriminate|].
    intros [= <-]. auto.
Qed.

(** X12. After a successful registry reset, a retrieve of any id fails
    as "Package not found" (under status 500) and every list query that
    is answered returns no package and [nextOffset = null]. *)
Theorem registry_is_empty_after_reset st st1 :
  registryReset env st = (Return tt, st1) ->
  (forall id,
      fault env (DbSelectById id) = None ->
      fst (packageRetrieve env id st1)
      = Throw (CustomError "Failed to retrieve package: Package not found." 500))
  /\ (forall body offset resp st2,
        packagesList env body offset st1 = (Return resp, st2) ->
        packages_of resp = [] /\ nextOffset resp = None).
Proof.
  intros H. apply registryReset_Return_inv in H. destruct H as (Hb & Hp & Hd).
  split.
  - intros id Hf. unfold packageRetrieve. rewrite Hb. cbn [negb].
    unfold try_catch, selectById, bind, call, gets, ret, throw. rewrite Hf.
    unfold joinedRows. cbn [packages record]. rewrite Hp. reflexivity.
  - intros body offset resp st2 H.
    destruct (packagesList_Return_inv _ _ _ _ _ _ H) as (w & k & Hw & Ho & Hk & Hf).
    rewrite (packagesList_Return _ _ _ _ _ _ Hw Ho Hk Hf) in H.
    cbv zeta in H. rewrite Hp in H. cbn [List.filter] in H.
    rewrite skipn_nil, firstn_nil in H. cbn in H.
    injection H as <- _. auto.
Qed.

End RetrieveAndResetFacts.

(** ** More on listing *)

Section ListingFacts.

Variable env : Env.

Lemma packagesList_store body offset st :
  snd (packagesList env body offset st) = st
  \/ exists clauses,
       snd (packagesList env body offset st)
       = record (DbSelectPackages clauses limit (offsetValue offset)) st.
Proof.
  unfold packagesList, try_catch.
  destruct (whereClauses body) as [w|e].
  2:{ left. unfold bind, throw. destruct (instanceof_CustomError e); reflexivity. }
  right. exists w.
  unfold bind at 1. unfold ret at 1. unfold getPackages, bind at 1 2, call.
  destruct (fault env _); [reflexivity|].
  destruct (offsetValue offset) as [|k|neg]; [reflexivity| |reflexivity].
  destruct (k <? 0)%Z; [reflexivity|].
  destruct (BIGINT_MAX <? k)%Z; reflexivity.
Qed.

(** X13. [packagesList] only reads: whatever it answers, bucket and
    tables are unchanged, and it has asked the store at most once. *)
Theorem packagesList_reads_only body offset st :
  s3 (snd (packagesList env body offset st)) = s3 st
  /\ tables (snd (packagesList env body offset st)) = tables st
  /\ exists ops,
       log (snd (packagesList env body offset st)) = log st ++ ops
       /\ Forall (fun op => is_write op = false) ops /\ length ops <= 1.
Proof.
  destruct (packagesList_store body offset st) as [->|[w ->]].
  - repeat split. exists []. rewrite app_nil_r. auto.
  - repeat split. eexists. split; [reflexivity|]. cbn. auto.
Qed.

Lemma In_skipn {X} (n : nat) (l : list X) x : In x (skipn n l) -> In x l.
Proof.
  revert l. induction n as [|n IH]; intros [|y l]; cbn; try tauto.
  intros H. right. auto.
Qed.

(** X14. A page holds at most ten rows, and every row of it is a row
    of the [packages] table that satisfies the where clauses built from
    the request. *)
Theorem packagesList_rows_from_table body offset st resp st' :
  packagesList env body offset st = (Return resp, st') ->
  length (packages_of resp) <= 10
  /\ exists clauses,
       whereClauses body = Return clauses
       /\ forall row, In row (packages_of resp) ->
                      In row (packages st) /\ db_where env clauses row = true.
Proof.
  intros H.
  destruct (packagesList_Return_inv _ _ _ _ _ _ H) as (w & k & Hw & Ho & Hk & Hf).
  rewrite (packagesList_Return _ _ _ _ _ _ Hw Ho Hk Hf) in H.
  cbv zeta in H. injection H as <- _. cbn [packages_of]. split.
  - rewrite length_firstn. lia.
  - exists w. split; [exact Hw|]. intros row Hin.
    apply In_firstn, In_skipn, filter_In in Hin. exact Hin.
Qed.

Lemma packageConditions_Throw body e :
  packageConditions body = Throw e -> exists msg, e = CustomError msg 400.
Proof.
  induction body as [|q body IH]; cbn; [discriminate|].
  destruct (validEntry q) eqn:Hq.
  - destruct (entryConditions_valid q Hq) as [c ->].
    destruct (packageConditions body); [discriminate|].
    intros [= <-]. now apply IH.
  - rewrite (entryConditions_invalid q Hq). intros [= <-]. eauto.
Qed.

(** X15. [packagesList] fails in two ways only: with status 400 before
    the store is asked, or, once the query has been sent, with the
    fixed message "An unexpected error occurred." under status 500,
    whatever the store said. *)
Theorem packagesList_error_kinds body offset st e :
  fst (packagesList env body offset st) = Throw e ->
  (exists msg, e = CustomError msg 400
               /\ snd (packagesList env body offset st) = st)
  \/ (e = CustomError "An unexpected error occurred." 500
      /\ exists clauses,
           whereClauses body = Return clauses
           /\ log (snd (packagesList env body offset st))
              = log st ++ [DbSelectPackages clauses limit (offsetValue offset)]).
Proof.
  destruct (whereClauses body) as [w|e0] eqn:Hw.
  - intros H. right. split.
    2:{ exists w. split; [reflexivity|]. now apply packagesList_proceeds. }
    revert H. unfold packagesList, try_catch. rewrite Hw.
    unfold bind at 1. unfold ret at 1. unfold getPackages, bind at 1 2, call.
    destruct (fault env _); [cbn; congruence|].
    destruct (offsetValue offset) as [|k|neg]; [cbn; congruence| |cbn; congruence].
    destruct (k <? 0)%Z; [cbn; congruence|].
    destruct (BIGINT_MAX <? k)%Z; cbn; congruence.
  - assert (He : exists msg, e0 = CustomError msg 400).
    { revert Hw. unfold whereClauses. destruct body as [|q body]; [discriminate|].
      destruct (selectsAll (q :: body)); [discriminate|].
      destruct (packageConditions (q :: body)) as [[|c l]|e1] eqn:Hp;
        try discriminate.
      intros [= <-]. eapply packageConditions_Throw; eauto. }
    destruct He as [msg ->].
    unfold packagesList, try_catch. rewrite Hw. cbn.
    intros [= <-]. left. eauto.
Qed.

Lemma trim_nonempty v : Js.trim v <> v -> Js.truthy (Some v) = true.
Proof. destruct v; [intros H; now elim H|reflexivity]. Qed.

(** X16. A version filter with leading or trailing white space is
    rejected with status 400: the formats are tested on the version as
    sent, and only afterwards is it trimmed. *)
Theorem packagesList_rejects_padded_version body offset st q v :
  In q body -> selectsAll body = false ->
  q_Version q = Some v -> Js.trim v <> v ->
  exists msg, packagesList env body offset st = (Throw (CustomError msg 400), st).
Proof.
  intros Hin Hs Hv Hp.
  assert (Hq : validEntry q = false).
  { unfold validEntry. rewrite Hv, (trim_nonempty v Hp). cbn [negb orb Js.interp].
    destruct (matchesOneFormat v) eqn:Hm; [exfalso|reflexivity].
    destruct (matchesOneFormat_witness v Hm) as (r & Hr & Ht).
    apply Hp. eapply matched_version_trim; eauto. }
  assert (Hb : forallb validEntry body = false).
  { destruct (forallb validEntry body) eqn:E; [|reflexivity].
    rewrite forallb_forall in E. rewrite (E q Hin) in Hq. discriminate. }
  destruct (whereClauses_invalid body Hs Hb) as [msg Hw].
  exists msg. unfold packagesList, try_catch. rewrite Hw. reflexivity.
Qed.

(** X17. No version matches two of the four formats, and an entry
    either yields its conditions or fails as "Invalid or ambiguous
    version format": the closing "Invalid version format" branch is
    never taken. *)
Theorem entryConditions_single_error q :
  length (List.filter (fun regex => Regex.test regex (Js.interp (q_Version q)))
            versionFormats) <= 1
  /\ ((exists c, entryConditions q = Return c)
      \/ entryConditions q
         = Throw (CustomError ("Invalid or ambiguous version format: "
                                 +:+ Js.interp (q_Version q)) 400)).
Proof.
  split; [apply versionFormats_exclusive|].
  destruct (validEntry q) eqn:Hq.
  - left. now apply entryConditions_valid.
  - right. now apply entryConditions_invalid.
Qed.

Lemma packageConditions_fieldless body :
  Forall (fun q => Js.truthy (q_Name q) = false /\ Js.truthy (q_ID q) = false
                   /\ Js.truthy (q_Version q) = false) body ->
  packageConditions body = Return [].
Proof.
  induction 1 as [|q body (Hn & Hi & Hv) _ IH]; [reflexivity|].
  cbn [packageConditions]. unfold entryConditions.
  rewrite Hn, Hi, Hv, IH. reflexivity.
Qed.

(** X18. Entries none of which has a name, an id or a version add no
    condition: the query is sent without a where clause, as for the
    wildcard. *)
Theorem whereClauses_fieldless_entries body offset st :
  Forall (fun q => Js.truthy (q_Name q) = false /\ Js.truthy (q_ID q) = false
                   /\ Js.truthy (q_Version q) = false) body ->
  whereClauses body = Return []
  /\ log (snd (packagesList env body offset st))
     = log st ++ [DbSelectPackages [] limit (offsetValue offset)].
Proof.
  intros H.
  assert (Hw : whereClauses body = Return []).
  { unfold whereClauses. destruct body as [|q body]; [reflexivity|].
    destruct (selectsAll (q :: body)); [reflexivity|].
    now rewrite (packageConditions_fieldless _ H). }
  split; [exact Hw|]. now apply packagesList_proceeds.
Qed.

Lemma packageConditions_In body w q c :
  packageConditions body = Return w -> In q body ->
  entryConditions q = Return c -> c <> [] -> In c w.
Proof.
  revert w. induction body as [|q0 body IH]; cbn [packageConditions In];
    intros w Hw Hin Hq Hc; [tauto|].
  destruct (entryConditions q0) as [c0|] eqn:E0; [|discriminate].
  destruct (packageConditions body) as [more|]; [|discriminate].
  injection Hw as <-.
  destruct Hin as [->|Hin].
  - assert (c0 = c) by congruence. subst c0.
    destruct c; [congruence|]. now left.
  - specialize (IH more eq_refl Hin Hq Hc).
    destruct c0; [exact IH|]. now right.
Qed.

(** X19. The wildcard counts only when it is the whole request: among
    other entries, [Name = "*"] becomes the condition [name = '*'] of
    the where clause. *)
Theorem wildcard_among_entries_is_literal body q :
  In q body -> q_Name q = Some "*" -> length body <> 1 ->
  forallb validEntry body = true ->
  exists w c,
    whereClauses body = Return [w] /\ In c w /\ In (NameEq "*") c.
Proof.
  intros Hin Hn Hlen Hv.
  assert (Hs : selectsAll body = false).
  { destruct body as [|a [|b body]]; try reflexivity. now elim Hlen. }
  destruct (packageConditions_valid body Hv) as [w Hw].
  assert (Hq : validEntry q = true) by (rewrite forallb_forall in Hv; auto).
  destruct (entryConditions_valid q Hq) as [c Hc].
  assert (HinC : In (NameEq "*") c).
  { revert Hc. unfold entryConditions. rewrite Hn.
    destruct (_ && _); [discriminate|]. cbn [Js.truthy Js.interp].
    destruct (Js.truthy (q_Version q)).
    - destruct (versionCondition _); [|discriminate].
      intros [= <-]. now left.
    - intros [= <-]. now left. }
  assert (HinW : In c w).
  { eapply packageConditions_In; eauto. intros ->. exact HinC. }
  exists w, c. split; [|auto].
  unfold whereClauses. destruct body as [|a body]; [destruct Hin|].
  rewrite Hs, Hw. destruct w; [destruct HinW|reflexivity].
Qed.

Lemma firstn_app_skipn {X} (a b : nat) (l : list X) :
  firstn a l ++ firstn b (skipn a l) = firstn (a + b) l.
Proof.
  revert l. induction a as [|a IH]; intros l; [reflexivity|].
  destruct l as [|x l]; cbn.
  - now rewrite firstn_nil.
  - now rewrite IH.
Qed.

(** X20. Following [nextOffset]: the page at offset [k] and the page
    at offset [k + 10] of the same query are, together, the first
    twenty matching rows from position [k] on; no row is skipped or
    repeated between pages. *)
Theorem packagesList_consecutive_pages body off1 off2 st k resp1 st1 resp2 st2 :
  offsetValue off1 = Num k -> offsetValue off2 = Num (k + 10) ->
  packagesList env body off1 st = (Return resp1, st1) ->
  packagesList env body off2 st1 = (Return resp2, st2) ->
  exists clauses,
    whereClauses body = Return clauses
    /\ packages_of resp1 ++ packages_of resp2
       = firstn 20 (skipn (Z.to_nat k)
           (List.filter (db_where env clauses) (packages st))).
Proof.
  intros Ho1 Ho2 H1 H2.
  destruct (packagesList_Return_inv _ _ _ _ _ _ H1) as (w & k1 & Hw & Ho & Hk & Hf).
  assert (k1 = k) by congruence. subst k1.
  rewrite (packagesList_Return _ _ _ _ _ _ Hw Ho Hk Hf) in H1.
  cbv zeta in H1. injection H1 as <- <-.
  destruct (packagesList_Return_inv _ _ _ _ _ _ H2) as (w' & k2 & Hw' & Ho' & Hk' & Hf').
  assert (w' = w) by congruence. subst w'.
  assert (k2 = (k + 10)%Z) by congruence. subst k2.
  rewrite (packagesList_Return _ _ _ _ _ _ Hw Ho' Hk' Hf') in H2.
  cbv zeta in H2. injection H2 as <- _.
  exists w. split; [exact Hw|]. cbn [packages_of packages record].
  replace (Z.to_nat (k + 10)) with (10 + Z.to_nat k)%nat by lia.
  rewrite <- skipn_skipn. apply (firstn_app_skipn 10 10).
Qed.

End ListingFacts.

(** ** The conditions of the version formats *)

Section VersionConditionFacts.

Import Regex.

Lemma append_cons c (x y : string) : String c x +:+ y = String c (x +:+ y).
Proof. reflexivity. Qed.

Lemma append_empty (y : string) : "" +:+ y = y.
Proof. reflexivity. Qed.

Lemma test_Void s : test Void s = false.
Proof. induction s; cbn; auto. Qed.

Lemma test_Alt r1 r2 s : test (Alt r1 r2) s = test r1 s || test r2 s.
Proof. revert r1 r2. induction s as [|c s IH]; intros r1 r2; cbn; auto. Qed.

Lemma test_Cat_nullable r1 r2 s :
  nullable r1 = true -> test r2 s = true -> test (Cat r1 r2) s = true.
Proof.
  intros Hn Hs. destruct s as [|c s]; cbn in *.
  - now rewrite Hn, Hs.
  - rewrite Hn, test_Alt, Hs. apply orb_true_r.
Qed.

(** A match of [r1] followed by a match of [r2] is a match of their
    concatenation. *)
Lemma test_Cat r1 r2 x y :
  test r1 x = true -> test r2 y = true -> test (Cat r1 r2) (x +:+ y) = true.
Proof.
  revert r1. induction x as [|c x IH]; intros r1 H1 H2.
  - rewrite append_empty. now apply test_Cat_nullable.
  - rewrite append_cons. cbn [test deriv] in *.
    destruct (nullable r1).
    + rewrite test_Alt, IH by assumption. reflexivity.
    + now apply IH.
Qed.

Lemma test_Lit c : test (Lit c) (String c "") = true.
Proof. cbn. now rewrite Ascii.eqb_refl. Qed.

Lemma semver_dotted a b c :
  numeral a = true -> numeral b = true -> numeral c = true ->
  test semver (dotted a b c) = true.
Proof.
  intros Ha Hb Hc. unfold semver, dotted.
  apply test_Cat; [exact Ha|].
  apply (test_Cat _ _ "."); [apply test_Lit|].
  apply test_Cat; [exact Hb|].
  apply (test_Cat _ _ "."); [apply test_Lit|exact Hc].
Qed.

Lemma not_contains r s x : test r s = true -> chars r x = false -> contains x s = false.
Proof.
  intros Ht Hc. destruct (contains x s) eqn:E; [|reflexivity].
  rewrite (test_chars r s x Ht E) in Hc. discriminate.
Qed.

Lemma split_single sep s : contains sep s = false -> split sep s = [s].
Proof.
  induction s as [|c s IH]; cbn; intros H; [reflexivity|].
  apply orb_false_iff in H as [H1 H2]. rewrite H1, IH by assumption. reflexivity.
Qed.

Lemma split_append sep x y :
  contains sep x = false -> split sep (x +:+ String sep y) = x :: split sep y.
Proof.
  induction x as [|c x IH]; intros H.
  - rewrite append_empty. cbn. now rewrite Ascii.eqb_refl.
  - rewrite append_cons. cbn in *.
    apply orb_false_iff in H as [H1 H2]. rewrite H1, IH by assumption. reflexivity.
Qed.

Lemma substring_all s : String.substring 0 (String.length s) s = s.
Proof. induction s as [|c s IH]; cbn; [reflexivity|now rewrite IH]. Qed.

Lemma substring1_cons c s : substring1 (String c s) = s.
Proof.
  unfold substring1. cbn [String.length]. rewrite Nat.sub_succ, Nat.sub_0_r.
  cbn [String.substring]. apply substring_all.
Qed.

Lemma split_dotted a b c :
  numeral a = true -> numeral b = true -> numeral c = true ->
  split "." (dotted a b c) = [a; b; c].
Proof.
  intros Ha Hb Hc. unfold dotted.
  change ("." +:+ ?s) with (String "." s).
  rewrite split_append by (eapply not_contains; [exact Ha|reflexivity]).
  change ("." +:+ c) with (String "." c).
  rewrite split_append by (eapply not_contains; [exact Hb|reflexivity]).
  rewrite split_single by (eapply not_contains; [exact Hc|reflexivity]).
  reflexivity.
Qed.

(** X21. The condition of each version format, for all numerals: an
    exact version is compared for equality, a range [v-w] becomes
    [BETWEEN v AND w], [^a.b.c] becomes [LIKE 'a.%'] and [~a.b.c]
    becomes [LIKE 'a.b.%']. *)
Theorem versionCondition_by_format a b c d e f :
  numeral a = true -> numeral b = true -> numeral c = true ->
  numeral d = true -> numeral e = true -> numeral f = true ->
  versionCondition (dotted a b c) = Return [VersionEq (dotted a b c)]
  /\ versionCondition (dotted a b c +:+ "-" +:+ dotted d e f)
     = Return [VersionBetween (Some (dotted a b c)) (Some (dotted d e f))]
  /\ versionCondition ("^" +:+ dotted a b c) = Return [VersionLike (a +:+ ".%")]
  /\ versionCondition ("~" +:+ dotted a b c)
     = Return [VersionLike (a +:+ "." +:+ b +:+ ".%")].
Proof.
  intros Ha Hb Hc Hd He Hf.
  pose proof (semver_dotted a b c Ha Hb Hc) as Hv.
  pose proof (semver_dotted d e f Hd He Hf) as Hw.
  assert (Hrange : test rangeFormat (dotted a b c +:+ "-" +:+ dotted d e f) = true).
  { unfold rangeFormat. apply test_Cat; [exact Hv|].
    apply (test_Cat _ _ "-"); [apply test_Lit|exact Hw]. }
  assert (Hcaret : test caretFormat ("^" +:+ dotted a b c) = true).
  { unfold caretFormat. apply (test_Cat _ _ "^"); [apply test_Lit|exact Hv]. }
  assert (Htilde : test tildeFormat ("~" +:+ dotted a b c) = true).
  { unfold tildeFormat. apply (test_Cat _ _ "~"); [apply test_Lit|exact Hv]. }
  split; [|split; [|split]]; unfold versionCondition; cbv zeta.
  - rewrite (matched_version_trim exactFormat) by (cbn; auto).
    unfold exactFormat. now rewrite Hv.
  - rewrite (matched_version_trim rangeFormat) by (cbn; auto).
    set (v := dotted a b c +:+ "-" +:+ dotted d e f) in *.
    destruct (test exactFormat v) eqn:E.
    { destruct (needs_excludes "-" rangeFormat exactFormat _ eq_refl eq_refl Hrange E). }
    subst v.
    rewrite Hrange.
    change ("-" +:+ ?s) with (String "-" s).
    rewrite split_append by (eapply not_contains; [exact Hv|reflexivity]).
    rewrite split_single by (eapply not_contains; [exact Hw|reflexivity]).
    reflexivity.
  - rewrite (matched_version_trim caretFormat) by (cbn; auto).
    set (v := "^" +:+ dotted a b c) in *. clear Hrange Htilde.
    destruct (test exactFormat v) eqn:E.
    { destruct (needs_excludes "^" caretFormat exactFormat _ eq_refl eq_refl Hcaret E). }
    destruct (test rangeFormat v) eqn:R.
    { destruct (needs_excludes "^" caretFormat rangeFormat _ eq_refl eq_refl Hcaret R). }
    rewrite Hcaret. subst v. change ("^" +:+ ?s) with (String "^" s).
    rewrite substring1_cons, split_dotted by assumption. reflexivity.
  - rewrite (matched_version_trim tildeFormat) by (cbn; auto).
    set (v := "~" +:+ dotted a b c) in *. clear Hrange Hcaret.
    destruct (test exactFormat v) eqn:E.
    { destruct (needs_excludes "~" tildeFormat exactFormat _ eq_refl eq_refl Htilde E). }
    destruct (test rangeFormat v) eqn:R.
    { destruct (needs_excludes "~" tildeFormat rangeFormat _ eq_refl eq_refl Htilde R). }
    destruct (test caretFormat v) eqn:C.
    { destruct (needs_excludes "~" tildeFormat caretFormat _ eq_refl eq_refl Htilde C). }
    rewrite Htilde. subst v. change ("~" +:+ ?s) with (String "~" s).
    rewrite substring1_cons, split_dotted by assumption. reflexivity.
Qed.

End VersionConditionFacts.

(** ** GitHub URLs *)

Section GithubUrlFacts.

Lemma segment_append x rest :
  contains "/" x = false ->
  (rest = "" \/ exists r, rest = String "/" r) ->
  GithubUrl.segment (x +:+ rest) = (x, rest).
Proof.
  intros Hx Hr. induction x as [|c x IH].
  - rewrite append_empty. destruct Hr as [->|[r ->]]; reflexivity.
  - rewrite append_cons. cbn in *.
    apply orb_false_iff in Hx as [H1 H2]. rewrite H1, IH by assumption.
    reflexivity.
Qed.

Lemma groups_owner_repo owner repo rest :
  owner <> "" -> repo <> "" ->
  contains "/" owner = false -> contains "/" repo = false ->
  (rest = "" \/ exists r, rest = String "/" r) ->
  GithubUrl.groups (owner +:+ "/" +:+ repo +:+ rest) = Some (owner, repo).
Proof.
  intros Ho Hr Hco Hcr Hrest. unfold GithubUrl.groups.
  rewrite (segment_append owner) by (auto; right; eexists; reflexivity).
  destruct owner as [|c owner]; [congruence|].
  change ("/" +:+ ?s) with (String "/" s). cbv iota beta.
  rewrite (segment_append repo) by assumption.
  destruct repo; [congruence|reflexivity].
Qed.

Lemma match_skip pre s :
  contains "g" pre = false ->
  GithubUrl.match_ (pre +:+ String "g" s) = GithubUrl.match_ (String "g" s).
Proof.
  induction pre as [|c pre IH]; intros H; [reflexivity|].
  rewrite append_cons. cbn [contains] in H.
  apply orb_false_iff in H as [H1 H2].
  cbn [GithubUrl.match_]. rewrite IH by assumption.
  replace (String.prefix "github.com/" (String c (pre +:+ String "g" s)))
    with false; [reflexivity|].
  change (String.prefix "github.com/" (String c ?t))
    with (if ascii_dec "g" c then String.prefix "ithub.com/" t else false).
  destruct (ascii_dec "g" c) as [<-|Hne]; [|reflexivity].
  rewrite Ascii.eqb_refl in H1. discriminate.
Qed.

Lemma prefix_append p s : String.prefix p (p +:+ s) = true.
Proof.
  induction p as [|a p IH]; [now destruct s|].
  rewrite append_cons. cbn [String.prefix].
  destruct (ascii_dec a a); [exact IH|congruence].
Qed.

(** X22. From a URL that reaches [github.com/owner/repo], by whatever
    scheme and host prefix without the letter g, the pattern takes
    [owner] and [repo] as its groups; what follows the repository
    segment after a further [/] is ignored, and a suffix such as
    [.git] stays part of the repository name. *)
Theorem match_github_url pre owner repo rest :
  contains "g" pre = false ->
  owner <> "" -> repo <> "" ->
  contains "/" owner = false -> contains "/" repo = false ->
  (rest = "" \/ exists r, rest = String "/" r) ->
  GithubUrl.match_ (pre +:+ "github.com/" +:+ owner +:+ "/" +:+ repo +:+ rest)
  = Some (owner, repo).
Proof.
  intros Hp Ho Hr Hco Hcr Hrest.
  set (tail := owner +:+ "/" +:+ repo +:+ rest).
  change ("github.com/" +:+ tail) with (String "g" ("ithub.com/" +:+ tail)).
  rewrite match_skip by exact Hp.
  change (String "g" ("ithub.com/" +:+ tail)) with ("github.com/" +:+ tail).
  assert (Hsub : String.substring 11 (String.length ("github.com/" +:+ tail) - 11)
                   ("github.com/" +:+ tail) = tail).
  { change ("github.com/" +:+ tail) with
      (String "g" (String "i" (String "t" (String "h" (String "u" (String "b"
        (String "." (String "c" (String "o" (String "m" (String "/" tail))))))))))).
    cbn [String.length]. rewrite !Nat.sub_succ, Nat.sub_0_r.
    cbn [String.substring]. apply substring_all. }
  pose proof (prefix_append "github.com/" tail) as Hpre.
  revert Hsub Hpre. generalize ("github.com/" +:+ tail) as url.
  intros url Hsub Hpre. destruct url as [|c url]; [discriminate Hpre|].
  cbn [GithubUrl.match_]. rewrite Hpre, Hsub. subst tail.
  now rewrite groups_owner_repo.
Qed.

End GithubUrlFacts.

(** ** Instances of the further properties *)

(** The caller's id [1234567890] is replaced by the derived one, and the
    registry ends up as if no id had been sent. *)
Lemma packageCreate_overwrites_supplied_id_witness :
  packageCreate calmEnv (Some "aGVsbG8=") None None None None xWithForeignId
    emptyStore = (Return xPackage, xStore)
  /\ ID (metadata xPackage)
     = Identity (Name (metadata xPackage)) (Version (metadata xPackage))
  /\ packageCreate calmEnv (Some "aGVsbG8=") None None None None
       (withID None xWithForeignId) emptyStore = (Return xPackage, xStore).
Proof.
  assert (Hc : packageCreate calmEnv (Some "aGVsbG8=") None None None None
                 xWithForeignId emptyStore = (Return xPackage, xStore))
    by (vm_compute; reflexivity).
  split; [exact Hc|].
  pose proof (packageCreate_overwrites_supplied_id calmEnv _ _ _ _ _ _ _ _ _ Hc)
    as [H1 H2].
  split; [exact H1|exact (H2 None)].
Defined.

(** The body's [Name] wins; a metadata [Name] that is a no-break space
    trims to nothing, and the name is the resolver's. *)
Lemma packageCreate_name_precedence_witness :
  (packageCreate calmEnv (Some "aGVsbG8=") None None None (Some "X")
     (version_only "1.0.0") emptyStore = (Return xPackage, xStore)
   /\ Name (metadata xPackage) = Some "X")
  /\ (packageCreate calmEnv (Some "aGVsbG8=") None None None None
        nbspNamed emptyStore = (Return unnamedPackage, unnamedStore)
      /\ Js.trim nbsp = ""
      /\ Name (metadata unnamedPackage)
         = resolverInfo calmEnv (Some "aGVsbG8=") None ≫= info_name).
Proof.
  assert (Hc : packageCreate calmEnv (Some "aGVsbG8=") None None None (Some "X")
                 (version_only "1.0.0") emptyStore = (Return xPackage, xStore))
    by (vm_compute; reflexivity).
  assert (Hn : packageCreate calmEnv (Some "aGVsbG8=") None None None None
                 nbspNamed emptyStore = (Return unnamedPackage, unnamedStore))
    by (vm_compute; reflexivity).
  split; [split; [exact Hc|]|split; [exact Hn|split; [reflexivity|]]].
  - exact (packageCreate_name_precedence calmEnv _ _ _ _ _ _ _ _ _ Hc).
  - exact (packageCreate_name_precedence calmEnv _ _ _ _ _ _ _ _ _ Hn).
Defined.

(** A named ingestion from [github.com/lodash/lodash] downloads the
    archive of [undefined/undefined], also when the name given is a
    no-break space. *)
Lemma packageCreate_named_url_witness :
  (packageCreate calmEnv None None (Some "https://github.com/lodash/lodash")
     None (Some "X") (version_only "1.0.0") emptyStore
   = (Return namedUrlPackage, namedUrlStore)
   /\ In (HttpGet "https://api.github.com/repos/undefined/undefined/zipball")
         (log namedUrlStore))
  /\ (packageCreate calmEnv None None (Some "https://github.com/lodash/lodash")
        None (Some nbsp) (version_only "1.0.0") emptyStore
      = (Return blankNamedUrlPackage, blankNamedUrlStore)
      /\ In (HttpGet "https://api.github.com/repos/undefined/undefined/zipball")
            (log blankNamedUrlStore)).
Proof.
  assert (Hc : packageCreate calmEnv None None
                 (Some "https://github.com/lodash/lodash")
                 None (Some "X") (version_only "1.0.0") emptyStore
               = (Return namedUrlPackage, namedUrlStore))
    by (vm_compute; reflexivity).
  assert (Hb : packageCreate calmEnv None None
                 (Some "https://github.com/lodash/lodash")
                 None (Some nbsp) (version_only "1.0.0") emptyStore
               = (Return blankNamedUrlPackage, blankNamedUrlStore))
    by (vm_compute; reflexivity).
  split; (split; [eassumption|]).
  - exact (proj1 (packageCreate_named_url_fetches_undefined_repo calmEnv
                    _ _ _ _ _ _ _ _ _ Hc eq_refl eq_refl)).
  - exact (proj1 (packageCreate_named_url_fetches_undefined_repo calmEnv
                    _ _ _ _ _ _ _ _ _ Hb eq_refl eq_refl)).
Defined.

(** With a metadata [Name] that is a no-break space and no body
    [Name], the request is unnamed: the URL is parsed and the
    repository it names is the one downloaded. *)
Example blank_metadata_name_url_is_parsed :
  let st' := snd (packageCreate calmEnv None None
                    (Some "https://github.com/lodash/lodash")
                    None None nbspNamed emptyStore) in
  In (ResolveRepo "lodash" "lodash") (log st')
  /\ In (HttpGet "https://api.github.com/repos/lodash/lodash/zipball") (log st')
  /\ ~ In (HttpGet "https://api.github.com/repos/undefined/undefined/zipball")
         (log st').
Proof.
  cbv zeta. split; [|split].
  - vm_compute. auto.
  - vm_compute. auto 10.
  - vm_compute. intros H. repeat (destruct H as [H|H]; [discriminate H|]).
    exact H.
Qed.

(** An inline upload of [X] into a bucket that refuses it. *)
Lemma packageCreate_upload_failure_witness :
  reachesUpload denyUpload (Some "aGVsbG8=") None (Some "X")
    (version_only "1.0.0") emptyStore (Some "X") (Some "1.0.0") None None emptyStore
  /\ exists st',
       packageCreate denyUpload (Some "aGVsbG8=") None None None (Some "X")
         (version_only "1.0.0") emptyStore
       = (Throw (CustomError "Failed to upload content" 500), st')
       /\ s3 st' = s3 emptyStore /\ tables st' = tables emptyStore.
Proof.
  assert (Hr : reachesUpload denyUpload (Some "aGVsbG8=") None (Some "X")
                 (version_only "1.0.0") emptyStore (Some "X") (Some "1.0.0")
                 None None emptyStore).
  { unfold reachesUpload.
    repeat match goal with |- _ /\ _ => split end; vm_compute; reflexivity. }
  split; [exact Hr|].
  exact (proj1 (packageCreate_upload_failure_writes_nothing denyUpload
                  _ None _ None _ _ _ _ _ _ _ _ Hr) eq_refl "Access Denied" eq_refl).
Defined.

(** An inline upload of [X], and an ingestion from a URL, when the
    metadata table is missing. *)
Lemma packageCreate_insert_failure_witness :
  (reachesUpload denyMetadataInsert (Some "aGVsbG8=") None (Some "X")
     (version_only "1.0.0") emptyStore (Some "X") (Some "1.0.0") None None emptyStore
   /\ exists st',
        packageCreate denyMetadataInsert (Some "aGVsbG8=") None None None (Some "X")
          (version_only "1.0.0") emptyStore
        = (Throw (CustomError
                    "Failed to upload package or insert into database" 500), st')
        /\ s3 st' = <["packages/X/v1.0.0/package.zip" := list_byte_of_string "hello"]> ∅
        /\ map package_id (packages st') = [Identity (Some "X") (Some "1.0.0")]
        /\ package_metadata st' = []
        /\ package_data st' = [])
  /\ (reachesUpload denyMetadataInsert None (Some "https://github.com/lodash/lodash")
        None None emptyStore (Some "pkg") (Some "9.9.9") (Some "lodash")
        (Some "lodash") (record (ResolveRepo "lodash" "lodash") emptyStore)
      /\ exists st',
           packageCreate denyMetadataInsert None None
             (Some "https://github.com/lodash/lodash") None None None emptyStore
           = (Throw (CustomError
                       "Failed to upload package or insert into database" 500), st')
           /\ s3 st' = <["packages/pkg/v9.9.9/package.zip"
                          := list_byte_of_string "PK-archive"]> ∅
           /\ map content_type (packages st') = [false]
           /\ package_metadata st' = []
           /\ package_data st' = []).
Proof.
  split.
  - assert (Hr : reachesUpload denyMetadataInsert (Some "aGVsbG8=") None (Some "X")
                   (version_only "1.0.0") emptyStore (Some "X") (Some "1.0.0")
                   None None emptyStore).
    { unfold reachesUpload.
      repeat match goal with |- _ /\ _ => split end; vm_compute; reflexivity. }
    split; [exact Hr|].
    destruct (packageCreate_insert_failure_leaves_blob_and_row denyMetadataInsert
                _ None _ None _ _ _ _ _ _ _ _ "relation does not exist" Hr
                (fun _ => eq_refl) eq_refl eq_refl eq_refl)
      as (st' & H & Hs & Hp & Hm & Hd).
    exists st'. split; [exact H|]. split; [|split; [|split]].
    + rewrite Hs. vm_compute. reflexivity.
    + rewrite Hp. reflexivity.
    + exact Hm.
    + exact Hd.
  - assert (Hr : reachesUpload denyMetadataInsert None
                   (Some "https://github.com/lodash/lodash") None None emptyStore
                   (Some "pkg") (Some "9.9.9") (Some "lodash") (Some "lodash")
                   (record (ResolveRepo "lodash" "lodash") emptyStore)).
    { unfold reachesUpload.
      repeat match goal with |- _ /\ _ => split end; vm_compute; reflexivity. }
    split; [exact Hr|].
    destruct (packageCreate_insert_failure_leaves_blob_and_row denyMetadataInsert
                _ None _ None _ _ _ _ _ _ _ _ "relation does not exist" Hr
                (fun _ => eq_refl) eq_refl eq_refl eq_refl)
      as (st' & H & Hs & Hp & Hm & Hd).
    exists st'. split; [exact H|]. split; [|split; [|split]].
    + rewrite Hs. vm_compute. reflexivity.
    + rewrite Hp. reflexivity.
    + exact Hm.
    + exact Hd.
Defined.

(** The row of [X] is flagged as an inline upload. *)
Lemma packageCreate_content_type_flag_witness :
  packageCreate calmEnv (Some "aGVsbG8=") None None None (Some "X")
    (version_only "1.0.0") emptyStore = (Return xPackage, xStore)
  /\ exists row,
       packages xStore = packages emptyStore ++ [row]
       /\ package_id row = ID (metadata xPackage)
       /\ content_type row = true.
Proof.
  assert (Hc : packageCreate calmEnv (Some "aGVsbG8=") None None None (Some "X")
                 (version_only "1.0.0") emptyStore = (Return xPackage, xStore))
    by (vm_compute; reflexivity).
  split; [exact Hc|].
  destruct (packageCreate_content_type_flag calmEnv _ _ _ _ _ _ _ _ _ Hc)
    as (row & Hp & Hi & Hin & _).
  exists row. split; [exact Hp|]. split; [exact Hi|]. exact (Hin eq_refl).
Defined.

(** The calls of the ingestion from a URL. *)
Lemma packageCreate_call_order_witness :
  packageCreate calmEnv None None (Some "https://github.com/lodash/lodash")
    None None None emptyStore = (Return urlPackage, urlStore)
  /\ exists pre fetch key body row mrow drow,
       log urlStore
       = log emptyStore ++ pre ++ [DbExists (ID (metadata urlPackage))] ++ fetch
           ++ [S3Put key body; DbInsertPackage row;
               DbInsertMetadata mrow; DbInsertData drow]
       /\ Forall (fun op => is_resolve op = true) pre /\ length pre <= 1
       /\ (fetch = [] \/ exists u, fetch = [HttpGet u])
       /\ s3 urlStore !! key = Some body.
Proof.
  assert (Hc : packageCreate calmEnv None None
                 (Some "https://github.com/lodash/lodash") None None None emptyStore
               = (Return urlPackage, urlStore))
    by (vm_compute; reflexivity).
  split; [exact Hc|].
  exact (packageCreate_call_order calmEnv _ _ _ _ _ _ _ _ _ Hc).
Defined.

(** Publishing [X] twice. *)
Lemma packageCreate_twice_conflicts_witness :
  packageCreate calmEnv (Some "aGVsbG8=") None None None (Some "X")
    (version_only "1.0.0") emptyStore = (Return xPackage, xStore)
  /\ exists st'',
       packageCreate calmEnv (Some "aGVsbG8=") None None None (Some "X")
         (version_only "1.0.0") xStore
       = (Throw (CustomError "Package already exists." 409), st'')
       /\ s3 st'' = s3 xStore /\ tables st'' = tables xStore.
Proof.
  assert (Hc : packageCreate calmEnv (Some "aGVsbG8=") None None None (Some "X")
                 (version_only "1.0.0") emptyStore = (Return xPackage, xStore))
    by (vm_compute; reflexivity).
  split; [exact Hc|].
  exact (packageCreate_twice_conflicts calmEnv _ _ _ _ _ _ _ _ _ Hc).
Defined.

(** Retrieving [X] from a bucket that holds its archive under the id. *)
Lemma packageRetrieve_returns_stored_object_witness :
  joinedRows (packageid xJoinedRow) xStoreKeyedById = [xJoinedRow]
  /\ s3 xStoreKeyedById !! retrieveKey (packageid xJoinedRow) "1.0.0"
     = Some (list_byte_of_string "hello")
  /\ exists pkg content,
       fst (packageRetrieve calmEnv (packageid xJoinedRow) xStoreKeyedById)
       = Return pkg
       /\ metadata pkg = {| Name := Some "X"; Version := Some "1.0.0";
                            ID := packageid xJoinedRow |}
       /\ JSProgram (data pkg) = None
       /\ Content (data pkg) = Some content
       /\ Base64.decode content = list_byte_of_string "hello".
Proof.
  assert (Hj : joinedRows (packageid xJoinedRow) xStoreKeyedById = [xJoinedRow])
    by (vm_compute; reflexivity).
  assert (Hl : (s3 xStoreKeyedById
                  !! retrieveKey (packageid xJoinedRow) (packageversion xJoinedRow)
                : option Buffer)
               = Some (list_byte_of_string "hello"))
    by (vm_compute; reflexivity).
  split; [exact Hj|]. split; [exact Hl|].
  apply (proj1 (packageRetrieve_returns_stored_object calmEnv _ _ _ _ _
                  eq_refl eq_refl Hj eq_refl Hl)).
  discriminate.
Defined.

(** A backup outside [packages/] survives the reset. *)
Lemma registryReset_keeps_other_prefixes_witness :
  String.prefix "packages/" "backups/2024.tar" = false
  /\ s3 (snd (registryReset calmEnv mixedStore)) !! "backups/2024.tar"
     = s3 mixedStore !! "backups/2024.tar".
Proof.
  split; [reflexivity|].
  exact (registryReset_keeps_other_prefixes calmEnv mixedStore
           "backups/2024.tar" eq_refl).
Defined.

(** After the reset, [X] is gone. *)
Lemma registry_is_empty_after_reset_witness :
  registryReset calmEnv xStore = (Return tt, xStoreReset)
  /\ fst (packageRetrieve calmEnv (packageid xJoinedRow) xStoreReset)
     = Throw (CustomError "Failed to retrieve package: Package not found." 500).
Proof.
  assert (Hr : registryReset calmEnv xStore = (Return tt, xStoreReset))
    by (vm_compute; reflexivity).
  split; [exact Hr|].
  exact (proj1 (registry_is_empty_after_reset calmEnv _ _ Hr) _ eq_refl).
Defined.

(** The second page of twenty rows. *)
Lemma packagesList_rows_from_table_witness :
  packagesList calmEnv [] (Some "10") twentyRows
  = (Return secondPage, record (DbSelectPackages [] limit (Num 10)) twentyRows)
  /\ length (packages_of secondPage) <= 10
  /\ exists clauses,
       whereClauses [] = Return clauses
       /\ forall row, In row (packages_of secondPage) ->
                      In row (packages twentyRows)
                      /\ db_where calmEnv clauses row = true.
Proof.
  assert (Hc : packagesList calmEnv [] (Some "10") twentyRows
               = (Return secondPage,
                  record (DbSelectPackages [] limit (Num 10)) twentyRows))
    by (vm_compute; reflexivity).
  split; [exact Hc|].
  exact (packagesList_rows_from_table calmEnv _ _ _ _ _ Hc).
Defined.

(** A refused query is reported without the database's message. *)
Lemma packagesList_error_kinds_witness :
  fst (packagesList denySelect [] None emptyStore)
  = Throw (CustomError "An unexpected error occurred." 500)
  /\ ((exists msg, CustomError "An unexpected error occurred." 500
                   = CustomError msg 400
                   /\ snd (packagesList denySelect [] None emptyStore) = emptyStore)
      \/ (CustomError "An unexpected error occurred." 500
          = CustomError "An unexpected error occurred." 500
          /\ exists clauses,
               whereClauses [] = Return clauses
               /\ log (snd (packagesList denySelect [] None emptyStore))
                  = log emptyStore
                      ++ [DbSelectPackages clauses limit (offsetValue None)])).
Proof.
  assert (Hc : fst (packagesList denySelect [] None emptyStore)
               = Throw (CustomError "An unexpected error occurred." 500))
    by (vm_compute; reflexivity).
  split; [exact Hc|].
  exact (packagesList_error_kinds denySelect _ _ _ _ Hc).
Defined.

(** [" 1.2.3"] is rejected although it trims to an exact version. *)
Lemma packagesList_rejects_padded_version_witness :
  Js.trim " 1.2.3" = "1.2.3"
  /\ matchesOneFormat "1.2.3" = true
  /\ exists msg,
       packagesList calmEnv paddedVersionQuery None emptyStore
       = (Throw (CustomError msg 400), emptyStore).
Proof.
  split; [reflexivity|]. split; [reflexivity|].
  refine (packagesList_rejects_padded_version calmEnv paddedVersionQuery None
            emptyStore _ " 1.2.3" (or_introl eq_refl) eq_refl eq_refl _).
  vm_compute. discriminate.
Defined.

(** Entries with empty fields only. *)
Lemma whereClauses_fieldless_entries_witness :
  whereClauses fieldlessQuery = Return []
  /\ log (snd (packagesList calmEnv fieldlessQuery None emptyStore))
     = log emptyStore ++ [DbSelectPackages [] limit (offsetValue None)].
Proof.
  apply (whereClauses_fieldless_entries calmEnv).
  repeat constructor.
Defined.

(** [*] next to [lodash]. *)
Lemma wildcard_among_entries_witness :
  exists w c,
    whereClauses wildcardAndLodash = Return [w] /\ In c w /\ In (NameEq "*") c.
Proof.
  refine (wildcard_among_entries_is_literal wildcardAndLodash _
            (or_introl eq_refl) eq_refl _ eq_refl).
  vm_compute. discriminate.
Defined.

(** The two pages of twenty rows. *)
Lemma packagesList_consecutive_pages_witness :
  packagesList calmEnv [] None twentyRows
  = (Return firstPage, record (DbSelectPackages [] limit (Num 0)) twentyRows)
  /\ packagesList calmEnv [] (Some "10")
       (record (DbSelectPackages [] limit (Num 0)) twentyRows)
     = (Return secondPage,
        record (DbSelectPackages [] limit (Num 10))
          (record (DbSelectPackages [] limit (Num 0)) twentyRows))
  /\ exists clauses,
       whereClauses [] = Return clauses
       /\ packages_of firstPage ++ packages_of secondPage
          = firstn 20 (skipn (Z.to_nat 0)
              (List.filter (db_where calmEnv clauses) (packages twentyRows))).
Proof.
  assert (H1 : packagesList calmEnv [] None twentyRows
               = (Return firstPage,
                  record (DbSelectPackages [] limit (Num 0)) twentyRows))
    by (vm_compute; reflexivity).
  assert (H2 : packagesList calmEnv [] (Some "10")
                 (record (DbSelectPackages [] limit (Num 0)) twentyRows)
               = (Return secondPage,
                  record (DbSelectPackages [] limit (Num 10))
                    (record (DbSelectPackages [] limit (Num 0)) twentyRows)))
    by (vm_compute; reflexivity).
  split; [exact H1|]. split; [exact H2|].
  exact (packagesList_consecutive_pages calmEnv [] None (Some "10") _ 0 _ _ _ _
           eq_refl eq_refl H1 H2).
Defined.

(** The four formats at [1.2.3] and [2.0.0]. *)
Lemma versionCondition_by_format_witness :
  versionCondition "1.2.3" = Return [VersionEq "1.2.3"]
  /\ versionCondition "1.2.3-2.0.0"
     = Return [VersionBetween (Some "1.2.3") (Some "2.0.0")]
  /\ versionCondition "^1.2.3" = Return [VersionLike "1.%"]
  /\ versionCondition "~1.2.3" = Return [VersionLike "1.2.%"].
Proof.
  exact (versionCondition_by_format "1" "2" "3" "2" "0" "0"
           eq_refl eq_refl eq_refl eq_refl eq_refl eq_refl).
Defined.

(** A clone URL with a path after the repository. *)
Lemma match_github_url_witness :
  GithubUrl.match_ "https://github.com/lodash/lodash.git/tree/main"
  = Some ("lodash", "lodash.git").
Proof.
  refine (match_github_url "https://" "lodash" "lodash.git" "/tree/main"
            eq_refl _ _ eq_refl eq_refl (or_intror (ex_intro _ "tree/main" eq_refl)));
    discriminate.
Defined.

(** ** URLs that are not GitHub's *)

Section ForeignUrl.

Variable env : Env.

(** X23. An ingestion from a URL, without any name, whose URL the
    GitHub pattern does not match fails with status 400 before any
    outside call: the store and its log are untouched. *)
Theorem packageCreate_rejects_unmatched_url
    Content_ JSProgram_ URL debloat_ Name_ metadata_ st :
  Js.truthy URL = true -> Js.truthy Content_ = false ->
  Js.truthy Name_ = false ->
  Js.truthy (Js.trim <$> (metadata_ ≫= arg_Name)) = false ->
  GithubUrl.match_ (Js.interp URL) = None ->
  packageCreate env Content_ JSProgram_ URL debloat_ Name_ metadata_ st
  = (Throw (CustomError "Invalid GitHub URL format" 400), st).
Proof.
  intros HU HC HN HM Hm. unfold packageCreate. rewrite HU, HC.
  cbn [negb andb orb]. unfold bind at 1.
  unfold resolveNameVersion. rewrite HM, HN, HU, Hm. reflexivity.
Qed.

End ForeignUrl.

(** ** The query text of a listing *)

Section SqlFacts.

Lemma conditionsSql_erase i cs :
  fst (fst (conditionsSql i (map erase cs))) = fst (fst (conditionsSql i cs))
  /\ snd (conditionsSql i (map erase cs)) = snd (conditionsSql i cs)
  /\ snd (fst (conditionsSql i cs)) = flat_map boundValues cs
  /\ snd (conditionsSql i cs) = i + length (flat_map boundValues cs).
Proof.
  revert i. induction cs as [|c cs IH]; intros i.
  - cbn. repeat split. lia.
  - cbn [conditionsSql map flat_map].
    destruct c; cbn [conditionSql erase boundValues].
    all: match goal with
         | |- context [conditionsSql ?k (map erase ?l)] =>
             specialize (IH k);
             destruct (conditionsSql k l) as [[ts vs] j];
             destruct (conditionsSql k (map erase l)) as [[ts' vs'] j']
         end.
    all: cbn [fst snd] in *; destruct IH as (-> & -> & -> & ->).
    all: repeat split; cbn [length app]; lia.
Qed.

Lemma packageConditionsSql_erase i w :
  fst (fst (packageConditionsSql i (map (map erase) w)))
  = fst (fst (packageConditionsSql i w))
  /\ snd (packageConditionsSql i (map (map erase) w)) = snd (packageConditionsSql i w)
  /\ snd (fst (packageConditionsSql i w)) = flat_map (flat_map boundValues) w
  /\ snd (packageConditionsSql i w)
     = i + length (flat_map (flat_map boundValues) w).
Proof.
  revert i. induction w as [|cs w IH]; intros i.
  - cbn. repeat split. lia.
  - cbn [packageConditionsSql map flat_map].
    pose proof (conditionsSql_erase i cs) as H.
    destruct (conditionsSql i cs) as [[ts vs] j].
    destruct (conditionsSql i (map erase cs)) as [[ts' vs'] j'].
    cbn [fst snd] in H. destruct H as (-> & -> & -> & ->).
    specialize (IH (i + length (flat_map boundValues cs))).
    destruct (packageConditionsSql _ w) as [[ps qs] k].
    destruct (packageConditionsSql _ (map (map erase) w)) as [[ps' qs'] k'].
    cbn [fst snd] in *. destruct IH as (-> & -> & -> & ->).
    repeat split. rewrite length_app. lia.
Qed.

Lemma whereClausesSql_erase i clauses :
  fst (fst (whereClausesSql i (map (map (map erase)) clauses)))
  = fst (fst (whereClausesSql i clauses))
  /\ snd (fst (whereClausesSql i clauses))
     = flat_map (flat_map (flat_map boundValues)) clauses
  /\ length (snd (fst (whereClausesSql i (map (map (map erase)) clauses))))
     = length (snd (fst (whereClausesSql i clauses)))
  /\ snd (whereClausesSql i (map (map (map erase)) clauses))
     = snd (whereClausesSql i clauses)
  /\ snd (whereClausesSql i clauses)
     = i + length (flat_map (flat_map (flat_map boundValues)) clauses).
Proof.
  revert i. induction clauses as [|w clauses IH]; intros i.
  - cbn. repeat split. lia.
  - cbn [whereClausesSql map flat_map].
    pose proof (packageConditionsSql_erase i w) as H.
    pose proof (packageConditionsSql_erase i (map (map erase) w)) as He.
    destruct (packageConditionsSql i w) as [[ts vs] j].
    destruct (packageConditionsSql i (map (map erase) w)) as [[ts' vs'] j'].
    cbn [fst snd] in H, He. destruct H as (-> & -> & -> & ->).
    destruct He as (_ & _ & -> & Hj).
    specialize (IH (i + length (flat_map (flat_map boundValues) w))).
    destruct (whereClausesSql _ clauses) as [[ps qs] k].
    destruct (whereClausesSql _ (map (map (map erase)) clauses)) as [[ps' qs'] k'].
    cbn [fst snd] in *. destruct IH as (-> & -> & Hl & -> & ->).
    repeat split; rewrite ?length_app; lia.
Qed.

(** X24. The statement of a listing is parameterised: its text is the
    same whatever the names, ids and versions of the request are, the
    values travel as parameters in the order of their placeholders,
    followed by the limit and the offset, and the placeholders of
    [LIMIT] and [OFFSET] are the next two free numbers. *)
Theorem listing_query_is_parameterised clauses offset :
  fst (listingSql (map (map (map erase)) clauses) offset)
  = fst (listingSql clauses offset)
  /\ snd (listingSql clauses offset)
     = flat_map (flat_map (flat_map boundValues)) clauses
         ++ [Number (Num 10); Number offset]
  /\ snd (whereClausesSql 1 clauses)
     = length (flat_map (flat_map (flat_map boundValues)) clauses) + 1.
Proof.
  unfold listingSql.
  pose proof (whereClausesSql_erase 1 clauses) as H.
  destruct (whereClausesSql 1 clauses) as [[ts vs] j].
  destruct (whereClausesSql 1 (map (map (map erase)) clauses)) as [[ts' vs'] j'].
  cbn [fst snd] in *. destruct H as (-> & -> & Hl & _ & ->).
  repeat split; [|lia].
  unfold queryText. now rewrite Hl.
Qed.

End SqlFacts.

(** ** [sanitizeInput] *)

Section SanitizeFacts.

Lemma sanitizeInput_allowed s c :
  contains c (sanitizeInput s) = true -> allowed c = true.
Proof.
  induction s as [|x s IH]; cbn; [discriminate|].
  destruct (allowed x) eqn:E; [|exact IH].
  cbn. intros H. apply orb_true_iff in H as [H|H]; [|auto].
  apply Ascii.eqb_eq in H. now subst.
Qed.

Lemma sanitizeInput_fixed s :
  (forall c, contains c s = true -> allowed c = true) -> sanitizeInput s = s.
Proof.
  induction s as [|x s IH]; cbn; intros H; [reflexivity|].
  rewrite (H x) by (rewrite Ascii.eqb_refl; reflexivity).
  rewrite IH; [reflexivity|].
  intros c Hc. apply H. rewrite Hc. apply orb_true_r.
Qed.

(** X25. [sanitizeInput] keeps exactly the letters, digits, [-], [_]
    and [.]: its result has no other character, a string is left as it
    is exactly when it has no other character, and sanitising twice is
    sanitising once. *)
Theorem sanitizeInput_keeps_allowed s :
  (forall c, contains c (sanitizeInput s) = true -> allowed c = true)
  /\ (sanitizeInput s = s <-> forall c, contains c s = true -> allowed c = true)
  /\ sanitizeInput (sanitizeInput s) = sanitizeInput s.
Proof.
  split; [apply sanitizeInput_allowed|]. split.
  - split; [|apply sanitizeInput_fixed].
    intros E c Hc. rewrite <- E in Hc. eapply sanitizeInput_allowed; eauto.
  - apply sanitizeInput_fixed, sanitizeInput_allowed.
Qed.

End SanitizeFacts.

(** ** Search by regular expression *)

Section RegExSearchFacts.

Import RegExSearch.

Variable db : Db.

Lemma selectAs_fields p :
  let row := selectAs [("name", "Name"); ("version", "Version");
                       ("package_id", "ID")] p in
  row !! "name" = Some (name p)
  /\ row !! "version" = Some (Some (version p))
  /\ row !! "package_id" = None
  /\ row !! "id" = Some (Some (package_id p)).
Proof. cbv zeta. repeat split; vm_compute; reflexivity. Qed.

(** X26. A search that the database answers returns one element per
    package whose name matches, with that package's name and version;
    the [ID] of every element is [undefined], because the column is
    selected under the label [ID], which reaches the service as [id],
    and is read as [package_id]. A search that the database refuses
    fails with status 500 and the database's message. *)
Theorem packageByRegExGet_answers body pattern st :
  body ≫= RegEx = Some pattern -> pattern <> "" ->
  let matching :=
    List.filter (fun p => nameMatches db pattern (name p)) (packages st) in
  (regexFault db pattern = None ->
   exists found,
     packageByRegExGet db body st = Return found
     /\ map Name found = map (fun p => Some (name p)) matching
     /\ map Version found = map (fun p => Some (Some (version p))) matching
     /\ Forall (fun f => ID f = None) found)
  /\ (forall msg,
        regexFault db pattern = Some msg ->
        packageByRegExGet db body st
        = Throw (CustomError ("Failed to retrieve packages: " +:+ msg) 500)).
Proof.
  intros Hb Hne matching. unfold packageByRegExGet, regexQuery. rewrite Hb.
  assert (Ht : Js.truthy (Some pattern) = true) by (destruct pattern; [now elim Hne|reflexivity]).
  rewrite Ht. cbn [negb Js.interp]. split.
  - intros ->. fold matching. rewrite length_map.
    destruct matching as [|p l]; [exists []; cbn; auto|].
    cbn [length Nat.eqb].
    eexists. split; [reflexivity|].
    rewrite !map_map.
    split; [|split].
    + apply map_ext. intros q. cbn [Name]. apply selectAs_fields.
    + apply map_ext. intros q. cbn [Version]. apply selectAs_fields.
    + apply List.Forall_forall. intros f Hin. apply in_map_iff in Hin.
      destruct Hin as (q & <- & _). cbn [ID]. apply selectAs_fields.
  - intros msg ->. reflexivity.
Qed.

End RegExSearchFacts.

(** ** Ratings *)

Section RatingFacts.

Import Metrics.

Context {number : Type}.

Variable computed : string -> Outcome (PackageRating number).

(** X27. [packageRate] rates the empty input whatever the id is. When
    the metrics are computed, the eight scores and the latency of the
    pinning metric are those computed, and the seven other latencies
    are [undefined]: they are read under names with an underscore,
    which the computed object does not have. When the computation
    fails, the failure is passed on with status 500. *)
Theorem packageRate_latencies id :
  (forall r,
      computed "" = Return r ->
      packageRate computed id
      = Return {| NetScore := Some (NetScore r);
                  NetScoreLatency := None;
                  RampUp := Some (RampUp r);
                  RampUpLatency := None;
                  Correctness := Some (Correctness r);
                  CorrectnessLatency := None;
                  BusFactor := Some (BusFactor r);
                  BusFactorLatency := None;
                  PullRequest := Some (PullRequest r);
                  PullRequestLatency := None;
                  GoodPinningPractice := Some (GoodPinningPractice r);
                  GoodPinningPracticeLatency :=
                    Some (GoodPinningPracticeLatency r);
                  ResponsiveMaintainer := Some (ResponsiveMaintainer r);
                  ResponsiveMaintainerLatency := None;
                  LicenseScore := Some (LicenseScore r);
                  LicenseScoreLatency := None |})
  /\ (forall error,
        computed "" = Throw error ->
        packageRate computed id
        = Throw (CustomError ("Failed to calculate metrics: " +:+ message error)
                   500)).
Proof.
  split.
  - intros r H. unfold packageRate, calculateMetrics. rewrite H.
    destruct r. vm_compute. reflexivity.
  - intros error H. unfold packageRate, calculateMetrics. rewrite H. reflexivity.
Qed.

End RatingFacts.

(** ** The pull-request metric *)

Section PullRequestFacts.

Import PullRequest.

Variable graphqlWithAuth : option string -> option Page.

Lemma addNode_bounds nodes sums :
  (forall pr, In pr nodes -> (0 <= default 0 (additions pr))%Z) ->
  (0 <= snd sums <= fst sums)%Z ->
  (0 <= snd (fold_left addNode nodes sums) <= fst (fold_left addNode nodes sums))%Z.
Proof.
  revert sums. induction nodes as [|pr nodes IH]; intros sums Hn Hs; [exact Hs|].
  cbn [fold_left]. apply IH; [intros; apply Hn; now right|].
  pose proof (Hn pr (or_introl eq_refl)) as Ha.
  unfold addNode. cbn [fst snd].
  destruct (0 <? reviews_totalCount pr)%Z; cbn [fst snd]; lia.
Qed.

Lemma pages_bounds remaining sums more cursor :
  additionsNonNegative graphqlWithAuth ->
  (0 <= snd sums <= fst sums)%Z ->
  length (fst (pages graphqlWithAuth remaining sums more cursor)) <= remaining
  /\ match snd (pages graphqlWithAuth remaining sums more cursor) with
     | Some result => (0 <= snd result <= fst result)%Z
     | None => Exists (fun c => graphqlWithAuth c = None)
                 (fst (pages graphqlWithAuth remaining sums more cursor))
     end
  /\ (Exists (fun c => graphqlWithAuth c = None)
        (fst (pages graphqlWithAuth remaining sums more cursor)) ->
      snd (pages graphqlWithAuth remaining sums more cursor) = None).
Proof.
  intros additions_nonneg. revert sums more cursor.
  induction remaining as [|remaining IH]; intros sums more cursor Hs.
  - cbn. split; [lia|]. split; [exact Hs|]. intros H. inversion H.
  - cbn [pages]. destruct more.
    2:{ cbn. split; [lia|]. split; [exact Hs|]. intros H. inversion H. }
    destruct (graphqlWithAuth cursor) as [response|] eqn:Hg.
    + specialize (IH (fold_left addNode (edges response) sums)
                     (hasNextPage response) (endCursor response)
                     (addNode_bounds _ _
                        (fun pr => additions_nonneg cursor response pr Hg) Hs)).
      destruct (pages graphqlWithAuth remaining _ _ _) as [sent result].
      cbn [fst snd length] in *. destruct IH as (Hl & Hr & He).
      split; [lia|]. split.
      * destruct result; [exact Hr|]. now apply Exists_cons_tl.
      * intros H. apply He. inversion H; subst; [congruence|assumption].
    + cbn. split; [lia|]. split; [now constructor|reflexivity].
Qed.

Lemma pages_head remaining sums cursor :
  head (fst (pages graphqlWithAuth (S remaining) sums true cursor)) = Some cursor.
Proof.
  cbn [pages]. destruct (graphqlWithAuth cursor) as [response|]; [|reflexivity].
  destruct (pages graphqlWithAuth remaining _ _ _). reflexivity.
Qed.

(** X28. With additions that are never negative, the pull-request
    metric sends at most five requests, the first of them without a
    cursor; it is [-1] exactly when one of its requests failed, and
    otherwise [0] or a ratio of reviewed to total additions with
    [0 <= reviewed <= total] and [total > 0]. *)
Theorem calculatePullRequestMetric_bounds :
  additionsNonNegative graphqlWithAuth ->
  let sent := fst (calculatePullRequestMetric graphqlWithAuth) in
  let score := snd (calculatePullRequestMetric graphqlWithAuth) in
  length sent <= 5
  /\ head sent = Some None
  /\ (score = Failed <-> Exists (fun c => graphqlWithAuth c = None) sent)
  /\ (forall reviewed total,
        score = Ratio reviewed total -> (0 <= reviewed <= total /\ 0 < total)%Z).
Proof.
  intros Hnn. cbv zeta. unfold calculatePullRequestMetric.
  assert (H0 : (0 <= snd (0, 0) <= fst (0, 0))%Z) by (cbn; lia).
  pose proof (pages_bounds maxPages (0, 0)%Z true None Hnn H0) as (Hl & Hr & He).
  assert (Hh : head (fst (pages graphqlWithAuth maxPages (0, 0)%Z true None))
               = Some None).
  { apply pages_head. }
  destruct (pages graphqlWithAuth maxPages (0, 0)%Z true None) as [sent result].
  cbn [fst snd] in *. split; [exact Hl|]. split; [exact Hh|]. split.
  - split.
    + destruct result as [[t r]|]; [|intros _; exact Hr].
      destruct (t =? 0)%Z; discriminate.
    + intros H. now rewrite (He H).
  - intros reviewed total.
    destruct result as [[t r]|]; [|discriminate].
    destruct (t =? 0)%Z eqn:E; [discriminate|].
    intros [= <- <-]. cbn [fst snd] in Hr. apply Z.eqb_neq in E. lia.
Qed.

End PullRequestFacts.

(** ** Access tokens *)

Section AuthFacts.

Import Auth.

Variable env : Auth.Env.

(** X29. A token is issued only to a user that is stored and whose
    password matches the stored hash. Its payload carries the name and
    the [isAdmin] and [isBackend] flags of the request itself, and it
    is signed, for ten hours, with [JWT_SECRET] or, when that is not
    set, with ["defaultSecret"]. *)
Theorem createAuthToken_issues_token body tok :
  createAuthToken env body = Resolved tok ->
  exists request claim name_ password_ foundUser,
    body = Some request
    /\ User request = Some claim /\ name claim = Some name_
    /\ Secret request ≫= password = Some password_
    /\ getUserByUsername env name_ = Return (Some foundUser)
    /\ bcrypt_compare env password_ (password_hash foundUser) = Return true
    /\ jwt_sign env {| payload_name := name_;
                       payload_isAdmin := isAdmin claim;
                       payload_isBackend := isBackend claim |}
                (default "defaultSecret" (JWT_SECRET env)) "10h"
       = Return (token tok).
Proof.
  unfold createAuthToken. destruct body as [request|]; [|discriminate].
  destruct (User request) as [claim|] eqn:HU; [|discriminate].
  cbn [mbind option_bind].
  destruct (name claim) as [name_|] eqn:Hn; [|discriminate].
  destruct (Secret request ≫= password) as [password_|] eqn:Hp;
    [|rewrite andb_false_r; discriminate].
  destruct (Js.truthy (Some name_) && Js.truthy (Some password_)); [|discriminate].
  cbn [Js.interp].
  destruct (getUserByUsername env name_) as [[foundUser|]|] eqn:Hg;
    try discriminate.
  destruct (bcrypt_compare env password_ (password_hash foundUser))
    as [[|]|] eqn:Hc; try discriminate.
  destruct (jwt_sign env _ _ _) as [signed|] eqn:Hs; [|discriminate].
  intros [= <-]. exists request, claim, name_, password_, foundUser.
  rewrite HU. cbn [mbind option_bind]. auto 10.
Qed.

(** X30. What decides the outcome. Without a body the promise is
    neither resolved nor rejected. With a body: it is rejected with 400
    when the name or the password is missing or empty; else with 404
    when no such user is stored; else with 401 when the stored hash
    does not match the password; else it is resolved with the signed
    token. When the user table, the hash comparison or the signing
    throws, the promise is neither resolved nor rejected. There is no
    other rejection. *)
Theorem createAuthToken_rejections body :
  (body = None -> createAuthToken env body = Unsettled)
  /\ (forall request,
        body = Some request ->
        let name_ := User request ≫= name in
        let password_ := Secret request ≫= password in
        let lookup := getUserByUsername env (Js.interp name_) in
        let compare foundUser :=
          bcrypt_compare env (Js.interp password_) (password_hash foundUser) in
        let sign :=
          jwt_sign env {| payload_name := Js.interp name_;
                          payload_isAdmin := User request ≫= isAdmin;
                          payload_isBackend := User request ≫= isBackend |}
                   (default "defaultSecret" (JWT_SECRET env)) "10h" in
        (Js.truthy name_ && Js.truthy password_ = false ->
         createAuthToken env body
         = Rejected (CustomError
                       "Missing required properties 'User' or 'Password'" 400))
        /\ (Js.truthy name_ && Js.truthy password_ = true ->
            (lookup = Return None ->
             createAuthToken env body
             = Rejected (CustomError "User not found" 404))
            /\ (forall error, lookup = Throw error ->
                              createAuthToken env body = Unsettled)
            /\ (forall foundUser,
                  lookup = Return (Some foundUser) ->
                  (compare foundUser = Return false ->
                   createAuthToken env body
                   = Rejected (CustomError "Invalid password" 401))
                  /\ (forall error, compare foundUser = Throw error ->
                                    createAuthToken env body = Unsettled)
                  /\ (compare foundUser = Return true ->
                      (forall error, sign = Throw error ->
                                     createAuthToken env body = Unsettled)
                      /\ (forall signed,
                            sign = Return signed ->
                            createAuthToken env body
                            = Resolved {| token := signed |})))))
  /\ (forall e,
        createAuthToken env body = Rejected e ->
        e = CustomError "Missing required properties 'User' or 'Password'" 400
        \/ e = CustomError "User not found" 404
        \/ e = CustomError "Invalid password" 401).
Proof.
  split; [intros ->; reflexivity|]. split.
  - intros request -> name_ password_ lookup compare sign.
    unfold createAuthToken. fold name_ password_ lookup.
    split; [intros ->; reflexivity|]. intros ->.
    split; [intros ->; reflexivity|].
    split; [intros error ->; reflexivity|].
    intros foundUser ->. fold (compare foundUser).
    split; [intros ->; reflexivity|].
    split; [intros error ->; reflexivity|].
    intros ->. fold sign. split; [intros error ->|intros signed ->]; reflexivity.
  - intros e. unfold createAuthToken. destruct body as [request|]; [|discriminate].
    destruct (_ && _); [|intros [= <-]; auto].
    destruct (getUserByUsername env _) as [[foundUser|]|];
      [| intros [= <-]; auto | discriminate].
    destruct (bcrypt_compare env _ _) as [[|]|];
      [| intros [= <-]; auto | discriminate].
    destruct (jwt_sign env _ _ _); discriminate.
Qed.

End AuthFacts.

(** ** Instances for the further models *)

(** A URL of another host. *)
Lemma packageCreate_rejects_unmatched_url_witness :
  GithubUrl.match_ "https://gitlab.com/lodash/lodash" = None
  /\ packageCreate calmEnv None None (Some "https://gitlab.com/lodash/lodash")
       None None None emptyStore
     = (Throw (CustomError "Invalid GitHub URL format" 400), emptyStore).
Proof.
  split; [reflexivity|].
  exact (packageCreate_rejects_unmatched_url calmEnv None None
           (Some "https://gitlab.com/lodash/lodash") None None None emptyStore
           eq_refl eq_refl eq_refl eq_refl eq_refl).
Defined.

(** The statement sent for [lodash] at [^1.2.3]. *)
Example listingSql_caretQuery :
  whereClauses caretQuery = Return [[[NameEq "lodash"; VersionLike "1.%"]]]
  /\ listingSql [[[NameEq "lodash"; VersionLike "1.%"]]] (Num 0)
     = (caretQueryText,
        [Text (Some "lodash"); Text (Some "1.%"); Number (Num 10); Number (Num 0)]).
Proof. by_computation. Qed.

(** A name with a path in it. *)
Lemma sanitizeInput_keeps_allowed_witness :
  sanitizeInput "../lodash@4.17 (fork)" = "..lodash4.17fork"
  /\ sanitizeInput (sanitizeInput "../lodash@4.17 (fork)")
     = sanitizeInput "../lodash@4.17 (fork)".
Proof.
  split; [reflexivity|].
  exact (proj2 (proj2 (sanitizeInput_keeps_allowed "../lodash@4.17 (fork)"))).
Defined.

(** Searching the registry that holds [X]. *)
Lemma packageByRegExGet_answers_witness :
  (exists found,
     RegExSearch.packageByRegExGet RegExSearch.prefixDb
       (Some {| RegExSearch.RegEx := Some "X" |}) xStore = Return found
     /\ map RegExSearch.Name found = [Some (Some "X")]
     /\ map RegExSearch.Version found = [Some (Some "1.0.0")]
     /\ Forall (fun f => RegExSearch.ID f = None) found)
  /\ RegExSearch.packageByRegExGet RegExSearch.prefixDb
       (Some {| RegExSearch.RegEx := Some "(" |}) xStore
     = Throw (CustomError
                "Failed to retrieve packages: invalid regular expression: parentheses () not balanced"
                500).
Proof.
  split.
  - assert (Hne : "X" <> "") by discriminate.
    destruct (proj1 (packageByRegExGet_answers RegExSearch.prefixDb
                       (Some {| RegExSearch.RegEx := Some "X" |}) "X" xStore
                       eq_refl Hne) eq_refl)
      as (found & H & Hn & Hv & Hi).
    exists found. split; [exact H|]. split; [|split; [|exact Hi]].
    + rewrite Hn. vm_compute. reflexivity.
    + rewrite Hv. vm_compute. reflexivity.
  - assert (Hne : "(" <> "") by discriminate.
    exact (proj2 (packageByRegExGet_answers RegExSearch.prefixDb
                    (Some {| RegExSearch.RegEx := Some "(" |}) "(" xStore
                    eq_refl Hne) _ eq_refl).
Defined.

(** The rating of sixteen distinct numbers. *)
Lemma packageRate_latencies_witness :
  Metrics.packageRate Metrics.alwaysSixteen "any-id"
  = Return {| Metrics.NetScore := Some 1;
              Metrics.NetScoreLatency := None;
              Metrics.RampUp := Some 3;
              Metrics.RampUpLatency := None;
              Metrics.Correctness := Some 5;
              Metrics.CorrectnessLatency := None;
              Metrics.BusFactor := Some 7;
              Metrics.BusFactorLatency := None;
              Metrics.PullRequest := Some 9;
              Metrics.PullRequestLatency := None;
              Metrics.GoodPinningPractice := Some 11;
              Metrics.GoodPinningPracticeLatency := Some 12;
              Metrics.ResponsiveMaintainer := Some 13;
              Metrics.ResponsiveMaintainerLatency := None;
              Metrics.LicenseScore := Some 15;
              Metrics.LicenseScoreLatency := None |}.
Proof.
  exact (proj1 (packageRate_latencies Metrics.alwaysSixteen "any-id")
           Metrics.sixteen eq_refl).
Defined.

(** Two pages: 20 added lines, 15 of them in reviewed pull requests. *)
Lemma calculatePullRequestMetric_bounds_witness :
  PullRequest.additionsNonNegative PullRequest.twoPages
  /\ PullRequest.calculatePullRequestMetric PullRequest.twoPages
     = ([None; Some "Y3Vyc29yOjEwMA"], PullRequest.Ratio 15 20)
  /\ (0 <= 15 <= 20 /\ 0 < 20)%Z.
Proof.
  assert (Hnn : PullRequest.additionsNonNegative PullRequest.twoPages).
  { intros cursor response pr Hg Hin. unfold PullRequest.twoPages in Hg.
    destruct cursor as [cursor|].
    - destruct (String.eqb cursor "Y3Vyc29yOjEwMA"); [|discriminate].
      injection Hg as <-. cbn in Hin. destruct Hin as [<-|[]]. cbn. lia.
    - injection Hg as <-. cbn in Hin.
      destruct Hin as [<-|[<-|[<-|[]]]]; cbn; lia. }
  split; [exact Hnn|]. split; [reflexivity|].
  exact (proj2 (proj2 (proj2 (calculatePullRequestMetric_bounds
                                PullRequest.twoPages Hnn))) 15%Z 20%Z eq_refl).
Defined.

(** Alice gets a token that says she is an administrator. *)
Lemma createAuthToken_issues_token_witness :
  Auth.createAuthToken Auth.oneUser (Some Auth.aliceAsAdmin)
  = Auth.Resolved {| Auth.token := "jwt(alice,defaultSecret,10h)" |}
  /\ exists request claim name_ password_ foundUser,
       Some Auth.aliceAsAdmin = Some request
       /\ Auth.User request = Some claim /\ Auth.name claim = Some name_
       /\ Auth.Secret request ≫= Auth.password = Some password_
       /\ Auth.getUserByUsername Auth.oneUser name_ = Return (Some foundUser)
       /\ Auth.bcrypt_compare Auth.oneUser password_ (Auth.password_hash foundUser)
          = Return true
       /\ Auth.jwt_sign Auth.oneUser
            {| Auth.payload_name := name_;
               Auth.payload_isAdmin := Auth.isAdmin claim;
               Auth.payload_isBackend := Auth.isBackend claim |}
            (default "defaultSecret" (Auth.JWT_SECRET Auth.oneUser)) "10h"
          = Return "jwt(alice,defaultSecret,10h)".
Proof.
  assert (Hc : Auth.createAuthToken Auth.oneUser (Some Auth.aliceAsAdmin)
               = Auth.Resolved {| Auth.token := "jwt(alice,defaultSecret,10h)" |})
    by (vm_compute; reflexivity).
  split; [exact Hc|].
  exact (createAuthToken_issues_token Auth.oneUser _ _ Hc).
Defined.

(** The three rejections, and a lookup that throws. *)
Lemma createAuthToken_rejections_witness :
  Auth.createAuthToken Auth.oneUser (Some Auth.nobody)
  = Auth.Rejected
      (CustomError "Missing required properties 'User' or 'Password'" 400)
  /\ Auth.createAuthToken Auth.oneUser (Some Auth.bobAsks)
     = Auth.Rejected (CustomError "User not found" 404)
  /\ Auth.createAuthToken Auth.oneUser (Some Auth.aliceGuesses)
     = Auth.Rejected (CustomError "Invalid password" 401)
  /\ Auth.createAuthToken Auth.noUserTable (Some Auth.aliceAsAdmin)
     = Auth.Unsettled.
Proof.
  split; [|split; [|split]].
  - exact (proj1 (proj1 (proj2 (createAuthToken_rejections Auth.oneUser
                                  (Some Auth.nobody))) Auth.nobody eq_refl)
             eq_refl).
  - exact (proj1 (proj2 (proj1 (proj2 (createAuthToken_rejections Auth.oneUser
                                         (Some Auth.bobAsks)))
                           Auth.bobAsks eq_refl) eq_refl) eq_refl).
  - exact (proj1 (proj2 (proj2 (proj2 (proj1 (proj2
             (createAuthToken_rejections Auth.oneUser (Some Auth.aliceGuesses)))
             Auth.aliceGuesses eq_refl) eq_refl))
             {| Auth.password_hash := "$2b$10$abcdefghijklmnopqrstuv" |} eq_refl)
             eq_refl).
  - exact (proj1 (proj2 (proj2 (proj1 (proj2
             (createAuthToken_rejections Auth.noUserTable
                (Some Auth.aliceAsAdmin))) Auth.aliceAsAdmin eq_refl) eq_refl))
             (Error "connection terminated") eq_refl).
Defined.
